(** * VLive extractors (youtube_dl/extractor/vlive.py)

    A shallow embedding of the four extractors of [vlive.py] and the
    properties of their control flow: status resolution and dispatch for
    a single video, key fetching, live format aggregation, login,
    channel pagination and playlist unwrapping.

    Python values that come out of [json.loads] are modelled by [json];
    network calls and helper calls of the base classes are recorded as
    [event]s and answered by an environment [Env] that may depend on the
    history of earlier events (cookies, sessions). *)

From Stdlib Require Import String Ascii List ZArith Lia Bool Arith.
From Stdlib Require Import Permutation.
From Stdlib Require Import DecimalString.
Import ListNotations.

Set Warnings "-register-all".

Open Scope string_scope.
Open Scope list_scope.

Notation "a ^^ b" := (String.append a b) (at level 60, right associativity).

(* ===================================================================== *)
(** ** Python's [re], for the fragment the patterns of the file use *)
(* ===================================================================== *)

Module Re.

(** A pattern is a flat sequence of atoms; [GOpen]/[GClose] delimit a
    capturing group. Quantifiers range over one character class, which
    is all the patterns of [vlive.py] need. *)
Inductive atom : Type :=
| Lit (s : string)                 (* literal text *)
| Alt (l : list string)            (* (?:a|b|c), tried left to right *)
| Cls (c : ascii -> bool)          (* one character of a class *)
| Star (c : ascii -> bool)         (* c*  greedy *)
| Plus (c : ascii -> bool)         (* c+  greedy *)
| LazyStar (c : ascii -> bool)     (* c*? *)
| LazyPlus (c : ascii -> bool)     (* c+? *)
| GOpen                            (* ( *)
| GClose                           (* ) *)
| Backref (n : nat).               (* \n, groups counted from 0 here *)

Definition pattern := list atom.

Fixpoint strip_prefix (p s : string) : option string :=
  match p with
  | EmptyString => Some s
  | String a p' =>
    match s with
    | String b s' => if Ascii.eqb a b then strip_prefix p' s' else None
    | EmptyString => None
    end
  end.

(** Text consumed between the point where [from] started and the point
    where [to] is what remains. *)
Definition consumed (from to : string) : string :=
  substring 0 (String.length from - String.length to) from.

Section Matcher.
Context {A : Type}.

Definition orelse (x : option A) (y : option A) : option A :=
  match x with Some r => Some r | None => y end.

Fixpoint star (c : ascii -> bool) (s : string) (k : string -> option A)
  : option A :=
  match s with
  | String a s' => if c a then orelse (star c s' k) (k s) else k s
  | EmptyString => k s
  end.

Definition plus (c : ascii -> bool) (s : string) (k : string -> option A)
  : option A :=
  match s with
  | String a s' => if c a then star c s' k else None
  | EmptyString => None
  end.

Fixpoint lazy_star (c : ascii -> bool) (s : string) (k : string -> option A)
  : option A :=
  match s with
  | String a s' => orelse (k s) (if c a then lazy_star c s' k else None)
  | EmptyString => k s
  end.

Definition lazy_plus (c : ascii -> bool) (s : string) (k : string -> option A)
  : option A :=
  match s with
  | String a s' => if c a then lazy_star c s' k else None
  | EmptyString => None
  end.

Fixpoint alt (l : list string) (s : string) (k : string -> option A)
  : option A :=
  match l with
  | [] => None
  | p :: l' =>
      orelse (match strip_prefix p s with Some s' => k s' | None => None end)
             (alt l' s k)
  end.

(** Backtracking matcher. [starts] is the stack of positions where the
    groups still open began, [caps] the groups closed so far. *)
Fixpoint match_atoms (p : pattern) (s : string) (starts : list string)
         (caps : list string) (k : string -> list string -> option A)
  : option A :=
  match p with
  | [] => k s caps
  | Lit l :: p' =>
      match strip_prefix l s with
      | Some s' => match_atoms p' s' starts caps k
      | None => None
      end
  | Alt l :: p' => alt l s (fun s' => match_atoms p' s' starts caps k)
  | Cls c :: p' =>
      match s with
      | String a s' => if c a then match_atoms p' s' starts caps k else None
      | EmptyString => None
      end
  | Star c :: p' => star c s (fun s' => match_atoms p' s' starts caps k)
  | Plus c :: p' => plus c s (fun s' => match_atoms p' s' starts caps k)
  | LazyStar c :: p' =>
      lazy_star c s (fun s' => match_atoms p' s' starts caps k)
  | LazyPlus c :: p' =>
      lazy_plus c s (fun s' => match_atoms p' s' starts caps k)
  | GOpen :: p' => match_atoms p' s (s :: starts) caps k
  | GClose :: p' =>
      match starts with
      | st :: rest => match_atoms p' s rest (caps ++ [consumed st s]) k
      | [] => None
      end
  | Backref n :: p' =>
      match nth_error caps n with
      | Some g =>
          match strip_prefix g s with
          | Some s' => match_atoms p' s' starts caps k
          | None => None
          end
      | None => None
      end
  end.
End Matcher.

(** [re.match]: anchored at the start, the groups of the match. *)
Definition match_ (p : pattern) (s : string) : option (list string) :=
  match_atoms p s [] [] (fun _ caps => Some caps).

(** [re.search]: the leftmost position at which the pattern matches. *)
Fixpoint search (p : pattern) (s : string) : option (list string) :=
  match match_ p s with
  | Some caps => Some caps
  | None =>
    match s with
    | String _ s' => search p s'
    | EmptyString => None
    end
  end.

(** Character classes. *)
Definition code (a : ascii) : nat := nat_of_ascii a.
Definition is_char (x : ascii) (a : ascii) : bool := Ascii.eqb a x.
Definition between (lo hi : nat) (a : ascii) : bool :=
  Nat.leb lo (code a) && Nat.leb (code a) hi.
Definition dot (a : ascii) : bool := negb (Nat.eqb (code a) 10).
Definition digit (a : ascii) : bool := between 48 57 a.
Definition digit_or_upper (a : ascii) : bool := digit a || between 65 90 a.
Definition digit_or_dash (a : ascii) : bool :=
  digit a || Nat.eqb (code a) 45.
(** [\s] on a [str] pattern, for code points below 256. *)
Definition space (a : ascii) : bool :=
  between 9 13 a || between 28 32 a
  || Nat.eqb (code a) 133 || Nat.eqb (code a) 160.
Definition none_of (l : list ascii) (a : ascii) : bool :=
  negb (existsb (Ascii.eqb a) l).
Definition one_of (l : list ascii) (a : ascii) : bool :=
existsb (Ascii.eqb a) l.

End Re.


(* ===================================================================== *)
(** ** Python values *)
(* ===================================================================== *)

(** What [json.loads] returns. [JNull] is Python's [None]. Numbers are the
    integers the site uses for ids and flags. [JObj] lists the items of a
    [dict]; a key is looked up from the left. *)
Inductive json : Type :=
| JNull
| JBool (b : bool)
| JNum (n : Z)
| JStr (s : string)
| JArr (l : list json)
| JObj (l : list (string * json)).

(** Exceptions, by their Python class. [RegexNotFoundError] is a subclass
    of [ExtractorError]. *)
Inductive exn : Type :=
| ExtractorError (msg : string) (expected : bool)
| RegexNotFoundError (msg : string)
| KeyError (key : string)
| TypeError
| AttributeError
| UnboundLocalError
| AssertionError.

Inductive result (A : Type) : Type :=
| Ok (a : A)
| Raise (e : exn).
Arguments Ok {A} a.
Arguments Raise {A} e.

Definition rbind {A B} (r : result A) (f : A -> result B) : result B :=
  match r with Ok a => f a | Raise e => Raise e end.

(** [bool(x)] *)
Definition truthy (j : json) : bool :=
  match j with
  | JNull => false
  | JBool b => b
  | JNum n => negb (Z.eqb n 0)
  | JStr s => negb (String.eqb s "")
  | JArr l => match l with [] => false | _ => true end
  | JObj l => match l with [] => false | _ => true end
  end.

(** [x == 'lit'] for a string literal *)
Definition py_eq_str (j : json) (lit : string) : bool :=
  match j with JStr s => String.eqb s lit | _ => false end.

(** [None in (a, b)] *)
Definition py_in_none (a b : json) : bool :=
  match a, b with
  | JNull, _ => true
  | _, JNull => true
  | _, _ => false
  end.

(** [x in ('a', 'b', ...)] for a tuple of string literals *)
Definition py_in (j : json) (lits : list string) : bool :=
  existsb (py_eq_str j) lits.

Fixpoint lookup (k : string) (l : list (string * json)) : option json :=
  match l with
  | [] => None
  | (k', v) :: l' => if String.eqb k k' then Some v else lookup k l'
  end.

(** [x[k]] for a string key *)
Definition py_getitem (j : json) (k : string) : result json :=
  match j with
  | JObj l => match lookup k l with Some v => Ok v | None => Raise (KeyError k) end
  | _ => Raise TypeError
  end.

(** [x.get(k, default)] *)
Definition py_get (j : json) (k : string) (default : json) : result json :=
  match j with
  | JObj l => match lookup k l with Some v => Ok v | None => Ok default end
  | _ => Raise AttributeError
  end.

(** [x[k1][k2]...] *)
Fixpoint py_path (j : json) (ks : list string) : result json :=
  match ks with
  | [] => Ok j
  | k :: ks' => rbind (py_getitem j k) (fun v => py_path v ks')
  end.

Fixpoint chars (s : string) : list json :=
  match s with
  | EmptyString => []
  | String a s' => JStr (String a EmptyString) :: chars s'
  end.

(** [for v in x] *)
Definition py_iter (j : json) : result (list json) :=
  match j with
  | JArr l => Ok l
  | JObj l => Ok (map (fun kv => JStr (fst kv)) l)
  | JStr s => Ok (chars s)
  | _ => Raise TypeError
  end.

Definition is_list (j : json) : bool := match j with JArr _ => true | _ => false end.
Definition is_str (j : json) : bool := match j with JStr _ => true | _ => false end.
Definition is_bool (j : json) : bool := match j with JBool _ => true | _ => false end.

(** [utils.try_get(src, getter, expected_type)]: the getter's exceptions
    ([AttributeError], [KeyError], [TypeError], [IndexError]) and values of
    another type give [None]. *)
Definition try_get (got : result json) (expected_type : json -> bool) : json :=
  match got with
  | Ok v => if expected_type v then v else JNull
  | Raise _ => JNull
  end.

(** [str(n)] *)
Definition str_of_Z (n : Z) : string := NilZero.string_of_int (Z.to_int n).

(** Stream variants ([formats] entries). *)
Record format : Type := mkFormat {
  format_id : string;
  format_url : string;
  tbr : Z
}.

(** Values of the result dicts. *)
Inductive pyval : Type :=
| PJ (j : json)
| PFormats (l : list format).

Definition dict := list (string * pyval).

(** [d[k] = v] *)
Fixpoint dict_set (k : string) (v : pyval) (d : dict) : dict :=
  match d with
  | [] => [(k, v)]
  | (k', v') :: d' =>
      if String.eqb k k' then (k, v) :: d' else (k', v') :: dict_set k v d'
  end.

(** [d.update(other)] *)
Definition dict_update (d other : dict) : dict :=
  fold_left (fun acc kv => dict_set (fst kv) (snd kv) acc) other d.

Fixpoint dict_get (k : string) (d : dict) : option pyval :=
  match d with
  | [] => None
  | (k', v) :: d' => if String.eqb k k' then Some v else dict_get k d'
  end.

(** What an extractor returns: an info dict, [url_result(...)] or
    [playlist_result(...)]. *)
Inductive ie_result : Type :=
| Video (info : dict)
| UrlResult (url : string) (ie : string) (video_id : json)
| PlaylistResult (entries : list ie_result) (playlist_id : string) (title : json).

(* ===================================================================== *)
(** ** The outside world *)
(* ===================================================================== *)

Record request : Type := mkRequest {
  url : string;
  query : list (string * string);
  data : option (list (string * string));
  headers : list (string * string)
}.

(** Calls that leave the extractor, in the order they are made. *)
Inductive event : Type :=
| Fetch (r : request)
| M3u8Formats (m3u8_url : json) (video_id : string) (m3u8_id : json)
| VideoInfo (video_id : string) (long_video_id : json) (key : json)
| Screen (msg : string)
| Warning (msg : string).

(** Answers of the world. They may depend on the events so far (cookies,
    sessions, a live stream that ends). The [_] cache-buster of the
    channel queries, [int(time.time())], is not part of a [request]. *)
Record Env : Type := mkEnv {
  http : list event -> request -> option string;
  json_loads : string -> option json;
  m3u8 : list event -> json -> json -> option (list format);
  naver_video_info : list event -> string -> json -> json -> result dict;
  sort_formats : list format -> result (list format);
  login_info : json * json;
  noplaylist : json;
  py_repr : json -> string;
  clean_html : string -> string
}.

(** Computations: from the history to a result and the new events. *)
Definition M (A : Type) : Type := list event -> result A * list event.

Definition ret {A} (a : A) : M A := fun _ => (Ok a, []).

Definition raise {A} (e : exn) : M A := fun _ => (Raise e, []).

Definition lift {A} (r : result A) : M A := fun _ => (r, []).

Definition emit (ev : event) : M unit := fun _ => (Ok tt, [ev]).

Definition bind {A B} (m : M A) (f : A -> M B) : M B :=
  fun h =>
    match m h with
    | (Ok a, e1) => let (r, e2) := f a (h ++ e1) in (r, e1 ++ e2)
    | (Raise e, e1) => (Raise e, e1)
    end.

Declare Scope py_scope.
Delimit Scope py_scope with py.
Notation "x <- c ;; k" := (bind c (fun x => k))
  (at level 61, c at next level, right associativity) : py_scope.
Notation "c ;;; k" := (bind c (fun _ => k))
  (at level 61, right associativity) : py_scope.
Open Scope py_scope.

(** [str(x)], ['%s' % x] *)
Definition py_str (env : Env) (j : json) : string :=
  match j with
  | JNull => "None"
  | JBool true => "True"
  | JBool false => "False"
  | JNum n => str_of_Z n
  | JStr s => s
  | _ => py_repr env j
  end.

(* ===================================================================== *)
(** ** Helpers of the base classes *)
(* ===================================================================== *)

Module InfoExtractor.
Section WithEnv.
Variable env : Env.

(** Modelled from the spec: [InfoExtractor._download_webpage] and
    [_request_webpage] (common.py) are not part of this file. One request
    is made; with [fatal] (the default) a failed fetch raises, as in "a
    failed page fetch ... is fatal to that single extraction call". *)
Definition _download_webpage (r : request) : M string :=
  fun h =>
    match http env h r with
    | Some body => (Ok body, [Fetch r])
    | None => (Raise (ExtractorError "Unable to download webpage" false), [Fetch r])
    end.

Definition _request_webpage (r : request) : M unit :=
  _download_webpage r ;;; ret tt.

(** [fatal=False]: a warning, and [False] is returned. *)
Definition _download_webpage_nonfatal (r : request) : M json :=
  fun h =>
    match http env h r with
    | Some body => (Ok (JStr body), [Fetch r])
    | None => (Ok (JBool false), [Fetch r; Warning "Unable to download webpage"])
    end.

(** Modelled from the spec: [InfoExtractor._parse_json] (common.py) is not
    part of this file; "a failed JSON parse ... is fatal". The message
    carries the video id. *)
Definition _parse_json (json_string : json) (video_id : string) : M json :=
  match json_string with
  | JStr s =>
      match json_loads env s with
      | Some j => ret j
      | None => raise (ExtractorError (video_id ^^ ": Failed to parse JSON ") false)
      end
  | _ => raise TypeError
  end.

Definition _download_json (r : request) (video_id : string) : M json :=
  body <- _download_webpage r ;;
  _parse_json (JStr body) video_id.

(** Modelled from the spec: [InfoExtractor._search_regex] (common.py) is
    not part of this file. It searches the text for the pattern it is
    given, [re.search]: the group asked for of the leftmost match;
    without a match the default when one is given, an error "naming the
    missing field" when fatal, and [None] with a warning when not. *)
Definition _search_regex (p : Re.pattern) (s : string) (name : string)
           (default : option json) (fatal : bool) (group : nat) : M json :=
  match Re.search p s with
  | Some caps =>
      match nth_error caps group with
      | Some g => ret (JStr g)
      | None => raise AssertionError
      end
  | None =>
      match default with
      | Some d => ret d
      | None =>
          if fatal then raise (RegexNotFoundError ("Unable to extract " ^^ name))
          else emit (Warning ("unable to extract " ^^ name)) ;;; ret JNull
      end
  end.

(** [_html_search_regex]: the match goes through [clean_html]. *)
Definition _html_search_regex (p : Re.pattern) (s : string) (name : string)
           (default : option json) (fatal : bool) (group : nat) : M json :=
  res <- _search_regex p s name default fatal group ;;
  match res with
  | JStr g => ret (JStr (clean_html env g))
  | other => ret other
  end.

(** [_match_id]: [re.match(_VALID_URL, url)], [assert m], group [id]. *)
Definition _match_id (valid_url : Re.pattern) (group : nat) (u : string)
  : M string :=
  match Re.match_ valid_url u with
  | Some caps =>
      match nth_error caps group with
      | Some g => ret g
      | None => raise AssertionError
      end
  | None => raise AssertionError
  end.

Definition suitable (valid_url : Re.pattern) (u : string) : bool :=
  match Re.match_ valid_url u with Some _ => true | None => false end.

(** Modelled from the spec: [InfoExtractor._extract_m3u8_formats]
    (common.py) is not part of this file. One manifest per call; with
    [fatal=False] a failed entry is skipped ("fail soft (skip, don't
    abort) on a single stream entry's extraction error"): a warning, and
    no formats. *)
Definition _extract_m3u8_formats (m3u8_url : json) (video_id : string)
           (m3u8_id : json) (fatal : bool) : M (list format) :=
  fun h =>
    match m3u8 env h m3u8_url m3u8_id with
    | Some fs => (Ok fs, [M3u8Formats m3u8_url video_id m3u8_id])
    | None =>
        if fatal
        then (Raise (ExtractorError "Failed to download m3u8 information" false),
              [M3u8Formats m3u8_url video_id m3u8_id])
        else (Ok [], [M3u8Formats m3u8_url video_id m3u8_id;
                      Warning "Failed to download m3u8 information"])
    end.

(** [InfoExtractor._sort_formats] (common.py) is not part of this file:
    the sorter is the world's. The list is sorted in place in Python; here
    the sorted list is returned. *)
Definition _sort_formats (formats : list format) : M (list format) :=
  lift (sort_formats env formats).

(** [to_screen] *)
Definition to_screen (msg : string) : M unit := emit (Screen msg).

End WithEnv.
End InfoExtractor.

(** Modelled from the spec: [utils.merge_dicts] is not part of this file;
    the common fields are "merge[d]" with the formats and subtitle tracks.
    Earlier dicts win, [None] values are skipped, an empty string gives way
    to a later non-empty one. *)
Definition merge_into (merged : dict) (kv : string * pyval) : dict :=
  let (k, v) := kv in
  match v with
  | PJ JNull => merged
  | _ =>
      match dict_get k merged with
      | None => dict_set k v merged
      | Some (PJ (JStr "")) =>
          match v with
          | PJ (JStr s) => if truthy (JStr s) then dict_set k v merged else merged
          | _ => merged
          end
      | Some _ => merged
      end
  end.

Definition merge_dicts (a b : dict) : dict :=
  fold_left merge_into b (fold_left merge_into a []).

Module NaverBaseIE.
Section WithEnv.
Variable env : Env.

(** Modelled from the spec: [NaverBaseIE._extract_video_info] (naver.py)
    is not part of this file: the Format/Key Collaborator, "an opaque
    function" of the short id, the long-form id and the key. *)
Definition _extract_video_info (video_id : string) (vid : json) (key : json)
  : M dict :=
  fun h => (naver_video_info env h video_id vid key, [VideoInfo video_id vid key]).

End WithEnv.
End NaverBaseIE.

(* ===================================================================== *)
(** ** class VLiveIE *)
(* ===================================================================== *)

Definition dq : ascii := ascii_of_nat 34.

(** [https?://(?:(?:www|m)\.)?vlive\.tv/] *)
Definition vlive_host : Re.pattern :=
  [Re.Alt ["https"; "http"]; Re.Lit "://"; Re.Alt ["www."; "m."; ""];
   Re.Lit "vlive.tv/"].

(** [>window\.__PRELOADED_STATE__=({.+})</script>] *)
Definition PRELOAD_STATE_RE : Re.pattern :=
  [Re.Lit ">window.__PRELOADED_STATE__=";
   Re.GOpen; Re.Lit "{"; Re.Plus Re.dot; Re.Lit "}"; Re.GClose;
   Re.Lit "</script>"].

Definition PRELOAD_STATE_FIELD : string := "preload state".

Definition officialVideo : list string := ["postDetail"; "post"; "officialVideo"].

Module VLiveIE.

Definition ie_key : string := "VLive".

(** [https?://(?:(?:www|m)\.)?vlive\.tv/video/(?P<id>[0-9]+)] *)
Definition _VALID_URL : Re.pattern :=
  vlive_host ++ [Re.Lit "video/"; Re.GOpen; Re.Plus Re.digit; Re.GClose].

Definition video_url (video_id : string) : string :=
  "https://www.vlive.tv/video/" ^^ video_id.

Definition inkey_url (video_id : string) : string :=
  "https://www.vlive.tv/globalv-web/vam-web/video/v1.0/vod/" ^^ video_id ^^ "/inkey".

Definition playinfo_url (video_id : string) : string :=
  "https://www.vlive.tv/globalv-web/vam-web/old/v3/live/" ^^ video_id ^^ "/playInfo".

Definition LOGIN_URL : string := "https://www.vlive.tv/auth/email/login".

Section WithEnv.
Variable env : Env.

Import InfoExtractor.

Definition is_logged_in : M bool :=
  login_info <- _download_json env
    (mkRequest "https://www.vlive.tv/auth/loginInfo" [] None
               [("Referer", "https://www.vlive.tv/home")]) "None" ;;
  ret (truthy (try_get (py_path login_info ["message"; "login"]) is_bool)).

Definition _login : M unit :=
  let (email, password) := login_info env in
  if py_in_none email password then ret tt
  else
    _request_webpage env (mkRequest LOGIN_URL [] None []) ;;;
    _download_webpage env
      (mkRequest LOGIN_URL []
         (Some [("email", py_str env email); ("pwd", py_str env password)])
         [("Referer", LOGIN_URL);
          ("Content-Type", "application/x-www-form-urlencoded")]) ;;;
    logged <- is_logged_in ;;
    if negb logged then raise (ExtractorError "Unable to log in" true)
    else ret tt.

Definition _real_initialize : M unit := _login.

Definition _get_common_fields (preload_state : json) : M dict :=
  post_title <- lift (py_path preload_state ["postDetail"; "post"; "title"]) ;;
  title <- match post_title with
           | JStr s => ret (JStr ("[V LIVE] " ^^ s))
           | _ => raise TypeError
           end ;;
  creator <- lift (py_path preload_state ["channel"; "channel"; "channelName"]) ;;
  thumbnail <- lift (py_path preload_state (officialVideo ++ ["thumb"])) ;;
  ret [("title", PJ title); ("creator", PJ creator); ("thumbnail", PJ thumbnail)].

Definition _replay (video_id : string) (preload_state : json) (key : json)
  : M ie_result :=
  long_video_id <- lift (py_path preload_state (officialVideo ++ ["vodId"])) ;;
  common <- _get_common_fields preload_state ;;
  video_info <- NaverBaseIE._extract_video_info env video_id long_video_id key ;;
  ret (Video (merge_dicts common video_info)).

(** The [for vid in ...: formats.extend(...)] loop of [_live]. *)
Fixpoint live_formats (video_id : string) (stream_list : list json)
         (formats : list format) : M (list format) :=
  match stream_list with
  | [] => ret formats
  | vid :: rest =>
      service_url <- lift (py_getitem vid "serviceUrl") ;;
      stream_name <- lift (py_get vid "streamName" JNull) ;;
      fs <- _extract_m3u8_formats env service_url video_id stream_name false ;;
      live_formats video_id rest (formats ++ fs)
  end.

Definition _live (video_id : string) (preload_state : json) : M ie_result :=
  live_webpage <- _download_webpage env
    (mkRequest (playinfo_url video_id) [] None
               [("Referer", video_url video_id)]) ;;
  live_json <- _parse_json env (JStr live_webpage) video_id ;;
  res <- lift (py_getitem live_json "result") ;;
  stream_list <- lift (py_get res "streamList" (JArr [])) ;;
  vids <- lift (py_iter stream_list) ;;
  formats <- live_formats video_id vids [] ;;
  formats <- _sort_formats env formats ;;
  info <- _get_common_fields preload_state ;;
  ret (Video (dict_update info
                [("id", PJ (JStr video_id)); ("formats", PFormats formats);
                 ("is_live", PJ (JBool true))])).

(** Lines 115-128: the status, and the key when one is fetched. *)
Definition status_and_key (video_id : string) (upcoming vid_type : json)
  : M (json * option json) :=
  if py_eq_str vid_type "LIVE" then
    if truthy upcoming then ret (JStr "UPCOMING", None)
    else ret (vid_type, None)
  else
    let status := vid_type in
    key_webpage <- _download_webpage env
      (mkRequest (inkey_url video_id) [] None
                 [("Referer", video_url video_id)]) ;;
    key_json <- _parse_json env (JStr key_webpage) video_id ;;
    key <- lift (py_getitem key_json "inkey") ;;
    ret (status, Some key).

(** Lines 112-128: the status resolver. *)
Definition resolve_status (video_id : string) (preload_state : json)
  : M (json * option json) :=
  upcoming <- lift (py_path preload_state (officialVideo ++ ["upcomingYn"])) ;;
  vid_type <- lift (py_path preload_state (officialVideo ++ ["type"])) ;;
  status_and_key video_id upcoming vid_type.

(** Lines 130-147: the dispatch on the status. *)
Definition dispatch (video_id : string) (preload_state : json)
           (status : json) (key : option json) : M ie_result :=
  if py_in status ["LIVE_ON_AIR"; "BIG_EVENT_ON_AIR"; "LIVE"] then
    _live video_id preload_state
  else if py_in status ["VOD_ON_AIR"; "BIG_EVENT_INTRO"; "VOD"] then
    match key with
    | Some k => _replay video_id preload_state k
    | None => raise UnboundLocalError
    end
  else if py_eq_str status "LIVE_END" then
    raise (ExtractorError "Uploading for replay. Please wait..." true)
  else if py_in status ["COMING_SOON"; "UPCOMING"] then
    raise (ExtractorError "Coming soon!" true)
  else if py_eq_str status "CANCELED" then
    raise (ExtractorError
             "We are sorry, but the live broadcast has been canceled." true)
  else if py_eq_str status "ONLY_APP" then
    raise (ExtractorError "Unsupported video type" true)
  else
    raise (ExtractorError ("Unknown status " ^^ py_str env status) false).

(** Lines 104-110: the page state parser. *)
Definition parse_preload_state (webpage : string) (video_id : string) : M json :=
  raw <- _search_regex PRELOAD_STATE_RE webpage PRELOAD_STATE_FIELD
                       None true 0 ;;
  _parse_json env raw video_id.

Definition _real_extract (u : string) : M ie_result :=
  video_id <- _match_id _VALID_URL 0 u ;;
  webpage <- _download_webpage env (mkRequest (video_url video_id) [] None []) ;;
  preload_state <- parse_preload_state webpage video_id ;;
  sk <- resolve_status video_id preload_state ;;
  dispatch video_id preload_state (fst sk) (snd sk).

Definition _download_init_page (video_id : string) : M string :=
  _download_webpage env
    (mkRequest "https://www.vlive.tv/video/init/view" []
       (Some [("videoSeq", video_id)])
       [("Referer", "https://www.vlive.tv/video/" ^^ video_id);
        ("Content-Type", "application/x-www-form-urlencoded")]).

End WithEnv.
End VLiveIE.

(* ===================================================================== *)
(** ** class VLiveChannelIE *)
(* ===================================================================== *)

Module VLiveChannelIE.

(** [https?://channels\.vlive\.tv/(?P<id>[0-9A-Z]+)] *)
Definition _VALID_URL : Re.pattern :=
  [Re.Alt ["https"; "http"]; Re.Lit "://channels.vlive.tv/";
   Re.GOpen; Re.Plus Re.digit_or_upper; Re.GClose].

Definition _APP_ID : string := "8c6cc7b45d2568fb668be6e05b6e5a3b".

(** [<script[^>]+src=([\x22\'])(?P<url>http.+?/app\.js.*?)\1], with
    [\x22] for the double quote *)
Definition APP_JS_RE : Re.pattern :=
  [Re.Lit "<script"; Re.Plus (Re.none_of [">"%char]); Re.Lit "src=";
   Re.GOpen; Re.Cls (Re.one_of [dq; "'"%char]); Re.GClose;
   Re.GOpen; Re.Lit "http"; Re.LazyPlus Re.dot; Re.Lit "/app.js";
   Re.LazyStar Re.dot; Re.GClose; Re.Backref 0].

(** [Global\.VFAN_APP_ID\s*=\s*[\'\x22]([^\'\x22]+)[\'\x22]] *)
Definition APP_ID_RE : Re.pattern :=
  [Re.Lit "Global.VFAN_APP_ID"; Re.Star Re.space; Re.Lit "=";
   Re.Star Re.space; Re.Cls (Re.one_of ["'"%char; dq]);
   Re.GOpen; Re.Plus (Re.none_of ["'"%char; dq]); Re.GClose;
   Re.Cls (Re.one_of ["'"%char; dq])].

Definition list_url : string :=
  "http://api.vfan.vlive.tv/vproxy/channelplus/getChannelVideoList".

Definition decode_url : string :=
  "http://api.vfan.vlive.tv/vproxy/channelplus/decodeChannelCode".

Section WithEnv.
Variable env : Env.

Import InfoExtractor.

Definition list_request (app_id : json) (channel_seq : json) (page_num : Z)
  : request :=
  mkRequest list_url
    [("app_id", py_str env app_id); ("channelSeq", py_str env channel_seq);
     ("maxNumOfRows", "100"); ("pageNo", str_of_Z page_num)]
    None [].

Definition video_entry (video_id : string) : ie_result :=
  UrlResult ("http://www.vlive.tv/video/" ^^ video_id) VLiveIE.ie_key
            (JStr video_id).

(** The [for video in videos] loop: items without a [videoSeq] are passed
    over with [continue]. *)
Fixpoint page_entries (videos : list json) (entries : list ie_result)
  : result (list ie_result) :=
  match videos with
  | [] => Ok entries
  | video :: rest =>
      rbind (py_get video "videoSeq" JNull) (fun video_id =>
        if negb (truthy video_id) then page_entries rest entries
        else
          let video_id := py_str env video_id in
          page_entries rest (entries ++ [video_entry video_id]))
  end.

(** The [for page_num in itertools.count(1)] loop; [fuel] bounds the
    number of pages fetched, [None] is a loop that has not ended yet. *)
Fixpoint channel_pages (fuel : nat) (channel_code : string)
         (app_id channel_seq : json) (page_num : Z)
         (channel_name : json) (entries : list ie_result)
  : M (option (json * list ie_result)) :=
  match fuel with
  | O => ret None
  | S fuel' =>
      video_list <- _download_json env
        (list_request app_id channel_seq page_num) channel_code ;;
      let channel_name :=
        if negb (truthy channel_name)
        then try_get (py_path video_list ["result"; "channelInfo"; "channelName"])
                     is_str
        else channel_name in
      let videos := try_get (py_path video_list ["result"; "videoList"]) is_list in
      if negb (truthy videos) then ret (Some (channel_name, entries))
      else
        items <- lift (py_iter videos) ;;
        entries <- lift (page_entries items entries) ;;
        channel_pages fuel' channel_code app_id channel_seq (page_num + 1)
                      channel_name entries
  end.

Definition find_app_id (webpage : string) (channel_code : string) : M json :=
  app_js_url <- _search_regex APP_JS_RE webpage "app js" (Some JNull) true 1 ;;
  app_id <-
    match app_js_url with
    | JStr js_url =>
        if truthy app_js_url then
          app_js <- _download_webpage_nonfatal env (mkRequest js_url [] None []) ;;
          match app_js with
          | JStr body =>
              if truthy app_js
              then _search_regex APP_ID_RE body "app id" (Some JNull) true 0
              else ret JNull
          | _ => ret JNull
          end
        else ret JNull
    | _ => ret JNull
    end ;;
  ret (if truthy app_id then app_id else JStr _APP_ID).

Definition _real_extract (fuel : nat) (u : string) : M (option ie_result) :=
  channel_code <- _match_id _VALID_URL 0 u ;;
  webpage <- _download_webpage env
    (mkRequest ("http://channels.vlive.tv/" ^^ channel_code ^^ "/video")
               [] None []) ;;
  app_id <- find_app_id webpage channel_code ;;
  channel_info <- _download_json env
    (mkRequest decode_url
       [("app_id", py_str env app_id); ("channelCode", channel_code)] None [])
    channel_code ;;
  channel_seq <- lift (py_path channel_info ["result"; "channelSeq"]) ;;
  let channel_name := JNull in
  let entries := [] in
  looped <- channel_pages fuel channel_code app_id channel_seq 1
                          channel_name entries ;;
  match looped with
  | Some (channel_name, entries) =>
      ret (Some (PlaylistResult entries channel_code channel_name))
  | None => ret None
  end.

End WithEnv.
End VLiveChannelIE.

(* ===================================================================== *)
(** ** class VLivePlaylistIE *)
(* ===================================================================== *)

Module VLivePlaylistIE.

(** [https?://(?:(?:www|m)\.)?vlive\.tv/video/(?P<video_id>[0-9]+)/playlist/(?P<id>[0-9]+)] *)
Definition _VALID_URL : Re.pattern :=
  vlive_host ++ [Re.Lit "video/"; Re.GOpen; Re.Plus Re.digit; Re.GClose;
                 Re.Lit "/playlist/"; Re.GOpen; Re.Plus Re.digit; Re.GClose].

Definition _VIDEO_URL_TEMPLATE (video_id : string) : string :=
  "http://www.vlive.tv/video/" ^^ video_id.

(** [playlistVideoSeqs\s*=\s*(\[[^]]+\])] *)
Definition PLAYLIST_SEQS_RE : Re.pattern :=
  [Re.Lit "playlistVideoSeqs"; Re.Star Re.space; Re.Lit "="; Re.Star Re.space;
   Re.GOpen; Re.Lit "["; Re.Plus (Re.none_of ["]"%char]); Re.Lit "]"; Re.GClose].

(** [<div[^>]+class=\x22[^\x22]*multicam_playlist[^>]*>\s*<h3[^>]+>([^<]+)] *)
Definition PLAYLIST_TITLE_RE : Re.pattern :=
  [Re.Lit "<div"; Re.Plus (Re.none_of [">"%char]); Re.Lit "class=";
   Re.Cls (Re.is_char dq); Re.Star (Re.none_of [dq]);
   Re.Lit "multicam_playlist"; Re.Star (Re.none_of [">"%char]); Re.Lit ">";
   Re.Star Re.space; Re.Lit "<h3"; Re.Plus (Re.none_of [">"%char]); Re.Lit ">";
   Re.GOpen; Re.Plus (Re.none_of ["<"%char]); Re.GClose].

Section WithEnv.
Variable env : Env.

Import InfoExtractor.

Definition _build_video_result (video_id : string) (message : string)
  : M ie_result :=
  to_screen message ;;;
  ret (UrlResult (_VIDEO_URL_TEMPLATE video_id) VLiveIE.ie_key (JStr video_id)).

Definition _real_extract (u : string) : M ie_result :=
  match Re.match_ _VALID_URL u with
  | Some [video_id; playlist_id] =>
      if truthy (noplaylist env) then
        _build_video_result video_id
          ("Downloading just video " ^^ video_id ^^ " because of --no-playlist")
      else
        to_screen ("Downloading playlist " ^^ playlist_id
                   ^^ " - add --no-playlist to just download video") ;;;
        webpage <- _download_webpage env
          (mkRequest ("http://www.vlive.tv/video/" ^^ video_id ^^ "/playlist/"
                      ^^ playlist_id) [] None []) ;;
        raw_item_ids <- _search_regex PLAYLIST_SEQS_RE webpage
                          "playlist video seqs" (Some JNull) false 0 ;;
        if negb (truthy raw_item_ids) then
          _build_video_result video_id
            ("Downloading just video " ^^ video_id
             ^^ " because no playlist was found")
        else
          item_ids <- _parse_json env raw_item_ids playlist_id ;;
          items <- lift (py_iter item_ids) ;;
          let entries :=
            map (fun item_id =>
                   UrlResult (_VIDEO_URL_TEMPLATE (py_str env item_id))
                             VLiveIE.ie_key (JStr (py_str env item_id))) items in
          playlist_name <- _html_search_regex env PLAYLIST_TITLE_RE webpage
                             "playlist title" None false 0 ;;
          ret (PlaylistResult entries playlist_id playlist_name)
  | _ => raise AttributeError
  end.

End WithEnv.
End VLivePlaylistIE.

(** [VLiveIE.suitable] *)
Definition VLiveIE_suitable (u : string) : bool :=
  if InfoExtractor.suitable VLivePlaylistIE._VALID_URL u then false
  else InfoExtractor.suitable VLiveIE._VALID_URL u.

(* ===================================================================== *)
(** ** class VLivePostIE *)
(* ===================================================================== *)

Module VLivePostIE.

(** [https?://(?:(?:www|m)\.)?vlive\.tv/post/(?P<id>[\d-]+)] *)
Definition _VALID_URL : Re.pattern :=
  vlive_host ++ [Re.Lit "post/"; Re.GOpen; Re.Plus Re.digit_or_dash; Re.GClose].

Section WithEnv.
Variable env : Env.

Import InfoExtractor.

Definition _real_extract (u : string) : M ie_result :=
  video_id <- _match_id _VALID_URL 0 u ;;
  webpage <- _download_webpage env (mkRequest u [] None []) ;;
  preload_state <- VLiveIE.parse_preload_state env webpage video_id ;;
  vid_id <- lift (py_path preload_state (officialVideo ++ ["videoSeq"])) ;;
  ret (UrlResult (VLivePlaylistIE._VIDEO_URL_TEMPLATE (py_str env vid_id))
                 VLiveIE.ie_key vid_id).

End WithEnv.
End VLivePostIE.

(* ===================================================================== *)
(** ** Observations on runs, and mocked worlds *)
(* ===================================================================== *)

(** The request to the decryption-key endpoint of a video. *)
Definition key_request (video_id : string) : request :=
  mkRequest (VLiveIE.inkey_url video_id) [] None
            [("Referer", VLiveIE.video_url video_id)].

(** A request to the decryption-key endpoint of a video. *)
Definition is_key_fetch (video_id : string) (ev : event) : bool :=
  match ev with
  | Fetch r => String.eqb (url r) (VLiveIE.inkey_url video_id)
  | _ => false
  end.

(** A format-extraction call: the replay collaborator, or one manifest of
    a live stream. *)
Definition is_format_extraction (ev : event) : bool :=
  match ev with
  | VideoInfo _ _ _ => true
  | M3u8Formats _ _ _ => true
  | _ => false
  end.

Definition is_replay_extraction (ev : event) : bool :=
  match ev with
  | VideoInfo _ _ _ => true
  | _ => false
  end.

Definition is_fetch (ev : event) : bool :=
  match ev with
  | Fetch _ => true
  | _ => false
  end.

Definition count (p : event -> bool) (evs : list event) : nat :=
  length (filter p evs).

(** Every event a computation makes, from whatever history, satisfies [P]. *)
Definition emits {A} (P : event -> Prop) (m : M A) : Prop :=
  forall h, Forall P (snd (m h)).

Definition page_request (video_id : string) : request :=
  mkRequest (VLiveIE.video_url video_id) [] None [].

Definition playinfo_request (video_id : string) : request :=
  mkRequest (VLiveIE.playinfo_url video_id) [] None
            [("Referer", VLiveIE.video_url video_id)].

(** The type was read from the page state and is not [LIVE]. *)
Definition reads_other_type (env : Env) (video_id : string) (h : list event)
  : Prop :=
  exists webpage preload_state upcoming vid_type,
    http env h (page_request video_id) = Some webpage
    /\ fst (VLiveIE.parse_preload_state env webpage video_id
              (h ++ [Fetch (page_request video_id)])) = Ok preload_state
    /\ py_path preload_state (officialVideo ++ ["upcomingYn"]) = Ok upcoming
    /\ py_path preload_state (officialVideo ++ ["type"]) = Ok vid_type
    /\ vid_type <> JStr "LIVE".

(** The names the dispatch of [VLiveIE._real_extract] knows. *)
Definition known_statuses : list string :=
  ["LIVE_ON_AIR"; "BIG_EVENT_ON_AIR"; "LIVE";
   "VOD_ON_AIR"; "BIG_EVENT_INTRO"; "VOD";
   "LIVE_END"; "COMING_SOON"; "UPCOMING"; "CANCELED"; "ONLY_APP"].

(** [video.get('videoSeq')] of a channel page item. *)
Definition videoSeq (video : json) : json :=
  match py_get video "videoSeq" JNull with
  | Ok v => v
  | Raise _ => JNull
  end.

Definition carries_videoSeq (video : json) : bool := truthy (videoSeq video).

Definition is_dict (j : json) : bool :=
  match j with JObj _ => true | _ => false end.

(** A stream entry of the live play info: a dict with a [serviceUrl]. *)
Definition stream_entry (vid : json) : bool :=
  match py_getitem vid "serviceUrl" with Ok _ => true | Raise _ => false end.

Definition service_url (vid : json) : json :=
  match py_getitem vid "serviceUrl" with Ok v => v | Raise _ => JNull end.

Definition stream_name (vid : json) : json :=
  match py_get vid "streamName" JNull with Ok v => v | Raise _ => JNull end.

Module Mock.

Fixpoint assoc {A} (k : string) (l : list (string * A)) : option A :=
  match l with
  | [] => None
  | (k', v) :: l' => if String.eqb k k' then Some v else assoc k l'
  end.

(** A sorter of the kind the spec describes, "by a fixed quality
    ordering": stable, by bitrate, worst first. *)
Fixpoint insert_format (f : format) (l : list format) : list format :=
  match l with
  | [] => [f]
  | g :: l' => if Z.leb (tbr f) (tbr g) then f :: l else g :: insert_format f l'
  end.

Definition sort_by_tbr (formats : list format) : list format :=
  fold_right insert_format [] formats.

Fixpoint query_string (q : list (string * string)) : string :=
  match q with
  | [] => ""
  | (k, v) :: q' => "&" ^^ k ^^ "=" ^^ v ^^ query_string q'
  end.

(** A world whose answers do not depend on the history: pages by URL and
    query, JSON documents by their text, manifests by their URL. *)
Definition env (pages : list (string * string)) (docs : list (string * json))
           (streams : list (string * list format)) (creds : json * json)
           (no_playlist : json) : Env :=
  {| http := fun _ r => assoc (url r ^^ query_string (query r)) pages;
     json_loads := fun s => assoc s docs;
     m3u8 := fun _ u _ =>
               match u with JStr s => assoc s streams | _ => None end;
     naver_video_info := fun _ video_id _ key =>
       Ok [("id", PJ (JStr video_id)); ("key", PJ key)];
     sort_formats := fun formats => Ok (sort_by_tbr formats);
     login_info := creds;
     noplaylist := no_playlist;
     py_repr := fun _ => "<repr>";
     clean_html := fun s => s |}.

Definition state (type : string) (upcoming : bool) : json :=
  JObj [("postDetail",
         JObj [("post",
                JObj [("title", JStr "Broadcast");
                      ("officialVideo",
                       JObj [("type", JStr type); ("upcomingYn", JBool upcoming);
                             ("vodId", JStr "LONG-ID"); ("videoSeq", JNum 1326);
                             ("thumb", JStr "http://thumb")])])]);
        ("channel", JObj [("channel", JObj [("channelName", JStr "Girls")])])].

Definition page : string :=
  "<script>window.__PRELOADED_STATE__={STATE}</script>".

(** The page of video 1326 with a given state, and a key answer. *)
Definition video_env (type : string) (upcoming : bool) (key_doc : json) : Env :=
  env [("https://www.vlive.tv/video/1326", page);
       (VLiveIE.inkey_url "1326", "KEY")]
      [("{STATE}", state type upcoming); ("KEY", key_doc)]
      [] (JNull, JNull) JNull.

End Mock.

Definition nl : string := String (ascii_of_nat 10) "".

(** A page with the marker on two lines. *)
Definition two_markers_page : string :=
  "<script>window.__PRELOADED_STATE__={STATE}</script>" ^^ nl
  ^^ "<script>window.__PRELOADED_STATE__={OTHER}</script>".

Definition two_markers_env : Env :=
  Mock.env [] [("{STATE}", Mock.state "VOD" false); ("{OTHER}", JObj [])]
           [] (JNull, JNull) JNull.

Definition playlist_request (video_id playlist_id : string) : request :=
  mkRequest ("http://www.vlive.tv/video/" ^^ video_id ^^ "/playlist/"
             ^^ playlist_id) [] None [].

Definition playlist_env (page : string) : Env :=
  Mock.env [("http://www.vlive.tv/video/22867/playlist/22912", page)]
           [] [] (JNull, JNull) JNull.

Definition login_cookie_request : request :=
  mkRequest VLiveIE.LOGIN_URL [] None [].

Definition login_post_request (env : Env) (email password : json) : request :=
  mkRequest VLiveIE.LOGIN_URL []
    (Some [("email", py_str env email); ("pwd", py_str env password)])
    [("Referer", VLiveIE.LOGIN_URL);
     ("Content-Type", "application/x-www-form-urlencoded")].

Definition login_info_request : request :=
  mkRequest "https://www.vlive.tv/auth/loginInfo" [] None
            [("Referer", "https://www.vlive.tv/home")].

(** The three calls of a login go through and the verification reports
    [logged]. *)
Definition verification (env : Env) (h : list event) (email password : json)
           (logged : bool) : Prop :=
  exists b1 b2 body info,
    http env h login_cookie_request = Some b1
    /\ http env (h ++ [Fetch login_cookie_request])
            (login_post_request env email password) = Some b2
    /\ http env (h ++ [Fetch login_cookie_request;
                       Fetch (login_post_request env email password)])
            login_info_request = Some body
    /\ json_loads env body = Some info
    /\ truthy (try_get (py_path info ["message"; "login"]) is_bool) = logged.

Definition login_env (creds : json * json) (logged : json) : Env :=
  Mock.env [(VLiveIE.LOGIN_URL, "<form>");
            ("https://www.vlive.tv/auth/loginInfo", "INFO")]
           [("INFO", JObj [("message", JObj [("login", logged)])])]
           [] creds JNull.

(** [try_get(video_list, lambda x: x['result']['videoList'], list)] *)
Definition video_list_of (doc : json) : json :=
  try_get (py_path doc ["result"; "videoList"]) is_list.

(** [try_get(video_list, lambda x: x['result']['channelInfo']['channelName'], compat_str)] *)
Definition channel_name_of (doc : json) : json :=
  try_get (py_path doc ["result"; "channelInfo"; "channelName"]) is_str.

(** The entries a page contributes: one per item that carries a
    [videoSeq], in page order. *)
Definition kept_entries (env : Env) (videos : list json) : list ie_result :=
  map (fun video => VLiveChannelIE.video_entry (py_str env (videoSeq video)))
      (filter carries_videoSeq videos).

Definition channel_item (i : nat) : json :=
  JObj [("videoSeq", JNum (Z.of_nat i))].

Definition channel_page (name : string) (items : list json) : json :=
  JObj [("result",
         JObj [("channelInfo", JObj [("channelName", JStr name)]);
               ("videoList", JArr items)])].

Definition list_key (page_no : string) : string :=
  VLiveChannelIE.list_url ^^ "&app_id=" ^^ VLiveChannelIE._APP_ID
  ^^ "&channelSeq=7&maxNumOfRows=100&pageNo=" ^^ page_no.

(** A channel of two pages, of 100 and 37 videos; the third page is empty. *)
Definition channel_env : Env :=
  Mock.env
    [("http://channels.vlive.tv/FCD4B/video", "<html></html>");
     (VLiveChannelIE.decode_url ^^ "&app_id=" ^^ VLiveChannelIE._APP_ID
      ^^ "&channelCode=FCD4B", "DECODE");
     (list_key "1", "P1"); (list_key "2", "P2"); (list_key "3", "P3")]
    [("DECODE", JObj [("result", JObj [("channelSeq", JNum 7)])]);
     ("P1", channel_page "MAMAMOO" (map channel_item (seq 1 100)));
     ("P2", channel_page "MAMAMOO" (map channel_item (seq 101 37)));
     ("P3", JObj [("result", JObj [])])]
    [] (JNull, JNull) JNull.

(** A page whose second item has no [videoSeq] and whose third has 0. *)
Definition holed_env : Env :=
  Mock.env
    [(list_key "1", "P1"); (list_key "2", "P2")]
    [("P1", channel_page "MAMAMOO"
              [channel_item 5; JObj [("title", JStr "x")]; channel_item 0;
               channel_item 8]);
     ("P2", channel_page "MAMAMOO" [])]
    [] (JNull, JNull) JNull.

(** The formats an entry contributes, given what its manifest answers. *)
Definition formats_of (outcome : json -> option (list format)) (vid : json)
  : list format :=
  match outcome vid with Some fs => fs | None => [] end.

Definition succeeded (outcome : json -> option (list format)) (vid : json)
  : bool :=
  match outcome vid with Some _ => true | None => false end.

Definition live_info (common : dict) (video_id : string) (formats : list format)
  : dict :=
  dict_update common
    [("id", PJ (JStr video_id)); ("formats", PFormats formats);
     ("is_live", PJ (JBool true))].

Definition stream (u : string) : json :=
  JObj [("serviceUrl", JStr u); ("streamName", JStr "HD")].

(** A live video with three streams; the manifest of the second fails. *)
Definition live_env : Env :=
  Mock.env
    [(VLiveIE.playinfo_url "1326", "PLAY")]
    [("PLAY", JObj [("result",
                     JObj [("streamList",
                            JArr [stream "http://cdn/a.m3u8";
                                  stream "http://cdn/b.m3u8";
                                  stream "http://cdn/c.m3u8"])])])]
    [("http://cdn/a.m3u8", [mkFormat "a-720" "http://cdn/a/720" 2000;
                            mkFormat "a-360" "http://cdn/a/360" 800]);
     ("http://cdn/c.m3u8", [mkFormat "c-480" "http://cdn/c/480" 1200])]
    (JNull, JNull) JNull.

Definition live_outcome (vid : json) : option (list format) :=
  m3u8 live_env [] (service_url vid) (stream_name vid).

Fixpoint all_chars (c : ascii -> bool) (s : string) : bool :=
  match s with
  | EmptyString => true
  | String a s' => c a && all_chars c s'
  end.

(** What a successful match of a pattern consumes and captures: from [s]
    with open groups [starts] and closed groups [caps], to the rest [s']
    with the groups [caps']. *)
Fixpoint re_run (p : Re.pattern) (s : string) (starts caps : list string)
         (s' : string) (caps' : list string) : Prop :=
  match p with
  | [] => s' = s /\ caps' = caps
  | Re.Lit l :: p' => exists s1, s = l ^^ s1 /\ re_run p' s1 starts caps s' caps'
  | Re.Alt l :: p' =>
      exists a s1, In a l /\ s = a ^^ s1 /\ re_run p' s1 starts caps s' caps'
  | Re.Cls c :: p' =>
      exists a s1, s = String a s1 /\ c a = true
                   /\ re_run p' s1 starts caps s' caps'
  | Re.Star c :: p' | Re.LazyStar c :: p' =>
      exists pre s1, s = pre ^^ s1 /\ all_chars c pre = true
                     /\ re_run p' s1 starts caps s' caps'
  | Re.Plus c :: p' | Re.LazyPlus c :: p' =>
      exists pre s1, s = pre ^^ s1 /\ pre <> "" /\ all_chars c pre = true
                     /\ re_run p' s1 starts caps s' caps'
  | Re.GOpen :: p' => re_run p' s (s :: starts) caps s' caps'
  | Re.GClose :: p' =>
      exists top rest, starts = top :: rest
                       /\ re_run p' s rest (caps ++ [Re.consumed top s]) s' caps'
  | Re.Backref n :: p' =>
      exists g s1, nth_error caps n = Some g /\ s = g ^^ s1
                   /\ re_run p' s1 starts caps s' caps'
  end.

Definition playlist_entry (env : Env) (item_id : json) : ie_result :=
  UrlResult ("http://www.vlive.tv/video/" ^^ py_str env item_id) VLiveIE.ie_key
            (JStr (py_str env item_id)).

Definition playlist_screen (playlist_id : string) : event :=
  Screen ("Downloading playlist " ^^ playlist_id
          ^^ " - add --no-playlist to just download video").

Definition listed_env : Env :=
  Mock.env [("http://www.vlive.tv/video/117956/playlist/117963",
             "var playlistVideoSeqs = [117956,117957];")]
           [("[117956,117957]", JArr [JNum 117956; JNum 117957])]
           [] (JNull, JNull) JNull.

(** Every exception a computation raises, from whatever history,
    satisfies [P]. *)
Definition raises_only {A} (P : exn -> Prop) (m : M A) : Prop :=
  forall h e, fst (m h) = Raise e -> P e.

(** The exceptions of the file itself and of the helpers it calls. *)
Definition own_exception (e : exn) : Prop :=
  match e with
  | UnboundLocalError => False
  | _ => True
  end.

Definition flagless_state (type : string) : json :=
  JObj [("postDetail",
         JObj [("post",
                JObj [("title", JStr "Broadcast");
                      ("officialVideo", JObj [("type", JStr type)])])])].

Definition is_manifest_call (ev : event) : bool :=
  match ev with M3u8Formats _ _ _ => true | _ => false end.

Definition manifest_call (video_id : string) (vid : json) : event :=
  M3u8Formats (service_url vid) video_id (stream_name vid).

Definition streams_env (streams : list json) : Env :=
  Mock.env
    [(VLiveIE.playinfo_url "1326", "PLAY")]
    [("PLAY", JObj [("result", JObj [("streamList", JArr streams)])])]
    [("http://cdn/a.m3u8", [mkFormat "a-720" "http://cdn/a/720" 2000])]
    (JNull, JNull) JNull.

Definition script_env (js : option string) : Env :=
  Mock.env (match js with
            | Some body => [("http://s.vlive.tv/js/app.js?v=3", body)]
            | None => []
            end) [] [] (JNull, JNull) JNull.

Definition channel_page_request (channel_code : string) : request :=
  mkRequest ("http://channels.vlive.tv/" ^^ channel_code ^^ "/video") [] None [].

Definition decode_request (env : Env) (app_id : json) (channel_code : string)
  : request :=
  mkRequest VLiveChannelIE.decode_url
            [("app_id", py_str env app_id); ("channelCode", channel_code)] None [].

Definition broken_env : Env :=
  Mock.env [(list_key "1", "P1")]
           [("P1", channel_page "MAMAMOO" [channel_item 5; JNum 6; channel_item 7])]
           [] (JNull, JNull) JNull.

Definition post_env : Env :=
  Mock.env [("https://www.vlive.tv/post/1-19664999", Mock.page)]
           [("{STATE}", Mock.state "VOD" false)] [] (JNull, JNull) JNull.

Definition undecoded_env : Env :=
  Mock.env
    [("http://channels.vlive.tv/FCD4B/video", "<html></html>");
     (VLiveChannelIE.decode_url ^^ "&app_id=" ^^ VLiveChannelIE._APP_ID
      ^^ "&channelCode=FCD4B", "DECODE")]
    [("DECODE", JObj [("result", JObj [])])]
    [] (JNull, JNull) JNull.

(** What [_sort_formats] of common.py raises when it is given no format:
    [raise ExtractorError('No video formats found')]. *)
Definition no_formats_found : exn :=
  ExtractorError "No video formats found" false.

(** [_sort_formats] is defined in common.py, not in vlive.py. What it does
    there, as a property of the sorter of a world: an empty list is
    refused, any other list is reordered. *)
Definition refuses_empty (sorter : list format -> result (list format)) : Prop :=
  sorter [] = Raise no_formats_found
  /\ forall l, l <> [] -> exists l', sorter l = Ok l' /\ Permutation l' l.

(** Such a sorter: by bitrate, worst first, and no empty list. *)
Definition strict_sort (formats : list format) : result (list format) :=
  match formats with
  | [] => Raise no_formats_found
  | _ :: _ => Ok (Mock.sort_by_tbr formats)
  end.

Definition with_sorter (env : Env)
           (sorter : list format -> result (list format)) : Env :=
  {| http := http env;
     json_loads := json_loads env;
     m3u8 := m3u8 env;
     naver_video_info := naver_video_info env;
     sort_formats := sorter;
     login_info := login_info env;
     noplaylist := noplaylist env;
     py_repr := py_repr env;
     clean_html := clean_html env |}.

(** The live video of three streams, the second failing, under that sorter. *)
Definition strict_live_env : Env := with_sorter live_env strict_sort.

(** A live video of two streams whose manifests both fail. *)
Definition dead_streams_env : Env :=
  with_sorter (streams_env [stream "http://cdn/x.m3u8"; stream "http://cdn/y.m3u8"])
              strict_sort.

(** What the loop of [_live] leaves in the log for one stream entry: the
    call for its manifest, and a warning when that manifest failed. *)
Definition entry_events (outcome : json -> option (list format))
           (video_id : string) (vid : json) : list event :=
  manifest_call video_id vid
  :: (if succeeded outcome vid then []
      else [Warning "Failed to download m3u8 information"]).

Definition is_warning (ev : event) : bool :=
  match ev with Warning _ => true | _ => false end.

(* ===================================================================== *)
(** ** Running computations *)
(* ===================================================================== *)

Lemma bind_ok {A B} (m : M A) (f : A -> M B) h a e1 :
  m h = (Ok a, e1) ->
  bind m f h = (fst (f a (h ++ e1)), e1 ++ snd (f a (h ++ e1))).
Proof.
  intros Hm. unfold bind. rewrite Hm.
  destruct (f a (h ++ e1)); reflexivity.
Qed.

Lemma bind_raise {A B} (m : M A) (f : A -> M B) h e e1 :
  m h = (Raise e, e1) -> bind m f h = (Raise e, e1).
Proof. intros Hm. unfold bind. rewrite Hm. reflexivity. Qed.

Lemma bind_ret {A B} (a : A) (f : A -> M B) h : bind (ret a) f h = f a h.
Proof.
  unfold bind, ret. rewrite app_nil_r. destruct (f a h); reflexivity.
Qed.

Lemma bind_lift_ok {A B} (a : A) (f : A -> M B) h :
  bind (lift (Ok a)) f h = f a h.
Proof. apply (bind_ret a f h). Qed.

Lemma bind_emit {B} ev (f : unit -> M B) h :
  bind (emit ev) f h = (fst (f tt (h ++ [ev])), ev :: snd (f tt (h ++ [ev]))).
Proof. rewrite (bind_ok _ _ _ tt [ev]) by reflexivity. reflexivity. Qed.

Lemma pair_eta {A B} (p : A * B) : p = (fst p, snd p).
Proof. destruct p; reflexivity. Qed.

Lemma py_eq_str_true j lit : py_eq_str j lit = true <-> j = JStr lit.
Proof.
  destruct j; simpl; try (split; [discriminate | intros H; discriminate H]).
  rewrite String.eqb_eq. split; [intros ->; reflexivity | intros H; injection H; auto].
Qed.

Lemma py_eq_str_false j lit : py_eq_str j lit = false <-> j <> JStr lit.
Proof.
  rewrite <- py_eq_str_true. destruct (py_eq_str j lit); split; congruence.
Qed.

(** The download helper always makes exactly its one request. *)
Lemma download_webpage_events env r h :
  snd (InfoExtractor._download_webpage env r h) = [Fetch r].
Proof.
  unfold InfoExtractor._download_webpage. destruct (http env h r); reflexivity.
Qed.

Lemma download_webpage_ok env r h body :
  http env h r = Some body ->
  InfoExtractor._download_webpage env r h = (Ok body, [Fetch r]).
Proof.
  intros H. unfold InfoExtractor._download_webpage. rewrite H. reflexivity.
Qed.

Lemma download_webpage_fail env r h :
  http env h r = None ->
  InfoExtractor._download_webpage env r h
  = (Raise (ExtractorError "Unable to download webpage" false), [Fetch r]).
Proof.
  intros H. unfold InfoExtractor._download_webpage. rewrite H. reflexivity.
Qed.

Lemma parse_json_events env j video_id h :
  snd (InfoExtractor._parse_json env j video_id h) = [].
Proof.
  unfold InfoExtractor._parse_json.
  destruct j; try reflexivity. destruct (json_loads env s); reflexivity.
Qed.

Lemma parse_json_ok env s video_id h j :
  json_loads env s = Some j ->
  InfoExtractor._parse_json env (JStr s) video_id h = (Ok j, []).
Proof. intros H. unfold InfoExtractor._parse_json. rewrite H. reflexivity. Qed.

Lemma parse_json_fail env s video_id h :
  json_loads env s = None ->
  InfoExtractor._parse_json env (JStr s) video_id h
  = (Raise (ExtractorError (video_id ^^ ": Failed to parse JSON ") false), []).
Proof. intros H. unfold InfoExtractor._parse_json. rewrite H. reflexivity. Qed.

(* ===================================================================== *)
(** ** The status resolver *)
(* ===================================================================== *)

Lemma status_and_key_live env video_id upcoming h :
  VLiveIE.status_and_key env video_id upcoming (JStr "LIVE") h
  = (Ok (if truthy upcoming then JStr "UPCOMING" else JStr "LIVE", None), []).
Proof.
  unfold VLiveIE.status_and_key. simpl.
  destruct (truthy upcoming); reflexivity.
Qed.

(** For another type the key endpoint is asked, once, whatever the type;
    the status is the type when the key step goes through. *)
Lemma status_and_key_other env video_id upcoming vid_type h :
  vid_type <> JStr "LIVE" ->
  VLiveIE.status_and_key env video_id upcoming vid_type h
  = (match http env h (key_request video_id) with
     | None => Raise (ExtractorError "Unable to download webpage" false)
     | Some body =>
         match json_loads env body with
         | None => Raise (ExtractorError (video_id ^^ ": Failed to parse JSON ") false)
         | Some key_json =>
             match py_getitem key_json "inkey" with
             | Ok key => Ok (vid_type, Some key)
             | Raise e => Raise e
             end
         end
     end, [Fetch (key_request video_id)]).
Proof.
  intros Hne. apply py_eq_str_false in Hne.
  unfold VLiveIE.status_and_key. rewrite Hne.
  fold (key_request video_id).
  destruct (http env h (key_request video_id)) as [body|] eqn:Hhttp.
  - rewrite (bind_ok _ _ _ _ _ (download_webpage_ok _ _ _ _ Hhttp)).
    destruct (json_loads env body) as [key_json|] eqn:Hj.
    + rewrite (bind_ok _ _ _ _ _ (parse_json_ok _ _ _ _ _ Hj)).
      destruct (py_getitem key_json "inkey") as [key|e]; reflexivity.
    + rewrite (bind_raise _ _ _ _ _ (parse_json_fail _ _ _ _ Hj)). reflexivity.
  - rewrite (bind_raise _ _ _ _ _ (download_webpage_fail _ _ _ Hhttp)). reflexivity.
Qed.

Lemma resolve_status_fields env video_id preload_state upcoming vid_type h :
  py_path preload_state (officialVideo ++ ["upcomingYn"]) = Ok upcoming ->
  py_path preload_state (officialVideo ++ ["type"]) = Ok vid_type ->
  VLiveIE.resolve_status env video_id preload_state h
  = VLiveIE.status_and_key env video_id upcoming vid_type h.
Proof.
  intros Hu Ht. unfold VLiveIE.resolve_status.
  rewrite Hu, bind_lift_ok, Ht, bind_lift_ok. reflexivity.
Qed.

(** C1. For a preload state whose [officialVideo.type] is [LIVE] the
    status is [UPCOMING] exactly when [upcomingYn] is true, and [LIVE]
    otherwise; for any other type the status is that type, verbatim: the
    resolver never yields another status, and yields this one whenever the
    key step that comes with it goes through. *)
Theorem status_resolution env video_id preload_state upcoming vid_type h :
  py_path preload_state (officialVideo ++ ["upcomingYn"]) = Ok upcoming ->
  py_path preload_state (officialVideo ++ ["type"]) = Ok vid_type ->
  (vid_type = JStr "LIVE" ->
   exists status,
     VLiveIE.resolve_status env video_id preload_state h = (Ok (status, None), [])
     /\ (status = JStr "UPCOMING" <-> truthy upcoming = true)
     /\ (truthy upcoming = false -> status = JStr "LIVE"))
  /\ (vid_type <> JStr "LIVE" ->
      (forall status key evs,
          VLiveIE.resolve_status env video_id preload_state h
          = (Ok (status, key), evs) -> status = vid_type)
      /\ (forall body key_json key,
             http env h (key_request video_id) = Some body ->
             json_loads env body = Some key_json ->
             py_getitem key_json "inkey" = Ok key ->
             VLiveIE.resolve_status env video_id preload_state h
             = (Ok (vid_type, Some key), [Fetch (key_request video_id)]))).
Proof.
  intros Hu Ht.
  rewrite (resolve_status_fields _ _ _ _ _ _ Hu Ht).
  split.
  - intros ->. rewrite status_and_key_live.
    destruct (truthy upcoming) eqn:Hup.
    + exists (JStr "UPCOMING"). repeat split; auto; discriminate.
    + exists (JStr "LIVE"). repeat split; auto; discriminate.
  - intros Hne. rewrite (status_and_key_other _ _ _ _ _ Hne). split.
    + intros status key evs H.
      destruct (http env h (key_request video_id)); [|discriminate].
      destruct (json_loads env s); [|discriminate].
      destruct (py_getitem j "inkey"); [|discriminate].
      congruence.
    + intros body key_json key H1 H2 H3. rewrite H1, H2, H3. reflexivity.
Qed.

Lemma status_resolution_witness :
  (exists status,
      VLiveIE.resolve_status (Mock.video_env "LIVE" true JNull) "1326"
                             (Mock.state "LIVE" true) []
      = (Ok (status, None), [])
      /\ (status = JStr "UPCOMING" <-> truthy (JBool true) = true)
      /\ (truthy (JBool true) = false -> status = JStr "LIVE"))
  /\ VLiveIE.resolve_status
       (Mock.video_env "VOD" false (JObj [("inkey", JStr "k")])) "1326"
       (Mock.state "VOD" false) []
     = (Ok (JStr "VOD", Some (JStr "k")), [Fetch (key_request "1326")]).
Proof.
  split.
  - apply (status_resolution (Mock.video_env "LIVE" true JNull) "1326"
             (Mock.state "LIVE" true) (JBool true) (JStr "LIVE") []);
      reflexivity.
  - apply (status_resolution
             (Mock.video_env "VOD" false (JObj [("inkey", JStr "k")])) "1326"
             (Mock.state "VOD" false) (JBool false) (JStr "VOD") [])
      with (body := "KEY") (key_json := JObj [("inkey", JStr "k")]);
      try reflexivity.
    discriminate.
Defined.

(* ===================================================================== *)
(** ** The dispatch table *)
(* ===================================================================== *)

Lemma py_in_cons j lit lits :
  py_in j (lit :: lits) = py_eq_str j lit || py_in j lits.
Proof. reflexivity. Qed.

Ltac split_unknown H :=
  repeat (rewrite py_in_cons in H; apply orb_false_iff in H;
          let H1 := fresh "Hne" in destruct H as [H1 H]).

(** C8. A status of the terminal-error set raises the error of the
    dispatch table, without any further call: [LIVE_END] the
    replay-not-yet-available message, [COMING_SOON] and [UPCOMING] the
    not-yet-started message, [CANCELED] the broadcast-canceled message,
    [ONLY_APP] the unsupported-delivery message; a status outside all the
    known groups raises an error whose message carries the status. *)
Theorem dispatch_terminal env video_id preload_state status key h :
  (status = JStr "LIVE_END" ->
   VLiveIE.dispatch env video_id preload_state status key h
   = (Raise (ExtractorError "Uploading for replay. Please wait..." true), []))
  /\ (status = JStr "COMING_SOON" \/ status = JStr "UPCOMING" ->
      VLiveIE.dispatch env video_id preload_state status key h
      = (Raise (ExtractorError "Coming soon!" true), []))
  /\ (status = JStr "CANCELED" ->
      VLiveIE.dispatch env video_id preload_state status key h
      = (Raise (ExtractorError
                  "We are sorry, but the live broadcast has been canceled." true),
         []))
  /\ (status = JStr "ONLY_APP" ->
      VLiveIE.dispatch env video_id preload_state status key h
      = (Raise (ExtractorError "Unsupported video type" true), []))
  /\ (py_in status known_statuses = false ->
      VLiveIE.dispatch env video_id preload_state status key h
      = (Raise (ExtractorError ("Unknown status " ^^ py_str env status) false),
         [])).
Proof.
  repeat split.
  - intros ->. reflexivity.
  - intros [-> | ->]; reflexivity.
  - intros ->. reflexivity.
  - intros ->. reflexivity.
  - intros H. unfold known_statuses in H. split_unknown H.
    unfold VLiveIE.dispatch. rewrite !py_in_cons.
    rewrite Hne, Hne0, Hne1, Hne2, Hne3, Hne4, Hne5, Hne6, Hne7, Hne8, Hne9.
    reflexivity.
Qed.

Lemma dispatch_terminal_witness :
  VLiveIE.dispatch (Mock.video_env "CANCELED" false JNull) "1326"
                   (Mock.state "CANCELED" false) (JStr "CANCELED") None []
  = (Raise (ExtractorError
              "We are sorry, but the live broadcast has been canceled." true),
     [])
  /\ VLiveIE.dispatch (Mock.video_env "WHAT" false JNull) "1326"
                      (Mock.state "WHAT" false) (JStr "WHAT") None []
     = (Raise (ExtractorError "Unknown status WHAT" false), []).
Proof.
  split.
  - apply (dispatch_terminal (Mock.video_env "CANCELED" false JNull) "1326"
             (Mock.state "CANCELED" false) (JStr "CANCELED") None []).
    reflexivity.
  - apply (dispatch_terminal (Mock.video_env "WHAT" false JNull) "1326"
             (Mock.state "WHAT" false) (JStr "WHAT") None []).
    reflexivity.
Defined.

(* ===================================================================== *)
(** ** Events of the strategies *)
(* ===================================================================== *)

Lemma bind_fst {A B} (m : M A) (f : A -> M B) h :
  fst (bind m f h)
  = match fst (m h) with
    | Ok a => fst (f a (h ++ snd (m h)))
    | Raise e => Raise e
    end.
Proof.
  unfold bind. destruct (m h) as [[a|e] e1]; simpl; [|reflexivity].
  destruct (f a (h ++ e1)); reflexivity.
Qed.

Lemma bind_snd {A B} (m : M A) (f : A -> M B) h :
  snd (bind m f h)
  = snd (m h) ++ match fst (m h) with
                 | Ok a => snd (f a (h ++ snd (m h)))
                 | Raise e => []
                 end.
Proof.
  unfold bind. destruct (m h) as [[a|e] e1]; simpl.
  - destruct (f a (h ++ e1)); reflexivity.
  - rewrite app_nil_r. reflexivity.
Qed.

Section Emits.
Variable P : event -> Prop.

Lemma emits_ret {A} (a : A) : emits P (ret a).
Proof. intros h. constructor. Qed.

Lemma emits_raise {A} e : emits P (@raise A e).
Proof. intros h. constructor. Qed.

Lemma emits_lift {A} (r : result A) : emits P (lift r).
Proof. intros h. constructor. Qed.

Lemma emits_bind {A B} (m : M A) (f : A -> M B) :
  emits P m -> (forall a, emits P (f a)) -> emits P (bind m f).
Proof.
  intros Hm Hf h. rewrite bind_snd. apply Forall_app. split; [apply Hm|].
  destruct (fst (m h)); [apply Hf | constructor].
Qed.

Lemma emits_download env r :
  P (Fetch r) -> emits P (InfoExtractor._download_webpage env r).
Proof.
  intros H h. rewrite download_webpage_events. repeat constructor. exact H.
Qed.

Lemma emits_parse_json env j video_id :
  emits P (InfoExtractor._parse_json env j video_id).
Proof. intros h. rewrite parse_json_events. constructor. Qed.

Lemma emits_m3u8 env u video_id name fatal :
  P (M3u8Formats u video_id name) ->
  P (Warning "Failed to download m3u8 information") ->
  emits P (InfoExtractor._extract_m3u8_formats env u video_id name fatal).
Proof.
  intros H1 H2 h. unfold InfoExtractor._extract_m3u8_formats.
  destruct (m3u8 env h u name); [|destruct fatal]; repeat constructor; assumption.
Qed.

Lemma emits_common_fields preload_state :
  emits P (VLiveIE._get_common_fields preload_state).
Proof.
  unfold VLiveIE._get_common_fields.
  apply emits_bind; [apply emits_lift|]. intros t.
  apply emits_bind; [destruct t; (apply emits_raise || apply emits_ret)|].
  intros t'. apply emits_bind; [apply emits_lift|]. intros c.
  apply emits_bind; [apply emits_lift|]. intros th. apply emits_ret.
Qed.

Lemma emits_live_formats env video_id vids :
  (forall u name, P (M3u8Formats u video_id name)) ->
  P (Warning "Failed to download m3u8 information") ->
  forall formats, emits P (VLiveIE.live_formats env video_id vids formats).
Proof.
  intros H1 H2. induction vids as [|vid rest IH]; intros formats; simpl.
  - apply emits_ret.
  - apply emits_bind; [apply emits_lift|]. intros u.
    apply emits_bind; [apply emits_lift|]. intros name.
    apply emits_bind; [apply emits_m3u8; auto|]. intros fs. apply IH.
Qed.

Lemma emits_live env video_id preload_state :
  P (Fetch (playinfo_request video_id)) ->
  (forall u name, P (M3u8Formats u video_id name)) ->
  P (Warning "Failed to download m3u8 information") ->
  emits P (VLiveIE._live env video_id preload_state).
Proof.
  intros H0 H1 H2. unfold VLiveIE._live.
  apply emits_bind; [apply emits_download; exact H0|]. intros w.
  apply emits_bind; [apply emits_parse_json|]. intros lj.
  apply emits_bind; [apply emits_lift|]. intros res.
  apply emits_bind; [apply emits_lift|]. intros sl.
  apply emits_bind; [apply emits_lift|]. intros vids.
  apply emits_bind; [apply emits_live_formats; auto|]. intros fs.
  apply emits_bind; [apply emits_lift|]. intros sorted.
  apply emits_bind; [apply emits_common_fields|]. intros info. apply emits_ret.
Qed.

Lemma emits_replay env video_id preload_state key :
  (forall long_video_id, P (VideoInfo video_id long_video_id key)) ->
  emits P (VLiveIE._replay env video_id preload_state key).
Proof.
  intros H. unfold VLiveIE._replay.
  apply emits_bind; [apply emits_lift|]. intros lv.
  apply emits_bind; [apply emits_common_fields|]. intros c.
  apply emits_bind; [|intros vi; apply emits_ret].
  intros h. repeat constructor. apply H.
Qed.

(** What the dispatch may do: the live play info and its manifests, or
    the replay collaborator with the key it was given. *)
Lemma emits_dispatch env video_id preload_state status key :
  P (Fetch (playinfo_request video_id)) ->
  (forall u name, P (M3u8Formats u video_id name)) ->
  P (Warning "Failed to download m3u8 information") ->
  (forall long_video_id k, key = Some k -> P (VideoInfo video_id long_video_id k)) ->
  emits P (VLiveIE.dispatch env video_id preload_state status key).
Proof.
  intros H0 H1 H2 H3. unfold VLiveIE.dispatch.
  destruct (py_in status _); [apply emits_live; auto|].
  destruct (py_in status _).
  { destruct key as [k|]; [apply emits_replay; auto | apply emits_raise]. }
  repeat (match goal with |- context [if ?b then _ else _] => destruct b end;
          [apply emits_raise|]).
  apply emits_raise.
Qed.
End Emits.

(* ===================================================================== *)
(** ** Fetching the key *)
(* ===================================================================== *)

Lemma real_extract_unfold env u video_id h :
  InfoExtractor._match_id VLiveIE._VALID_URL 0 u h = (Ok video_id, []) ->
  VLiveIE._real_extract env u h
  = bind (InfoExtractor._download_webpage env (page_request video_id))
      (fun webpage =>
         bind (VLiveIE.parse_preload_state env webpage video_id)
           (fun preload_state =>
              bind (VLiveIE.resolve_status env video_id preload_state)
                (fun sk => VLiveIE.dispatch env video_id preload_state
                                            (fst sk) (snd sk)))) h.
Proof.
  intros H. unfold VLiveIE._real_extract.
  rewrite (bind_ok _ _ _ _ _ H). rewrite app_nil_r. simpl.
  rewrite <- pair_eta. reflexivity.
Qed.

Lemma parse_preload_state_events env webpage video_id h :
  snd (VLiveIE.parse_preload_state env webpage video_id h) = [].
Proof.
  unfold VLiveIE.parse_preload_state, InfoExtractor._search_regex.
  destruct (Re.search PRELOAD_STATE_RE webpage) as [caps|]; [|reflexivity].
  destruct (nth_error caps 0) as [g|]; [|reflexivity].
  rewrite bind_ret. apply parse_json_events.
Qed.

Lemma resolve_status_cases env video_id preload_state h :
  VLiveIE.resolve_status env video_id preload_state h
  = match py_path preload_state (officialVideo ++ ["upcomingYn"]) with
    | Raise e => (Raise e, [])
    | Ok upcoming =>
        match py_path preload_state (officialVideo ++ ["type"]) with
        | Raise e => (Raise e, [])
        | Ok vid_type => VLiveIE.status_and_key env video_id upcoming vid_type h
        end
    end.
Proof.
  unfold VLiveIE.resolve_status.
  destruct (py_path preload_state (officialVideo ++ ["upcomingYn"]));
    [|reflexivity].
  rewrite bind_lift_ok.
  destruct (py_path preload_state (officialVideo ++ ["type"])); [|reflexivity].
  rewrite bind_lift_ok. reflexivity.
Qed.

Lemma real_extract_cases env u video_id h :
  InfoExtractor._match_id VLiveIE._VALID_URL 0 u h = (Ok video_id, []) ->
  VLiveIE._real_extract env u h
  = match http env h (page_request video_id) with
    | None => (Raise (ExtractorError "Unable to download webpage" false),
               [Fetch (page_request video_id)])
    | Some webpage =>
        let h1 := h ++ [Fetch (page_request video_id)] in
        match fst (VLiveIE.parse_preload_state env webpage video_id h1) with
        | Raise e => (Raise e, [Fetch (page_request video_id)])
        | Ok preload_state =>
            match py_path preload_state (officialVideo ++ ["upcomingYn"]) with
            | Raise e => (Raise e, [Fetch (page_request video_id)])
            | Ok upcoming =>
                match py_path preload_state (officialVideo ++ ["type"]) with
                | Raise e => (Raise e, [Fetch (page_request video_id)])
                | Ok vid_type =>
                    let sk := VLiveIE.status_and_key env video_id upcoming vid_type h1 in
                    match fst sk with
                    | Raise e => (Raise e, Fetch (page_request video_id) :: snd sk)
                    | Ok (status, key) =>
                        let d := VLiveIE.dispatch env video_id preload_state
                                                  status key (h1 ++ snd sk) in
                        (fst d, Fetch (page_request video_id) :: snd sk ++ snd d)
                    end
                end
            end
        end
    end.
Proof.
  intros H. rewrite (real_extract_unfold _ _ _ _ H).
  destruct (http env h (page_request video_id)) as [webpage|] eqn:Hpage.
  2:{ apply bind_raise, download_webpage_fail, Hpage. }
  rewrite (bind_ok _ _ _ _ _ (download_webpage_ok _ _ _ _ Hpage)).
  set (h1 := h ++ [Fetch (page_request video_id)]). cbv zeta.
  rewrite bind_fst, bind_snd, parse_preload_state_events, app_nil_r.
  destruct (fst (VLiveIE.parse_preload_state env webpage video_id h1))
    as [preload_state|e]; [|reflexivity].
  rewrite bind_fst, bind_snd, resolve_status_cases.
  destruct (py_path preload_state (officialVideo ++ ["upcomingYn"]))
    as [upcoming|e]; [|reflexivity].
  destruct (py_path preload_state (officialVideo ++ ["type"]))
    as [vid_type|e]; [|reflexivity].
  destruct (VLiveIE.status_and_key env video_id upcoming vid_type h1)
    as [[[status key]|e] e1]; simpl.
  - reflexivity.
  - rewrite app_nil_r. reflexivity.
Qed.

Lemma count_app p a b : count p (a ++ b) = count p a + count p b.
Proof. unfold count. rewrite filter_app, length_app. reflexivity. Qed.

Lemma count_none p l : Forall (fun e => p e = false) l -> count p l = 0.
Proof.
  unfold count. induction 1 as [|e l He _ IH]; simpl; [reflexivity|].
  rewrite He. exact IH.
Qed.

Lemma dispatch_no_key_fetch env video_id preload_state status key :
  emits (fun e => is_key_fetch video_id e = false)
        (VLiveIE.dispatch env video_id preload_state status key).
Proof. apply emits_dispatch; intros; reflexivity. Qed.

Lemma dispatch_replay_needs_key env video_id preload_state status :
  emits (fun e => is_replay_extraction e = false)
        (VLiveIE.dispatch env video_id preload_state status None).
Proof. apply emits_dispatch; intros; try reflexivity. discriminate. Qed.

Lemma real_extract_shape env u video_id h :
  InfoExtractor._match_id VLiveIE._VALID_URL 0 u h = (Ok video_id, []) ->
  exists post,
    Forall (fun e => is_key_fetch video_id e = false) post
    /\ ((snd (VLiveIE._real_extract env u h)
         = Fetch (page_request video_id) :: post
         /\ Forall (fun e => is_replay_extraction e = false) post
         /\ ~ reads_other_type env video_id h)
        \/ (snd (VLiveIE._real_extract env u h)
            = Fetch (page_request video_id) :: Fetch (key_request video_id) :: post
            /\ reads_other_type env video_id h)).
Proof.
  intros H. rewrite (real_extract_cases _ _ _ _ H).
  destruct (http env h (page_request video_id)) as [webpage|] eqn:Hpage.
  2:{ exists []. split; [constructor|]. left. repeat split; [constructor|].
      intros (w & ps & up & t & Hw & _). congruence. }
  cbv zeta.
  destruct (fst (VLiveIE.parse_preload_state env webpage video_id _))
    as [preload_state|e] eqn:Hparse.
  2:{ exists []. split; [constructor|]. left. repeat split; [constructor|].
      intros (w & ps & up & t & Hw & Hp & _). congruence. }
  destruct (py_path preload_state (officialVideo ++ ["upcomingYn"]))
    as [upcoming|e] eqn:Hup.
  2:{ exists []. split; [constructor|]. left. repeat split; [constructor|].
      intros (w & ps & up & t & Hw & Hp & Hu & _). congruence. }
  destruct (py_path preload_state (officialVideo ++ ["type"]))
    as [vid_type|e] eqn:Hty.
  2:{ exists []. split; [constructor|]. left. repeat split; [constructor|].
      intros (w & ps & up & t & Hw & Hp & Hu & Ht & _). congruence. }
  destruct (py_eq_str vid_type "LIVE") eqn:Hlive.
  - apply py_eq_str_true in Hlive. subst vid_type.
    rewrite status_and_key_live. simpl.
    eexists. split; [apply dispatch_no_key_fetch|]. left.
    split; [reflexivity|]. split.
    + destruct (truthy upcoming); apply dispatch_replay_needs_key.
    + intros (w & ps & up & t & Hw & Hp & Hu & Ht & Hne). congruence.
  - apply py_eq_str_false in Hlive.
    rewrite (status_and_key_other _ _ _ _ _ Hlive).
    assert (Hother : reads_other_type env video_id h).
    { exists webpage, preload_state, upcoming, vid_type. auto. }
    cbn [fst snd].
    match goal with
    | |- context [match ?r with Ok _ => _ | Raise _ => _ end] =>
        destruct r as [[status key]|e] eqn:Hkey
    end.
    + eexists. split; [apply dispatch_no_key_fetch|]. right.
      split; [reflexivity | exact Hother].
    + exists []. split; [constructor|]. right. split; [reflexivity | exact Hother].
Qed.

Lemma replay_absent_count l :
  Forall (fun e => is_replay_extraction e = false) l ->
  ~ Exists (fun e => is_replay_extraction e = true) l.
Proof.
  intros HF HE. apply Exists_exists in HE as (e & Hin & He).
  rewrite Forall_forall in HF. rewrite (HF e Hin) in He. discriminate.
Qed.

(** C2 (as amended). In every extraction of a single video the key
    endpoint is fetched at most once, and every key fetch comes before
    every format-extraction call; a run that enters the Replay strategy
    has fetched the key exactly once. The fetch is gated on the type, not
    on the strategy: it happens exactly when [officialVideo.type] has been
    read and is not [LIVE], whatever the status then leads to. *)
Theorem key_fetch_gate env u video_id h :
  InfoExtractor._match_id VLiveIE._VALID_URL 0 u h = (Ok video_id, []) ->
  let evs := snd (VLiveIE._real_extract env u h) in
  count (is_key_fetch video_id) evs <= 1
  /\ (exists pre post,
         evs = pre ++ post
         /\ Forall (fun e => is_format_extraction e = false) pre
         /\ Forall (fun e => is_key_fetch video_id e = false) post)
  /\ (Exists (fun e => is_replay_extraction e = true) evs ->
      count (is_key_fetch video_id) evs = 1)
  /\ (count (is_key_fetch video_id) evs = 1 <-> reads_other_type env video_id h).
Proof.
  intros H evs. subst evs.
  destruct (real_extract_shape env _ _ _ H) as (post & Hpost & [(-> & Hrep & Hno) | (-> & Hyes)]).
  - assert (Hc : count (is_key_fetch video_id)
                       (Fetch (page_request video_id) :: post) = 0).
    { apply count_none. constructor; [reflexivity | exact Hpost]. }
    rewrite Hc. repeat split.
    + lia.
    + exists [], (Fetch (page_request video_id) :: post).
      repeat split; constructor; [reflexivity | exact Hpost].
    + intros HE. exfalso. apply Exists_cons in HE as [HE | HE]; [discriminate|].
      exact (replay_absent_count _ Hrep HE).
    + discriminate.
    + intros Hy. exfalso. exact (Hno Hy).
  - assert (Hc : count (is_key_fetch video_id)
                       (Fetch (page_request video_id)
                        :: Fetch (key_request video_id) :: post) = 1).
    { change (count (is_key_fetch video_id)
                ([Fetch (page_request video_id); Fetch (key_request video_id)]
                   ++ post) = 1).
      rewrite count_app, (count_none _ _ Hpost). unfold count. simpl.
      rewrite String.eqb_refl. reflexivity. }
    rewrite Hc. repeat split; auto.
    exists [Fetch (page_request video_id); Fetch (key_request video_id)], post.
    repeat split; [repeat constructor | exact Hpost].
Qed.

Lemma key_fetch_gate_witness :
  count (is_key_fetch "1326")
        (snd (VLiveIE._real_extract
                (Mock.video_env "VOD" false (JObj [("inkey", JStr "k")]))
                "https://www.vlive.tv/video/1326" [])) <= 1.
Proof.
  apply (key_fetch_gate (Mock.video_env "VOD" false (JObj [("inkey", JStr "k")]))
           "https://www.vlive.tv/video/1326" "1326" []).
  reflexivity.
Defined.

(** C2, as stated, fails: a [CANCELED] video is a terminal error that
    never reaches the Replay strategy, and its key is fetched all the same. *)
Lemma key_fetched_for_canceled :
  VLiveIE._real_extract
    (Mock.video_env "CANCELED" false (JObj [("inkey", JStr "k")]))
    "https://www.vlive.tv/video/1326" []
  = (Raise (ExtractorError
              "We are sorry, but the live broadcast has been canceled." true),
     [Fetch (page_request "1326"); Fetch (key_request "1326")])
  /\ count (is_key_fetch "1326")
        (snd (VLiveIE._real_extract
                (Mock.video_env "CANCELED" false (JObj [("inkey", JStr "k")]))
                "https://www.vlive.tv/video/1326" [])) = 1
  /\ count is_format_extraction
        (snd (VLiveIE._real_extract
                (Mock.video_env "CANCELED" false (JObj [("inkey", JStr "k")]))
                "https://www.vlive.tv/video/1326" [])) = 0.
Proof. repeat split. Qed.

(* ===================================================================== *)
(** ** Replay and the key *)
(* ===================================================================== *)

Lemma dispatch_replay_key env video_id preload_state status key :
  emits (fun e => forall vid lv k, e = VideoInfo vid lv k -> key = Some k)
        (VLiveIE.dispatch env video_id preload_state status key).
Proof.
  apply emits_dispatch; try discriminate.
  intros lv k -> vid lv' k' Heq. injection Heq as _ _ ->. reflexivity.
Qed.

Lemma getitem_raise j k e :
  py_getitem j k = Raise e -> e = KeyError k \/ e = TypeError.
Proof.
  destruct j; simpl; try (intros H; injection H as <-; auto).
  destruct (lookup k l); [discriminate|]. intros H; injection H as <-; auto.
Qed.

(** C4 (as amended). The Replay strategy is entered only with the value
    of the [inkey] field of the key answer, whatever that value is; when
    the key answer has no such field the extraction fails with the
    [KeyError] (or [TypeError], when the answer is not an object) of the
    lookup, right after the key fetch, and no format extraction is made. *)
Theorem replay_needs_key_field env u video_id h :
  InfoExtractor._match_id VLiveIE._VALID_URL 0 u h = (Ok video_id, []) ->
  let run := VLiveIE._real_extract env u h in
  let h1 := h ++ [Fetch (page_request video_id)] in
  (forall vid lv k,
      In (VideoInfo vid lv k) (snd run) ->
      exists body key_json,
        http env h1 (key_request video_id) = Some body
        /\ json_loads env body = Some key_json
        /\ py_getitem key_json "inkey" = Ok k)
  /\ (forall body key_json,
         reads_other_type env video_id h ->
         http env h1 (key_request video_id) = Some body ->
         json_loads env body = Some key_json ->
         (forall k, py_getitem key_json "inkey" <> Ok k) ->
         (fst run = Raise (KeyError "inkey") \/ fst run = Raise TypeError)
         /\ snd run = [Fetch (page_request video_id); Fetch (key_request video_id)]
         /\ Forall (fun e => is_format_extraction e = false) (snd run)).
Proof.
  intros H run h1. subst run. rewrite (real_extract_cases _ _ _ _ H).
  fold h1. split.
  - intros vid lv k.
    destruct (http env h (page_request video_id)) as [webpage|];
      [|intros [Hin|[]]; discriminate]. cbv zeta.
    destruct (fst (VLiveIE.parse_preload_state env webpage video_id h1))
      as [ps|]; [|intros [Hin|[]]; discriminate].
    destruct (py_path ps (officialVideo ++ ["upcomingYn"])) as [up|];
      [|intros [Hin|[]]; discriminate].
    destruct (py_path ps (officialVideo ++ ["type"])) as [ty|];
      [|intros [Hin|[]]; discriminate].
    destruct (py_eq_str ty "LIVE") eqn:Hlive.
    + apply py_eq_str_true in Hlive. subst ty. rewrite status_and_key_live.
      cbn [fst snd app]. intros [Hin|Hin]; [discriminate|]. exfalso.
      pose proof (dispatch_replay_key env video_id ps
                    (if truthy up then JStr "UPCOMING" else JStr "LIVE") None
                    (h1 ++ [])) as HF.
      rewrite Forall_forall in HF. specialize (HF _ Hin _ _ _ eq_refl).
      discriminate.
    + apply py_eq_str_false in Hlive.
      rewrite (status_and_key_other _ _ _ _ _ Hlive). cbn [fst snd].
      destruct (http env h1 (key_request video_id)) as [body|] eqn:Hb;
        [|intros [Hin|[Hin|[]]]; discriminate].
      destruct (json_loads env body) as [key_json|] eqn:Hj;
        [|intros [Hin|[Hin|[]]]; discriminate].
      destruct (py_getitem key_json "inkey") as [key|] eqn:Hkey;
        [|intros [Hin|[Hin|[]]]; discriminate].
      cbn [app]. intros [Hin|[Hin|Hin]]; try discriminate.
      exists body, key_json.
      pose proof (dispatch_replay_key env video_id ps ty (Some key)
                    (h1 ++ [Fetch (key_request video_id)])) as HF.
      rewrite Forall_forall in HF. specialize (HF _ Hin _ _ _ eq_refl).
      injection HF as <-. auto.
  - intros body key_json (w & ps & up & ty & Hw & Hp & Hu & Ht & Hne) Hb Hj Hk.
    rewrite Hw. cbv zeta. fold h1 in Hp. rewrite Hp, Hu, Ht.
    rewrite (status_and_key_other _ _ _ _ _ Hne), Hb, Hj. cbn [fst snd].
    destruct (py_getitem key_json "inkey") as [k|e] eqn:Hget.
    + exfalso. exact (Hk k eq_refl).
    + cbn [fst snd]. split; [|split; [reflexivity | repeat constructor]].
      destruct (getitem_raise _ _ _ Hget) as [-> | ->]; auto.
Qed.

Lemma replay_needs_key_field_witness :
  fst (VLiveIE._real_extract (Mock.video_env "VOD" false (JObj []))
                             "https://www.vlive.tv/video/1326" [])
  = Raise (KeyError "inkey")
  \/ fst (VLiveIE._real_extract (Mock.video_env "VOD" false (JObj []))
                                "https://www.vlive.tv/video/1326" [])
     = Raise TypeError.
Proof.
  apply (replay_needs_key_field (Mock.video_env "VOD" false (JObj []))
           "https://www.vlive.tv/video/1326" "1326" [] eq_refl)
    with (body := "KEY") (key_json := JObj []).
  - exists Mock.page, (Mock.state "VOD" false), (JBool false), (JStr "VOD").
    repeat split. discriminate.
  - reflexivity.
  - reflexivity.
  - intros k. discriminate.
Defined.

(** C4, as stated, fails: with a key answer whose [inkey] is the empty
    string the Replay strategy is entered, and the format extraction is
    called with the empty key. *)
Lemma replay_with_empty_key :
  VLiveIE._real_extract (Mock.video_env "VOD" false (JObj [("inkey", JStr "")]))
                        "https://www.vlive.tv/video/1326" []
  = (Ok (Video [("title", PJ (JStr "[V LIVE] Broadcast"));
                ("creator", PJ (JStr "Girls"));
                ("thumbnail", PJ (JStr "http://thumb"));
                ("id", PJ (JStr "1326")); ("key", PJ (JStr ""))]),
     [Fetch (page_request "1326"); Fetch (key_request "1326");
      VideoInfo "1326" (JStr "LONG-ID") (JStr "")])
  /\ truthy (JStr "") = false.
Proof. split; reflexivity. Qed.

(* ===================================================================== *)
(** ** The page state parser and the playlist *)
(* ===================================================================== *)

(** C7 (as amended). When the marker pattern is nowhere in the page the
    parser fails with an error naming the field [preload state]. When it
    is there, the leftmost match is taken, with no check that it is the
    only one: if [json.loads] accepts the captured text the document is
    returned, and otherwise the parser fails with the JSON error, which
    names the video id. No call is made in any case. *)
Theorem page_state_parser env webpage video_id h :
  (Re.search PRELOAD_STATE_RE webpage = None ->
   VLiveIE.parse_preload_state env webpage video_id h
   = (Raise (RegexNotFoundError "Unable to extract preload state"), []))
  /\ (forall raw groups,
         Re.search PRELOAD_STATE_RE webpage = Some (raw :: groups) ->
         (forall doc,
             json_loads env raw = Some doc ->
             VLiveIE.parse_preload_state env webpage video_id h = (Ok doc, []))
         /\ (json_loads env raw = None ->
             VLiveIE.parse_preload_state env webpage video_id h
             = (Raise (ExtractorError (video_id ^^ ": Failed to parse JSON ") false),
                []))).
Proof.
  unfold VLiveIE.parse_preload_state, InfoExtractor._search_regex. split.
  - intros ->. reflexivity.
  - intros raw groups ->. cbn [nth_error]. rewrite bind_ret. split.
    + intros doc Hdoc. apply parse_json_ok, Hdoc.
    + intros Hdoc. apply parse_json_fail, Hdoc.
Qed.

Lemma page_state_parser_witness :
  VLiveIE.parse_preload_state two_markers_env "<html></html>" "1326" []
  = (Raise (RegexNotFoundError "Unable to extract preload state"), [])
  /\ VLiveIE.parse_preload_state two_markers_env Mock.page "1326" []
     = (Ok (Mock.state "VOD" false), []).
Proof.
  split.
  - apply (page_state_parser two_markers_env "<html></html>" "1326" []).
    reflexivity.
  - apply (page_state_parser two_markers_env Mock.page "1326" [])
      with (raw := "{STATE}") (groups := []); reflexivity.
Defined.

(** C7, as stated, fails. On a page where the marker matches twice, each
    time with a well-formed object, the parser does not fail: it returns
    the document of the first match. And on a page whose only marker holds
    text that is not JSON, the error comes from [_parse_json], which is
    given the video id and not the field name. *)
Lemma first_marker_wins :
  Re.match_ PRELOAD_STATE_RE (substring 7 200 two_markers_page)
  = Some ["{STATE}"]
  /\ Re.match_ PRELOAD_STATE_RE (substring 59 200 two_markers_page)
     = Some ["{OTHER}"]
  /\ json_loads two_markers_env "{OTHER}" = Some (JObj [])
  /\ VLiveIE.parse_preload_state two_markers_env two_markers_page "1326" []
     = (Ok (Mock.state "VOD" false), [])
  /\ VLiveIE.parse_preload_state two_markers_env
       "<script>window.__PRELOADED_STATE__={oops}</script>" "1326" []
     = (Raise (ExtractorError "1326: Failed to parse JSON " false), []).
Proof. repeat split. Qed.

(** C5. When the playlist page has no [playlistVideoSeqs] match (no list,
    or the empty list []), the playlist extractor returns one
    result, the video named by the video id of the URL, and no playlist. *)
Theorem playlist_without_items env u video_id playlist_id webpage h :
  Re.match_ VLivePlaylistIE._VALID_URL u = Some [video_id; playlist_id] ->
  truthy (noplaylist env) = false ->
  http env
       (h ++ [Screen ("Downloading playlist " ^^ playlist_id
                      ^^ " - add --no-playlist to just download video")])
       (playlist_request video_id playlist_id) = Some webpage ->
  Re.search VLivePlaylistIE.PLAYLIST_SEQS_RE webpage = None ->
  VLivePlaylistIE._real_extract env u h
  = (Ok (UrlResult ("http://www.vlive.tv/video/" ^^ video_id) VLiveIE.ie_key
                   (JStr video_id)),
     [Screen ("Downloading playlist " ^^ playlist_id
              ^^ " - add --no-playlist to just download video");
      Fetch (playlist_request video_id playlist_id);
      Screen ("Downloading just video " ^^ video_id
              ^^ " because no playlist was found")]).
Proof.
  intros Hu Hno Hpage Hre. unfold VLivePlaylistIE._real_extract.
  rewrite Hu, Hno. unfold InfoExtractor.to_screen. rewrite bind_emit.
  fold (playlist_request video_id playlist_id).
  rewrite (bind_ok _ _ _ _ _ (download_webpage_ok _ _ _ _ Hpage)).
  unfold InfoExtractor._search_regex. rewrite Hre, bind_ret.
  reflexivity.
Qed.

Lemma playlist_without_items_witness :
  VLivePlaylistIE._real_extract (playlist_env "var playlistVideoSeqs = [];")
    "http://www.vlive.tv/video/22867/playlist/22912" []
  = (Ok (UrlResult "http://www.vlive.tv/video/22867" "VLive" (JStr "22867")),
     [Screen "Downloading playlist 22912 - add --no-playlist to just download video";
      Fetch (playlist_request "22867" "22912");
      Screen "Downloading just video 22867 because no playlist was found"]).
Proof.
  apply (playlist_without_items (playlist_env "var playlistVideoSeqs = [];")
           "http://www.vlive.tv/video/22867/playlist/22912" "22867" "22912"
           "var playlistVideoSeqs = [];" []); reflexivity.
Defined.

(* ===================================================================== *)
(** ** The login step *)
(* ===================================================================== *)

Lemma py_in_none_spec a b :
  py_in_none a b = true <-> a = JNull \/ b = JNull.
Proof.
  destruct a, b; simpl; split; intros H; try discriminate; auto;
    destruct H; discriminate.
Qed.

Lemma download_json_cases env r video_id h :
  InfoExtractor._download_json env r video_id h
  = (match http env h r with
     | None => Raise (ExtractorError "Unable to download webpage" false)
     | Some body =>
         match json_loads env body with
         | None => Raise (ExtractorError (video_id ^^ ": Failed to parse JSON ") false)
         | Some doc => Ok doc
         end
     end, [Fetch r]).
Proof.
  unfold InfoExtractor._download_json.
  destruct (http env h r) as [body|] eqn:Hb.
  - rewrite (bind_ok _ _ _ _ _ (download_webpage_ok _ _ _ _ Hb)).
    destruct (json_loads env body) as [doc|] eqn:Hj.
    + rewrite (parse_json_ok _ _ _ _ _ Hj). reflexivity.
    + rewrite (parse_json_fail _ _ _ _ Hj). reflexivity.
  - apply bind_raise, download_webpage_fail, Hb.
Qed.

Lemma is_logged_in_cases env h :
  VLiveIE.is_logged_in env h
  = (match http env h login_info_request with
     | None => Raise (ExtractorError "Unable to download webpage" false)
     | Some body =>
         match json_loads env body with
         | None => Raise (ExtractorError "None: Failed to parse JSON " false)
         | Some info =>
             Ok (truthy (try_get (py_path info ["message"; "login"]) is_bool))
         end
     end, [Fetch login_info_request]).
Proof.
  unfold VLiveIE.is_logged_in. fold login_info_request.
  rewrite (pair_eta (bind _ _ h)), bind_fst, bind_snd, download_json_cases.
  cbn [fst snd].
  destruct (http env h login_info_request) as [body|]; [|reflexivity].
  destruct (json_loads env body) as [info|]; reflexivity.
Qed.

Lemma login_cases env email password h :
  login_info env = (email, password) ->
  py_in_none email password = false ->
  VLiveIE._login env h
  = match http env h login_cookie_request with
    | None => (Raise (ExtractorError "Unable to download webpage" false),
               [Fetch login_cookie_request])
    | Some _ =>
        let r2 := login_post_request env email password in
        match http env (h ++ [Fetch login_cookie_request]) r2 with
        | None => (Raise (ExtractorError "Unable to download webpage" false),
                   [Fetch login_cookie_request; Fetch r2])
        | Some _ =>
            (match http env (h ++ [Fetch login_cookie_request; Fetch r2])
                        login_info_request with
             | None => Raise (ExtractorError "Unable to download webpage" false)
             | Some body =>
                 match json_loads env body with
                 | None => Raise (ExtractorError "None: Failed to parse JSON " false)
                 | Some info =>
                     if truthy (try_get (py_path info ["message"; "login"]) is_bool)
                     then Ok tt
                     else Raise (ExtractorError "Unable to log in" true)
                 end
             end,
             [Fetch login_cookie_request; Fetch r2; Fetch login_info_request])
        end
    end.
Proof.
  intros Hc Hn. unfold VLiveIE._login. rewrite Hc, Hn.
  unfold InfoExtractor._request_webpage. fold login_cookie_request.
  fold (login_post_request env email password).
  destruct (http env h login_cookie_request) as [b1|] eqn:H1.
  2:{ apply bind_raise, bind_raise, download_webpage_fail, H1. }
  rewrite (bind_ok _ _ _ tt [Fetch login_cookie_request]).
  2:{ rewrite (bind_ok _ _ _ _ _ (download_webpage_ok _ _ _ _ H1)). reflexivity. }
  cbv zeta.
  destruct (http env (h ++ [Fetch login_cookie_request])
                 (login_post_request env email password)) as [b2|] eqn:H2.
  2:{ rewrite (bind_raise _ _ _ _ _ (download_webpage_fail _ _ _ H2)). reflexivity. }
  rewrite (bind_ok _ _ _ _ _ (download_webpage_ok _ _ _ _ H2)).
  rewrite <- app_assoc. cbn [app].
  rewrite bind_fst, bind_snd, is_logged_in_cases. cbn [fst snd].
  destruct (http env _ login_info_request) as [body|]; [|reflexivity].
  destruct (json_loads env body) as [info|]; [|reflexivity].
  destruct (truthy _); reflexivity.
Qed.

Ltac login_fails :=
  split; [eexists; reflexivity|];
  split; [split; [discriminate|]|];
  intros (? & ? & ? & ? & ? & ? & ? & ? & ?); congruence.

(** C10. Without an email or without a password the login step returns
    at once: no call, no error. With both it attempts the login, and it
    raises the authentication error exactly when the verification after
    the login reports the session as not logged in; when the verification
    reports it as logged in the step returns after its three calls. *)
Theorem login_gate env email password h :
  login_info env = (email, password) ->
  (email = JNull \/ password = JNull -> VLiveIE._login env h = (Ok tt, []))
  /\ (email <> JNull -> password <> JNull ->
      (exists rest, snd (VLiveIE._login env h) = Fetch login_cookie_request :: rest)
      /\ (fst (VLiveIE._login env h) = Raise (ExtractorError "Unable to log in" true)
          <-> verification env h email password false)
      /\ (verification env h email password true ->
          VLiveIE._login env h
          = (Ok tt, [Fetch login_cookie_request;
                     Fetch (login_post_request env email password);
                     Fetch login_info_request]))).
Proof.
  intros Hc. split.
  - intros Hnone. apply py_in_none_spec in Hnone.
    unfold VLiveIE._login. rewrite Hc, Hnone. reflexivity.
  - intros He Hp.
    assert (Hn : py_in_none email password = false).
    { destruct (py_in_none email password) eqn:E; [|reflexivity].
      apply py_in_none_spec in E. tauto. }
    rewrite (login_cases _ _ _ _ Hc Hn). unfold verification. cbv zeta.
    destruct (http env h login_cookie_request) as [b1|]; [|login_fails].
    destruct (http env (h ++ [Fetch login_cookie_request])
                   (login_post_request env email password)) as [b2|];
      [|login_fails].
    destruct (http env _ login_info_request) as [body|]; [|login_fails].
    destruct (json_loads env body) as [info|] eqn:Hj; [|login_fails].
    destruct (truthy (try_get (py_path info ["message"; "login"]) is_bool)) eqn:Ht;
      [login_fails|].
    split; [eexists; reflexivity|]. split; [split|].
    + intros _. exists b1, b2, body, info. auto.
    + reflexivity.
    + intros (? & ? & ? & ? & _ & _ & H3 & H4 & H5). congruence.
Qed.

Lemma login_gate_witness :
  VLiveIE._login (login_env (JStr "me@example.org", JNull) (JBool false)) []
  = (Ok tt, [])
  /\ VLiveIE._login (login_env (JStr "me@example.org", JStr "pw") (JBool true)) []
     = (Ok tt, [Fetch login_cookie_request;
                Fetch (login_post_request
                         (login_env (JStr "me@example.org", JStr "pw") (JBool true))
                         (JStr "me@example.org") (JStr "pw"));
                Fetch login_info_request]).
Proof.
  split.
  - apply (login_gate (login_env (JStr "me@example.org", JNull) (JBool false))
             (JStr "me@example.org") JNull [] eq_refl).
    right. reflexivity.
  - apply (login_gate (login_env (JStr "me@example.org", JStr "pw") (JBool true))
             (JStr "me@example.org") (JStr "pw") [] eq_refl);
      try discriminate.
    exists "<form>", "<form>", "INFO",
      (JObj [("message", JObj [("login", JBool true)])]).
    repeat split.
Defined.

(* ===================================================================== *)
(** ** The channel listing *)
(* ===================================================================== *)

Lemma get_videoSeq video :
  is_dict video = true -> py_get video "videoSeq" JNull = Ok (videoSeq video).
Proof.
  destruct video; try discriminate. intros _. unfold videoSeq. simpl.
  destruct (lookup "videoSeq" l); reflexivity.
Qed.

Lemma page_entries_spec env videos :
  forallb is_dict videos = true ->
  forall entries,
    VLiveChannelIE.page_entries env videos entries
    = Ok (entries ++ kept_entries env videos).
Proof.
  unfold kept_entries.
  induction videos as [|video rest IH]; intros Hd entries.
  - simpl. rewrite app_nil_r. reflexivity.
  - simpl in Hd. apply andb_true_iff in Hd as [Hv Hrest].
    cbn [VLiveChannelIE.page_entries filter].
    rewrite (get_videoSeq _ Hv). cbn [rbind]. unfold carries_videoSeq at 1.
    destruct (truthy (videoSeq video)); cbn [negb map].
    + rewrite (IH Hrest), <- app_assoc. reflexivity.
    + apply IH, Hrest.
Qed.

(** One turn of the pagination loop. *)
Lemma channel_pages_step env fuel code app_id seq n name entries h :
  VLiveChannelIE.channel_pages env (S fuel) code app_id seq n name entries h
  = let req := VLiveChannelIE.list_request env app_id seq n in
    match http env h req with
    | None => (Raise (ExtractorError "Unable to download webpage" false), [Fetch req])
    | Some body =>
        match json_loads env body with
        | None => (Raise (ExtractorError (code ^^ ": Failed to parse JSON ") false),
                   [Fetch req])
        | Some doc =>
            let name' := if negb (truthy name) then channel_name_of doc else name in
            if negb (truthy (video_list_of doc))
            then (Ok (Some (name', entries)), [Fetch req])
            else
              match rbind (py_iter (video_list_of doc))
                          (fun items => VLiveChannelIE.page_entries env items entries)
              with
              | Raise e => (Raise e, [Fetch req])
              | Ok entries' =>
                  let r := VLiveChannelIE.channel_pages env fuel code app_id seq
                             (n + 1) name' entries' (h ++ [Fetch req]) in
                  (fst r, Fetch req :: snd r)
              end
        end
    end.
Proof.
  cbv zeta. cbn [VLiveChannelIE.channel_pages].
  rewrite (pair_eta (bind _ _ h)), bind_fst, bind_snd, download_json_cases.
  cbn [fst snd].
  destruct (http env h _) as [body|]; [|reflexivity].
  destruct (json_loads env body) as [doc|]; [|reflexivity].
  fold (video_list_of doc). fold (channel_name_of doc).
  destruct (negb (truthy (video_list_of doc))); [reflexivity|].
  destruct (py_iter (video_list_of doc)) as [items|e]; [|reflexivity].
  rewrite bind_lift_ok. cbn [rbind].
  destruct (VLiveChannelIE.page_entries env items entries) as [entries'|e];
    [|reflexivity].
  rewrite bind_lift_ok. reflexivity.
Qed.

Lemma channel_pages_stop env fuel code app_id seq n name entries h body doc :
  http env h (VLiveChannelIE.list_request env app_id seq n) = Some body ->
  json_loads env body = Some doc ->
  truthy (video_list_of doc) = false ->
  VLiveChannelIE.channel_pages env (S fuel) code app_id seq n name entries h
  = (Ok (Some (if negb (truthy name) then channel_name_of doc else name, entries)),
     [Fetch (VLiveChannelIE.list_request env app_id seq n)]).
Proof.
  intros Hb Hd Hv. rewrite channel_pages_step. cbv zeta.
  rewrite Hb, Hd, Hv. reflexivity.
Qed.

Lemma channel_pages_next env fuel code app_id seq n name entries h body doc videos :
  http env h (VLiveChannelIE.list_request env app_id seq n) = Some body ->
  json_loads env body = Some doc ->
  video_list_of doc = JArr videos ->
  videos <> [] ->
  forallb is_dict videos = true ->
  VLiveChannelIE.channel_pages env (S fuel) code app_id seq n name entries h
  = (fst (VLiveChannelIE.channel_pages env fuel code app_id seq (n + 1)
            (if negb (truthy name) then channel_name_of doc else name)
            (entries ++ kept_entries env videos)
            (h ++ [Fetch (VLiveChannelIE.list_request env app_id seq n)])),
     Fetch (VLiveChannelIE.list_request env app_id seq n)
     :: snd (VLiveChannelIE.channel_pages env fuel code app_id seq (n + 1)
               (if negb (truthy name) then channel_name_of doc else name)
               (entries ++ kept_entries env videos)
               (h ++ [Fetch (VLiveChannelIE.list_request env app_id seq n)]))).
Proof.
  intros Hb Hd Hv Hne Hdict. rewrite channel_pages_step. cbv zeta.
  rewrite Hb, Hd, Hv. cbn [py_iter rbind].
  rewrite (page_entries_spec _ _ Hdict).
  destruct videos; [contradiction|]. reflexivity.
Qed.



(** C9. The items of a channel page without a [videoSeq], or with a falsy
    one, are passed over: a page contributes one entry per item that
    carries a [videoSeq], in page order, and so does the playlist of a
    channel whose items are all on its first page. *)
Theorem channel_skips_items_without_videoSeq env videos :
  forallb is_dict videos = true ->
  (forall entries,
      VLiveChannelIE.page_entries env videos entries
      = Ok (entries ++ kept_entries env videos))
  /\ (forall fuel code app_id seq n name h b1 d1 b2 d2,
         videos <> [] ->
         http env h (VLiveChannelIE.list_request env app_id seq n) = Some b1 ->
         json_loads env b1 = Some d1 ->
         video_list_of d1 = JArr videos ->
         http env (h ++ [Fetch (VLiveChannelIE.list_request env app_id seq n)])
              (VLiveChannelIE.list_request env app_id seq (n + 1)) = Some b2 ->
         json_loads env b2 = Some d2 ->
         truthy (video_list_of d2) = false ->
         exists name',
           VLiveChannelIE.channel_pages env (S (S fuel)) code app_id seq n name [] h
           = (Ok (Some (name', kept_entries env videos)),
              [Fetch (VLiveChannelIE.list_request env app_id seq n);
               Fetch (VLiveChannelIE.list_request env app_id seq (n + 1))])).
Proof.
  intros Hdict. split; [apply page_entries_spec, Hdict|].
  intros fuel code app_id seq n name h b1 d1 b2 d2 Hne H1 Hd1 Hv1 H2 Hd2 Hv2.
  rewrite (channel_pages_next _ _ _ _ _ _ _ _ _ _ _ _ H1 Hd1 Hv1 Hne Hdict).
  rewrite (channel_pages_stop _ _ _ _ _ _ _ _ _ _ _ H2 Hd2 Hv2).
  eexists. reflexivity.
Qed.

Lemma channel_skips_items_without_videoSeq_witness :
  exists name',
    VLiveChannelIE.channel_pages holed_env 2 "FCD4B"
      (JStr VLiveChannelIE._APP_ID) (JNum 7) 1 JNull [] []
    = (Ok (Some (name', [VLiveChannelIE.video_entry "5";
                         VLiveChannelIE.video_entry "8"])),
       [Fetch (VLiveChannelIE.list_request holed_env
                 (JStr VLiveChannelIE._APP_ID) (JNum 7) 1);
        Fetch (VLiveChannelIE.list_request holed_env
                 (JStr VLiveChannelIE._APP_ID) (JNum 7) 2)]).
Proof.
  apply (proj2 (channel_skips_items_without_videoSeq holed_env
           [channel_item 5; JObj [("title", JStr "x")]; channel_item 0;
            channel_item 8] eq_refl) 0 "FCD4B" (JStr VLiveChannelIE._APP_ID)
           (JNum 7) 1%Z JNull [] "P1"
           (channel_page "MAMAMOO"
              [channel_item 5; JObj [("title", JStr "x")]; channel_item 0;
               channel_item 8])
           "P2" (channel_page "MAMAMOO" []));
    try reflexivity.
  discriminate.
Defined.



(** The whole channel extractor on the mocked channel of 100 + 37 videos. *)
Example channel_of_two_pages :
  fst (VLiveChannelIE._real_extract channel_env 10
         "http://channels.vlive.tv/FCD4B" [])
  = Ok (Some (PlaylistResult
                (map (fun i => VLiveChannelIE.video_entry (str_of_Z (Z.of_nat i)))
                     (seq 1 137))
                "FCD4B" (JStr "MAMAMOO"))).
Proof. vm_compute. reflexivity. Qed.

(* ===================================================================== *)
(** ** Live streams *)
(* ===================================================================== *)

Lemma insert_format_perm f l : Permutation (Mock.insert_format f l) (f :: l).
Proof.
  induction l as [|g l IH]; simpl; [reflexivity|].
  destruct (Z.leb (tbr f) (tbr g)); [reflexivity|].
  rewrite IH. apply perm_swap.
Qed.

Lemma sort_by_tbr_perm l : Permutation (Mock.sort_by_tbr l) l.
Proof.
  unfold Mock.sort_by_tbr. induction l as [|f l IH]; simpl; [reflexivity|].
  rewrite insert_format_perm, IH. reflexivity.
Qed.

Lemma flat_map_succeeded outcome entries :
  flat_map (formats_of outcome) (filter (succeeded outcome) entries)
  = flat_map (formats_of outcome) entries.
Proof.
  induction entries as [|vid rest IH]; [reflexivity|].
  cbn [filter flat_map].
  assert (Hv : succeeded outcome vid = false -> formats_of outcome vid = []).
  { unfold succeeded, formats_of. destruct (outcome vid); [discriminate|auto]. }
  destruct (succeeded outcome vid).
  - cbn [flat_map]. rewrite IH. reflexivity.
  - rewrite (Hv eq_refl), IH. reflexivity.
Qed.

Lemma flat_map_all_failed outcome entries :
  forallb (fun vid => negb (succeeded outcome vid)) entries = true ->
  flat_map (formats_of outcome) entries = [].
Proof.
  induction entries as [|vid rest IH]; [reflexivity|].
  cbn [forallb flat_map].
  intros H. apply andb_true_iff in H as [Hv Hrest]. rewrite (IH Hrest).
  unfold succeeded in Hv. unfold formats_of.
  destruct (outcome vid); [discriminate|reflexivity].
Qed.

Lemma stream_entry_fields vid :
  stream_entry vid = true ->
  py_getitem vid "serviceUrl" = Ok (service_url vid)
  /\ py_get vid "streamName" JNull = Ok (stream_name vid).
Proof.
  unfold stream_entry, service_url, stream_name.
  destruct vid; try discriminate. simpl.
  destruct (lookup "serviceUrl" l); [|discriminate]. intros _.
  destruct (lookup "streamName" l); auto.
Qed.

Lemma extract_m3u8_soft env u video_id name h :
  fst (InfoExtractor._extract_m3u8_formats env u video_id name false h)
  = Ok (match m3u8 env h u name with Some fs => fs | None => [] end).
Proof.
  unfold InfoExtractor._extract_m3u8_formats.
  destruct (m3u8 env h u name); reflexivity.
Qed.

Lemma live_formats_spec env video_id outcome entries :
  forallb stream_entry entries = true ->
  (forall vid h', In vid entries ->
                  m3u8 env h' (service_url vid) (stream_name vid) = outcome vid) ->
  forall formats h,
    fst (VLiveIE.live_formats env video_id entries formats h)
    = Ok (formats ++ flat_map (formats_of outcome) entries).
Proof.
  induction entries as [|vid rest IH]; intros Hs Hout formats h.
  - simpl. rewrite app_nil_r. reflexivity.
  - simpl in Hs. apply andb_true_iff in Hs as [Hv Hrest].
    destruct (stream_entry_fields _ Hv) as [Hu Hn].
    cbn [VLiveIE.live_formats]. rewrite Hu, bind_lift_ok, Hn, bind_lift_ok.
    rewrite bind_fst, extract_m3u8_soft, (Hout vid _ (or_introl eq_refl)).
    rewrite IH; [|exact Hrest | intros v h' Hin; apply Hout; right; exact Hin].
    cbn [flat_map]. rewrite <- app_assoc. reflexivity.
Qed.

Lemma common_fields_pure preload_state h :
  VLiveIE._get_common_fields preload_state h
  = (fst (VLiveIE._get_common_fields preload_state []), []).
Proof.
  unfold VLiveIE._get_common_fields.
  destruct (py_path preload_state ["postDetail"; "post"; "title"]) as [t|];
    [|reflexivity].
  rewrite !bind_lift_ok.
  destruct t; try reflexivity. rewrite !bind_ret.
  destruct (py_path preload_state ["channel"; "channel"; "channelName"]);
    [|reflexivity].
  rewrite !bind_lift_ok.
  destruct (py_path preload_state (officialVideo ++ ["thumb"])); reflexivity.
Qed.

Lemma live_formats_events env video_id outcome entries :
  forallb stream_entry entries = true ->
  (forall vid h', In vid entries ->
                  m3u8 env h' (service_url vid) (stream_name vid) = outcome vid) ->
  forall formats h,
    snd (VLiveIE.live_formats env video_id entries formats h)
    = flat_map (entry_events outcome video_id) entries.
Proof.
  induction entries as [|vid rest IH]; intros Hs Hout formats h.
  - reflexivity.
  - simpl in Hs. apply andb_true_iff in Hs as [Hv Hrest].
    destruct (stream_entry_fields _ Hv) as [Hu Hn].
    cbn [VLiveIE.live_formats]. rewrite Hu, bind_lift_ok, Hn, bind_lift_ok.
    rewrite bind_snd, extract_m3u8_soft.
    rewrite IH; [|exact Hrest | intros v h' Hin; apply Hout; right; exact Hin].
    cbn [flat_map]. f_equal.
    unfold InfoExtractor._extract_m3u8_formats, entry_events, succeeded,
      manifest_call.
    rewrite (Hout vid _ (or_introl eq_refl)).
    destruct (outcome vid); reflexivity.
Qed.

Lemma warnings_of_entries outcome video_id entries :
  length (filter is_warning (flat_map (entry_events outcome video_id) entries))
  = length (filter (fun vid => negb (succeeded outcome vid)) entries).
Proof.
  induction entries as [|vid rest IH]; [reflexivity|].
  cbn [flat_map filter]. rewrite filter_app, length_app, IH.
  unfold entry_events, manifest_call.
  destruct (succeeded outcome vid); reflexivity.
Qed.

Lemma live_run env video_id preload_state h live_webpage live_json
        res entries outcome t creator thumb :
  http env h (playinfo_request video_id) = Some live_webpage ->
  json_loads env live_webpage = Some live_json ->
  py_getitem live_json "result" = Ok res ->
  py_get res "streamList" (JArr []) = Ok (JArr entries) ->
  forallb stream_entry entries = true ->
  (forall vid h', In vid entries ->
                  m3u8 env h' (service_url vid) (stream_name vid) = outcome vid) ->
  py_path preload_state ["postDetail"; "post"; "title"] = Ok (JStr t) ->
  py_path preload_state ["channel"; "channel"; "channelName"] = Ok creator ->
  py_path preload_state (officialVideo ++ ["thumb"]) = Ok thumb ->
  VLiveIE._live env video_id preload_state h
  = (match sort_formats env
             (flat_map (formats_of outcome) (filter (succeeded outcome) entries))
     with
     | Ok formats =>
         Ok (Video [("title", PJ (JStr ("[V LIVE] " ^^ t)));
                    ("creator", PJ creator); ("thumbnail", PJ thumb);
                    ("id", PJ (JStr video_id)); ("formats", PFormats formats);
                    ("is_live", PJ (JBool true))])
     | Raise e => Raise e
     end,
     Fetch (playinfo_request video_id)
     :: flat_map (entry_events outcome video_id) entries).
Proof.
  intros Hw Hj Hres Hlist Hentries Hout Ht Hc Hth.
  rewrite (pair_eta (VLiveIE._live env video_id preload_state h)).
  unfold VLiveIE._live. fold (playinfo_request video_id).
  rewrite (bind_ok _ _ _ _ _ (download_webpage_ok _ _ _ _ Hw)). cbn [fst snd].
  rewrite (bind_ok _ _ _ _ _ (parse_json_ok _ _ _ _ _ Hj)). cbn [fst snd app].
  rewrite Hres, bind_lift_ok, Hlist, bind_lift_ok. cbn [py_iter].
  rewrite bind_lift_ok, bind_fst, bind_snd.
  rewrite (live_formats_spec _ _ _ _ Hentries Hout),
    (live_formats_events _ _ _ _ Hentries Hout). cbn [app].
  unfold InfoExtractor._sort_formats. rewrite flat_map_succeeded.
  destruct (sort_formats env (flat_map (formats_of outcome) entries))
    as [formats|e].
  - rewrite !bind_lift_ok, bind_fst, bind_snd, common_fields_pure.
    unfold VLiveIE._get_common_fields.
    rewrite Ht, bind_lift_ok, bind_ret, Hc, bind_lift_ok, Hth, bind_lift_ok.
    unfold ret. cbn. rewrite ?app_nil_r. reflexivity.
  - unfold bind, lift. cbn. rewrite ?app_nil_r. reflexivity.
Qed.

Lemma strict_sort_refuses_empty : refuses_empty strict_sort.
Proof.
  split; [reflexivity|]. intros [|f l] Hl; [congruence|].
  exists (Mock.sort_by_tbr (f :: l)). split; [reflexivity|].
  apply sort_by_tbr_perm.
Qed.

(** C3. A live resolution over N stream entries asks for each manifest
    and passes over the K that fail, with one warning each: none of them
    makes the call raise. What is found, the formats of the N - K entries
    that succeeded, goes to [_sort_formats], and only its answer decides:
    the descriptor with the sorted formats, or the sorter's error. With the
    sorter of common.py, which refuses an empty list, the descriptor
    carries exactly the formats of the N - K entries when there is at
    least one; when nothing is found, as when all N entries fail, the call
    raises 'No video formats found' and returns no descriptor. *)
Theorem live_soft_failure env video_id preload_state h live_webpage live_json
        res entries outcome t creator thumb :
  http env h (playinfo_request video_id) = Some live_webpage ->
  json_loads env live_webpage = Some live_json ->
  py_getitem live_json "result" = Ok res ->
  py_get res "streamList" (JArr []) = Ok (JArr entries) ->
  forallb stream_entry entries = true ->
  (forall vid h', In vid entries ->
                  m3u8 env h' (service_url vid) (stream_name vid) = outcome vid) ->
  py_path preload_state ["postDetail"; "post"; "title"] = Ok (JStr t) ->
  py_path preload_state ["channel"; "channel"; "channelName"] = Ok creator ->
  py_path preload_state (officialVideo ++ ["thumb"]) = Ok thumb ->
  VLiveIE._live env video_id preload_state h
  = (match sort_formats env
             (flat_map (formats_of outcome) (filter (succeeded outcome) entries))
     with
     | Ok formats =>
         Ok (Video [("title", PJ (JStr ("[V LIVE] " ^^ t)));
                    ("creator", PJ creator); ("thumbnail", PJ thumb);
                    ("id", PJ (JStr video_id)); ("formats", PFormats formats);
                    ("is_live", PJ (JBool true))])
     | Raise e => Raise e
     end,
     Fetch (playinfo_request video_id)
     :: flat_map (entry_events outcome video_id) entries)
  /\ length (filter is_warning (snd (VLiveIE._live env video_id preload_state h)))
     = length (filter (fun vid => negb (succeeded outcome vid)) entries)
  /\ (refuses_empty (sort_formats env) ->
      (flat_map (formats_of outcome) (filter (succeeded outcome) entries) <> [] ->
       exists formats,
         fst (VLiveIE._live env video_id preload_state h)
         = Ok (Video [("title", PJ (JStr ("[V LIVE] " ^^ t)));
                      ("creator", PJ creator); ("thumbnail", PJ thumb);
                      ("id", PJ (JStr video_id)); ("formats", PFormats formats);
                      ("is_live", PJ (JBool true))])
         /\ Permutation formats
              (flat_map (formats_of outcome)
                        (filter (succeeded outcome) entries)))
      /\ (flat_map (formats_of outcome) (filter (succeeded outcome) entries) = [] ->
          fst (VLiveIE._live env video_id preload_state h)
          = Raise (ExtractorError "No video formats found" false))
      /\ (forallb (fun vid => negb (succeeded outcome vid)) entries = true ->
          fst (VLiveIE._live env video_id preload_state h)
          = Raise (ExtractorError "No video formats found" false))).
Proof.
  intros Hw Hj Hres Hlist Hentries Hout Ht Hc Hth.
  pose proof (live_run _ _ _ _ _ _ _ _ _ _ _ _
                Hw Hj Hres Hlist Hentries Hout Ht Hc Hth) as Hrun.
  split; [exact Hrun|]. rewrite Hrun. cbn [fst snd]. split.
  - cbn [filter is_warning]. apply warnings_of_entries.
  - intros [Hempty Hsome].
    assert (Hnone : flat_map (formats_of outcome)
                             (filter (succeeded outcome) entries) = [] ->
                    match sort_formats env
                            (flat_map (formats_of outcome)
                                      (filter (succeeded outcome) entries))
                    with
                    | Ok formats =>
                        Ok (Video [("title", PJ (JStr ("[V LIVE] " ^^ t)));
                                   ("creator", PJ creator);
                                   ("thumbnail", PJ thumb);
                                   ("id", PJ (JStr video_id));
                                   ("formats", PFormats formats);
                                   ("is_live", PJ (JBool true))])
                    | Raise e => Raise e
                    end
                    = Raise (ExtractorError "No video formats found" false)).
    { intros ->. rewrite Hempty. reflexivity. }
    split; [|split].
    + intros Hfound. destruct (Hsome _ Hfound) as (formats & Hsorted & Hperm).
      exists formats. rewrite Hsorted. split; [reflexivity | exact Hperm].
    + exact Hnone.
    + intros Hall. apply Hnone.
      rewrite flat_map_succeeded. apply flat_map_all_failed. exact Hall.
Qed.

Lemma live_soft_failure_witness :
  VLiveIE._live strict_live_env "1326" (Mock.state "LIVE" false) []
  = (match sort_formats strict_live_env
             (flat_map (formats_of live_outcome)
                (filter (succeeded live_outcome)
                   [stream "http://cdn/a.m3u8"; stream "http://cdn/b.m3u8";
                    stream "http://cdn/c.m3u8"]))
     with
     | Ok formats =>
         Ok (Video [("title", PJ (JStr ("[V LIVE] " ^^ "Broadcast")));
                    ("creator", PJ (JStr "Girls"));
                    ("thumbnail", PJ (JStr "http://thumb"));
                    ("id", PJ (JStr "1326")); ("formats", PFormats formats);
                    ("is_live", PJ (JBool true))])
     | Raise e => Raise e
     end,
     Fetch (playinfo_request "1326")
     :: flat_map (entry_events live_outcome "1326")
          [stream "http://cdn/a.m3u8"; stream "http://cdn/b.m3u8";
           stream "http://cdn/c.m3u8"])
  /\ length (filter is_warning
               (snd (VLiveIE._live strict_live_env "1326"
                       (Mock.state "LIVE" false) [])))
     = length (filter (fun vid => negb (succeeded live_outcome vid))
                 [stream "http://cdn/a.m3u8"; stream "http://cdn/b.m3u8";
                  stream "http://cdn/c.m3u8"])
  /\ exists formats,
      fst (VLiveIE._live strict_live_env "1326" (Mock.state "LIVE" false) [])
      = Ok (Video [("title", PJ (JStr ("[V LIVE] " ^^ "Broadcast")));
                   ("creator", PJ (JStr "Girls"));
                   ("thumbnail", PJ (JStr "http://thumb"));
                   ("id", PJ (JStr "1326")); ("formats", PFormats formats);
                   ("is_live", PJ (JBool true))])
      /\ Permutation formats
           (flat_map (formats_of live_outcome)
              (filter (succeeded live_outcome)
                 [stream "http://cdn/a.m3u8"; stream "http://cdn/b.m3u8";
                  stream "http://cdn/c.m3u8"])).
Proof.
  pose proof (live_soft_failure strict_live_env "1326" (Mock.state "LIVE" false)
                [] "PLAY"
                (JObj [("result",
                        JObj [("streamList",
                               JArr [stream "http://cdn/a.m3u8";
                                     stream "http://cdn/b.m3u8";
                                     stream "http://cdn/c.m3u8"])])])
                (JObj [("streamList",
                        JArr [stream "http://cdn/a.m3u8";
                              stream "http://cdn/b.m3u8";
                              stream "http://cdn/c.m3u8"])])
                [stream "http://cdn/a.m3u8"; stream "http://cdn/b.m3u8";
                 stream "http://cdn/c.m3u8"]
                live_outcome "Broadcast" (JStr "Girls") (JStr "http://thumb")
                eq_refl eq_refl eq_refl eq_refl eq_refl
                (fun vid h' _ => eq_refl) eq_refl eq_refl eq_refl)
    as (Hrun & Hwarn & Hstrict).
  split; [exact Hrun|]. split; [exact Hwarn|].
  apply (proj1 (Hstrict strict_sort_refuses_empty)). discriminate.
Defined.

(** C3, as stated, fails in its last part. Two stream entries, both
    manifests failing: each is passed over with its warning, and then the
    sorter of common.py is given the empty list and refuses it. The call
    raises; no descriptor with an empty format list is returned. *)
Lemma all_streams_failing_is_an_error :
  m3u8 dead_streams_env [] (JStr "http://cdn/x.m3u8") (JStr "HD") = None
  /\ m3u8 dead_streams_env [] (JStr "http://cdn/y.m3u8") (JStr "HD") = None
  /\ sort_formats dead_streams_env []
     = Raise (ExtractorError "No video formats found" false)
  /\ VLiveIE._live dead_streams_env "1326" (Mock.state "LIVE" false) []
     = (Raise (ExtractorError "No video formats found" false),
        [Fetch (playinfo_request "1326");
         M3u8Formats (JStr "http://cdn/x.m3u8") "1326" (JStr "HD");
         Warning "Failed to download m3u8 information";
         M3u8Formats (JStr "http://cdn/y.m3u8") "1326" (JStr "HD");
         Warning "Failed to download m3u8 information"]).
Proof. repeat split. Qed.

(** The live video of three streams under the sorter of common.py: the
    failing second stream is passed over, the formats of the other two are
    returned. *)
Example strict_live_with_one_failed_stream :
  VLiveIE._live strict_live_env "1326" (Mock.state "LIVE" false) []
  = (Ok (Video [("title", PJ (JStr "[V LIVE] Broadcast"));
                ("creator", PJ (JStr "Girls"));
                ("thumbnail", PJ (JStr "http://thumb"));
                ("id", PJ (JStr "1326"));
                ("formats",
                 PFormats [mkFormat "a-360" "http://cdn/a/360" 800;
                           mkFormat "c-480" "http://cdn/c/480" 1200;
                           mkFormat "a-720" "http://cdn/a/720" 2000]);
                ("is_live", PJ (JBool true))]),
     [Fetch (playinfo_request "1326");
      M3u8Formats (JStr "http://cdn/a.m3u8") "1326" (JStr "HD");
      M3u8Formats (JStr "http://cdn/b.m3u8") "1326" (JStr "HD");
      Warning "Failed to download m3u8 information";
      M3u8Formats (JStr "http://cdn/c.m3u8") "1326" (JStr "HD")]).
Proof. reflexivity. Qed.

(** The run of the mocked live video: the second stream is skipped with a
    warning, the formats of the other two are sorted. *)
Example live_with_one_failed_stream :
  VLiveIE._live live_env "1326" (Mock.state "LIVE" false) []
  = (Ok (Video [("title", PJ (JStr "[V LIVE] Broadcast"));
                ("creator", PJ (JStr "Girls"));
                ("thumbnail", PJ (JStr "http://thumb"));
                ("id", PJ (JStr "1326"));
                ("formats",
                 PFormats [mkFormat "a-360" "http://cdn/a/360" 800;
                           mkFormat "c-480" "http://cdn/c/480" 1200;
                           mkFormat "a-720" "http://cdn/a/720" 2000]);
                ("is_live", PJ (JBool true))]),
     [Fetch (playinfo_request "1326");
      M3u8Formats (JStr "http://cdn/a.m3u8") "1326" (JStr "HD");
      M3u8Formats (JStr "http://cdn/b.m3u8") "1326" (JStr "HD");
      Warning "Failed to download m3u8 information";
      M3u8Formats (JStr "http://cdn/c.m3u8") "1326" (JStr "HD")]).
Proof. reflexivity. Qed.

(* ===================================================================== *)
(** ** The URLs and runs of the tests *)
(* ===================================================================== *)

Example video_url_matches :
  Re.match_ VLiveIE._VALID_URL "http://www.vlive.tv/video/1326" = Some ["1326"]
  /\ Re.match_ VLiveIE._VALID_URL "https://www.vlive.tv/video/129100"
     = Some ["129100"]
  /\ Re.match_ VLiveIE._VALID_URL "https://m.vlive.tv/video/16937"
     = Some ["16937"]
  /\ Re.match_ VLiveIE._VALID_URL "https://www.vlive.tv/post/1-19664999" = None.
Proof. repeat split. Qed.

Example playlist_url_matches :
  Re.match_ VLivePlaylistIE._VALID_URL
            "https://www.vlive.tv/video/117956/playlist/117963"
  = Some ["117956"; "117963"]
  /\ VLiveIE_suitable "https://www.vlive.tv/video/117956/playlist/117963" = false
  /\ VLiveIE_suitable "http://www.vlive.tv/video/1326" = true.
Proof. repeat split. Qed.

Example channel_and_post_urls_match :
  Re.match_ VLiveChannelIE._VALID_URL "http://channels.vlive.tv/FCD4B"
  = Some ["FCD4B"]
  /\ Re.match_ VLivePostIE._VALID_URL "https://www.vlive.tv/post/1-19664999"
     = Some ["1-19664999"].
Proof. repeat split. Qed.

Example playlist_seqs_pattern :
  Re.search VLivePlaylistIE.PLAYLIST_SEQS_RE "var playlistVideoSeqs = [1,2,3];"
  = Some ["[1,2,3]"]
  /\ Re.search VLivePlaylistIE.PLAYLIST_SEQS_RE "var playlistVideoSeqs = [];"
     = None
  /\ Re.search VLivePlaylistIE.PLAYLIST_SEQS_RE "<html></html>" = None.
Proof. repeat split. Qed.

Example app_js_pattern :
  Re.search VLiveChannelIE.APP_JS_RE
            "<script type='text/javascript' src='http://s.vlive.tv/js/app.js?v=3'>"
  = Some ["'"; "http://s.vlive.tv/js/app.js?v=3"]
  /\ Re.search VLiveChannelIE.APP_ID_RE "Global.VFAN_APP_ID = 'abc123';"
     = Some ["abc123"].
Proof. repeat split. Qed.

(** A replay: the page, the key, then the format collaborator. *)
Example replay_of_a_vod :
  VLiveIE._real_extract
    (Mock.video_env "VOD" false (JObj [("inkey", JStr "k")]))
    "http://www.vlive.tv/video/1326" []
  = (Ok (Video [("title", PJ (JStr "[V LIVE] Broadcast"));
                ("creator", PJ (JStr "Girls"));
                ("thumbnail", PJ (JStr "http://thumb"));
                ("id", PJ (JStr "1326")); ("key", PJ (JStr "k"))]),
     [Fetch (page_request "1326"); Fetch (key_request "1326");
      VideoInfo "1326" (JStr "LONG-ID") (JStr "k")]).
Proof. reflexivity. Qed.

(** A scheduled broadcast: no key, no play info. *)
Example upcoming_broadcast :
  VLiveIE._real_extract (Mock.video_env "LIVE" true JNull)
                        "http://www.vlive.tv/video/1326" []
  = (Raise (ExtractorError "Coming soon!" true), [Fetch (page_request "1326")]).
Proof. reflexivity. Qed.

(* ===================================================================== *)
(** ** Patterns and URLs *)
(* ===================================================================== *)

Lemma strip_prefix_spec p s s1 : Re.strip_prefix p s = Some s1 <-> s = p ^^ s1.
Proof.
  revert s. induction p as [|a p IH]; intros s; simpl.
  - split; [intros H; injection H; auto | intros ->; reflexivity].
  - destruct s as [|b s]; [split; discriminate|].
    destruct (Ascii.eqb_spec a b) as [->|Hne].
    + rewrite IH. split; [intros ->; reflexivity | intros H; injection H; auto].
    + split; [discriminate | intros H; injection H; intros; congruence].
Qed.

Lemma star_sound {A} c s (k : string -> option A) r :
  Re.star c s k = Some r ->
  exists pre s1, s = pre ^^ s1 /\ all_chars c pre = true /\ k s1 = Some r.
Proof.
  revert r. induction s as [|a s IH]; intros r; simpl.
  - intros H. exists "", "". auto.
  - destruct (c a) eqn:Hc.
    + unfold Re.orelse. destruct (Re.star c s k) as [r'|] eqn:Hs.
      * intros H. injection H as <-.
        destruct (IH r' eq_refl) as (pre & s1 & -> & Hall & Hk).
        exists (String a pre), s1. simpl. rewrite Hc. auto.
      * intros H. exists "", (String a s). auto.
    + intros H. exists "", (String a s). auto.
Qed.

Lemma plus_sound {A} c s (k : string -> option A) r :
  Re.plus c s k = Some r ->
  exists pre s1, s = pre ^^ s1 /\ pre <> "" /\ all_chars c pre = true
                 /\ k s1 = Some r.
Proof.
  destruct s as [|a s]; simpl; [discriminate|].
  destruct (c a) eqn:Hc; [|discriminate]. intros H.
  destruct (star_sound _ _ _ _ H) as (pre & s1 & -> & Hall & Hk).
  exists (String a pre), s1. simpl. rewrite Hc. repeat split; auto. discriminate.
Qed.

Lemma lazy_star_sound {A} c s (k : string -> option A) r :
  Re.lazy_star c s k = Some r ->
  exists pre s1, s = pre ^^ s1 /\ all_chars c pre = true /\ k s1 = Some r.
Proof.
  revert r. induction s as [|a s IH]; intros r; simpl.
  - intros H. exists "", "". auto.
  - unfold Re.orelse. destruct (k (String a s)) as [r'|] eqn:Hk.
    + intros H. injection H as <-. exists "", (String a s). auto.
    + destruct (c a) eqn:Hc; [|discriminate]. intros H.
      destruct (IH r H) as (pre & s1 & -> & Hall & Hk1).
      exists (String a pre), s1. simpl. rewrite Hc. auto.
Qed.

Lemma lazy_plus_sound {A} c s (k : string -> option A) r :
  Re.lazy_plus c s k = Some r ->
  exists pre s1, s = pre ^^ s1 /\ pre <> "" /\ all_chars c pre = true
                 /\ k s1 = Some r.
Proof.
  destruct s as [|a s]; simpl; [discriminate|].
  destruct (c a) eqn:Hc; [|discriminate]. intros H.
  destruct (lazy_star_sound _ _ _ _ H) as (pre & s1 & -> & Hall & Hk).
  exists (String a pre), s1. simpl. rewrite Hc. repeat split; auto. discriminate.
Qed.

Lemma alt_sound {A} l s (k : string -> option A) r :
  Re.alt l s k = Some r ->
  exists a s1, In a l /\ s = a ^^ s1 /\ k s1 = Some r.
Proof.
  induction l as [|a l IH]; simpl; [discriminate|].
  unfold Re.orelse.
  destruct (Re.strip_prefix a s) as [s1|] eqn:Hp.
  - destruct (k s1) as [r'|] eqn:Hk.
    + intros H. injection H as <-. exists a, s1.
      apply strip_prefix_spec in Hp. auto.
    + intros H. destruct (IH H) as (b & s2 & Hin & Hs & Hk2).
      exists b, s2. auto.
  - intros H. destruct (IH H) as (b & s2 & Hin & Hs & Hk2). exists b, s2. auto.
Qed.

(** The matcher is sound: whenever it answers, the continuation was given
    the rest and the groups of a match of the pattern. *)
Lemma match_atoms_sound {A} p :
  forall s starts caps (k : string -> list string -> option A) r,
    Re.match_atoms p s starts caps k = Some r ->
    exists s' caps', re_run p s starts caps s' caps' /\ k s' caps' = Some r.
Proof.
  induction p as [|a p IH]; intros s starts caps k r H.
  - exists s, caps. simpl. auto.
  - destruct a; cbn [Re.match_atoms] in H; cbn [re_run].
    + destruct (Re.strip_prefix s0 s) as [s1|] eqn:Hp; [|discriminate].
      apply strip_prefix_spec in Hp.
      destruct (IH _ _ _ _ _ H) as (s' & caps' & Hr & Hk). eauto 8.
    + destruct (alt_sound _ _ _ _ H) as (b & s1 & Hin & Hs & Hk).
      destruct (IH _ _ _ _ _ Hk) as (s' & caps' & Hr & Hk'). eauto 10.
    + destruct s as [|b s1]; [discriminate|].
      destruct (c b) eqn:Hc; [|discriminate].
      destruct (IH _ _ _ _ _ H) as (s' & caps' & Hr & Hk). eauto 10.
    + destruct (star_sound _ _ _ _ H) as (pre & s1 & Hs & Hall & Hk).
      destruct (IH _ _ _ _ _ Hk) as (s' & caps' & Hr & Hk'). eauto 10.
    + destruct (plus_sound _ _ _ _ H) as (pre & s1 & Hs & Hne & Hall & Hk).
      destruct (IH _ _ _ _ _ Hk) as (s' & caps' & Hr & Hk'). eauto 12.
    + destruct (lazy_star_sound _ _ _ _ H) as (pre & s1 & Hs & Hall & Hk).
      destruct (IH _ _ _ _ _ Hk) as (s' & caps' & Hr & Hk'). eauto 10.
    + destruct (lazy_plus_sound _ _ _ _ H) as (pre & s1 & Hs & Hne & Hall & Hk).
      destruct (IH _ _ _ _ _ Hk) as (s' & caps' & Hr & Hk'). eauto 12.
    + apply IH in H. exact H.
    + destruct starts as [|top rest]; [discriminate|].
      destruct (IH _ _ _ _ _ H) as (s' & caps' & Hr & Hk). eauto 10.
    + destruct (nth_error caps n) as [g|] eqn:Hn; [|discriminate].
      destruct (Re.strip_prefix g s) as [s1|] eqn:Hp; [|discriminate].
      apply strip_prefix_spec in Hp.
      destruct (IH _ _ _ _ _ H) as (s' & caps' & Hr & Hk). eauto 10.
Qed.

Lemma match_sound p s caps :
  Re.match_ p s = Some caps -> exists s', re_run p s [] [] s' caps.
Proof.
  intros H. destruct (match_atoms_sound _ _ _ _ _ _ H) as (s' & caps' & Hr & Hk).
  injection Hk as <-. eauto.
Qed.

Lemma search_sound p s caps :
  Re.search p s = Some caps ->
  exists skipped s0, s = skipped ^^ s0 /\ Re.match_ p s0 = Some caps.
Proof.
  induction s as [|a s IH]; simpl.
  - destruct (Re.match_ p "") eqn:Hm; [|discriminate].
    intros H. injection H as <-. exists "", "". auto.
  - destruct (Re.match_ p (String a s)) eqn:Hm.
    + intros H. injection H as <-. exists "", (String a s). auto.
    + intros H. destruct (IH H) as (sk & s0 & -> & Hm0).
      exists (String a sk), s0. auto.
Qed.

Lemma length_append a b : String.length (a ^^ b) = String.length a + String.length b.
Proof. induction a; simpl; auto. Qed.

Lemma substring_prefix a b : substring 0 (String.length a) (a ^^ b) = a.
Proof. induction a as [|c a IH]; simpl; [destruct b; reflexivity|]. rewrite IH. reflexivity. Qed.

Lemma consumed_append pre s : Re.consumed (pre ^^ s) s = pre.
Proof.
  unfold Re.consumed. rewrite length_append.
  replace (String.length pre + String.length s - String.length s)
    with (String.length pre) by lia.
  apply substring_prefix.
Qed.

Lemma video_url_shape u caps :
  Re.match_ VLiveIE._VALID_URL u = Some caps ->
  exists scheme host video_id rest,
    caps = [video_id]
    /\ In scheme ["https"; "http"] /\ In host ["www."; "m."; ""]
    /\ video_id <> "" /\ all_chars Re.digit video_id = true
    /\ u = scheme ^^ "://" ^^ host ^^ "vlive.tv/video/" ^^ video_id ^^ rest.
Proof.
  intros H. destruct (match_sound _ _ _ H) as (s' & Hr).
  cbn [re_run VLiveIE._VALID_URL vlive_host app] in Hr.
  destruct Hr as (scheme & s1 & Hscheme & -> & s2 & -> & host & s3 & Hhost & ->
                  & s4 & -> & s5 & -> & digits & rest & -> & Hne & Hdig
                  & top & st & Htop & -> & ->).
  injection Htop as <- <-. rewrite consumed_append.
  exists scheme, host, digits, rest. repeat split; auto.
Qed.

(** X1. The video id taken from a URL is a non-empty string of decimal
    digits, and the URL is a vlive.tv video address that carries it: the
    id comes from no other place, and taking it makes no call. *)
Theorem match_id_takes_the_digits u h video_id evs :
  InfoExtractor._match_id VLiveIE._VALID_URL 0 u h = (Ok video_id, evs) ->
  evs = []
  /\ video_id <> "" /\ all_chars Re.digit video_id = true
  /\ exists scheme host rest,
      In scheme ["https"; "http"] /\ In host ["www."; "m."; ""]
      /\ u = scheme ^^ "://" ^^ host ^^ "vlive.tv/video/" ^^ video_id ^^ rest.
Proof.
  unfold InfoExtractor._match_id.
  destruct (Re.match_ VLiveIE._VALID_URL u) as [caps|] eqn:Hm; [|discriminate].
  destruct (video_url_shape _ _ Hm) as (scheme & host & vid & rest & -> & Hs & Hh
                                        & Hne & Hd & Hu).
  cbn [nth_error]. intros H. injection H as <- <-.
  repeat split; auto. exists scheme, host, rest. auto.
Qed.

Lemma match_id_takes_the_digits_witness :
  "1326" <> "" /\ all_chars Re.digit "1326" = true
  /\ exists scheme host rest,
      In scheme ["https"; "http"] /\ In host ["www."; "m."; ""]
      /\ "http://www.vlive.tv/video/1326?x=1"
         = scheme ^^ "://" ^^ host ^^ "vlive.tv/video/" ^^ "1326" ^^ rest.
Proof.
  exact (proj2 (match_id_takes_the_digits "http://www.vlive.tv/video/1326?x=1"
                  [] "1326" [] eq_refl)).
Defined.

Section Weaken.
Context {A B : Type}.
Variables (k1 : string -> option A) (k2 : string -> option B).
Hypothesis Hk : forall s, k1 s <> None -> k2 s <> None.

Lemma orelse_weaken (x y : option A) (x' y' : option B) :
  (x <> None -> x' <> None) -> (y <> None -> y' <> None) ->
  Re.orelse x y <> None -> Re.orelse x' y' <> None.
Proof.
  unfold Re.orelse. destruct x, x', y, y'; try congruence; intuition congruence.
Qed.

Lemma star_weaken c s : Re.star c s k1 <> None -> Re.star c s k2 <> None.
Proof.
  induction s as [|a s IH]; simpl; [apply Hk|].
  destruct (c a); [|apply Hk]. apply orelse_weaken; [exact IH | apply Hk].
Qed.

Lemma plus_weaken c s : Re.plus c s k1 <> None -> Re.plus c s k2 <> None.
Proof.
  destruct s as [|a s]; simpl; [congruence|].
  destruct (c a); [apply star_weaken | congruence].
Qed.

Lemma lazy_star_weaken c s :
  Re.lazy_star c s k1 <> None -> Re.lazy_star c s k2 <> None.
Proof.
  induction s as [|a s IH]; simpl; [apply Hk|].
  apply orelse_weaken; [apply Hk|]. destruct (c a); [exact IH | congruence].
Qed.

Lemma lazy_plus_weaken c s :
  Re.lazy_plus c s k1 <> None -> Re.lazy_plus c s k2 <> None.
Proof.
  destruct s as [|a s]; simpl; [congruence|].
  destruct (c a); [apply lazy_star_weaken | congruence].
Qed.

Lemma alt_weaken l s : Re.alt l s k1 <> None -> Re.alt l s k2 <> None.
Proof.
  induction l as [|a l IH]; simpl; [congruence|].
  apply orelse_weaken; [|exact IH].
  destruct (Re.strip_prefix a s); [apply Hk | congruence].
Qed.
End Weaken.

(** A match of a longer pattern begins with a match of its first part. *)
Lemma match_atoms_prefix {A} p q :
  forall s starts caps (k : string -> list string -> option A),
    Re.match_atoms (p ++ q) s starts caps k <> None ->
    Re.match_atoms p s starts caps (fun _ c => Some c) <> None.
Proof.
  induction p as [|a p IH]; intros s starts caps k; [simpl; congruence|].
  destruct a; cbn [app Re.match_atoms].
  - destruct (Re.strip_prefix s0 s); [apply IH | congruence].
  - apply alt_weaken. intros s1. apply IH.
  - destruct s as [|b s1]; [congruence|]. destruct (c b); [apply IH | congruence].
  - apply star_weaken. intros s1. apply IH.
  - apply plus_weaken. intros s1. apply IH.
  - apply lazy_star_weaken. intros s1. apply IH.
  - apply lazy_plus_weaken. intros s1. apply IH.
  - apply IH.
  - destruct starts; [congruence | apply IH].
  - destruct (nth_error caps n); [|congruence].
    destruct (Re.strip_prefix s0 s); [apply IH | congruence].
Qed.

(** X2. Every URL the playlist extractor accepts also matches the pattern
    of the single-video extractor, and [VLiveIE.suitable] turns it down:
    no URL is taken by both. *)
Theorem playlist_urls_are_not_video_urls u :
  InfoExtractor.suitable VLivePlaylistIE._VALID_URL u = true ->
  InfoExtractor.suitable VLiveIE._VALID_URL u = true
  /\ VLiveIE_suitable u = false.
Proof.
  intros H. split; [|unfold VLiveIE_suitable; rewrite H; reflexivity].
  unfold InfoExtractor.suitable, Re.match_ in *.
  change VLivePlaylistIE._VALID_URL
    with (VLiveIE._VALID_URL
            ++ [Re.Lit "/playlist/"; Re.GOpen; Re.Plus Re.digit; Re.GClose]) in H.
  pose proof (match_atoms_prefix VLiveIE._VALID_URL
                [Re.Lit "/playlist/"; Re.GOpen; Re.Plus Re.digit; Re.GClose]
                u [] [] (fun _ caps => Some caps)) as Hp.
  destruct (Re.match_atoms (VLiveIE._VALID_URL ++ _) u [] [] _); [|discriminate].
  destruct (Re.match_atoms VLiveIE._VALID_URL u [] [] _); [reflexivity|].
  exfalso. apply Hp; [discriminate | reflexivity].
Qed.

Lemma playlist_urls_are_not_video_urls_witness :
  InfoExtractor.suitable VLiveIE._VALID_URL
    "http://www.vlive.tv/video/22867/playlist/22912" = true
  /\ VLiveIE_suitable "http://www.vlive.tv/video/22867/playlist/22912" = false.
Proof.
  apply (playlist_urls_are_not_video_urls
           "http://www.vlive.tv/video/22867/playlist/22912").
  reflexivity.
Defined.

Lemma playlist_url_shape u caps :
  Re.match_ VLivePlaylistIE._VALID_URL u = Some caps ->
  exists scheme host video_id playlist_id rest,
    caps = [video_id; playlist_id]
    /\ In scheme ["https"; "http"] /\ In host ["www."; "m."; ""]
    /\ video_id <> "" /\ all_chars Re.digit video_id = true
    /\ playlist_id <> "" /\ all_chars Re.digit playlist_id = true
    /\ u = scheme ^^ "://" ^^ host ^^ "vlive.tv/video/" ^^ video_id
           ^^ "/playlist/" ^^ playlist_id ^^ rest.
Proof.
  intros H. destruct (match_sound _ _ _ H) as (s' & Hr).
  cbn [re_run VLivePlaylistIE._VALID_URL vlive_host app] in Hr.
  destruct Hr as (scheme & s1 & Hscheme & -> & s2 & -> & host & s3 & Hhost & ->
                  & s4 & -> & s5 & -> & d1 & r1 & -> & Hne1 & Hd1
                  & top & st & Htop & s6 & -> & d2 & r2 & -> & Hne2 & Hd2
                  & top2 & st2 & Htop2 & -> & ->).
  injection Htop as <- <-. injection Htop2 as <- <-.
  rewrite !consumed_append. exists scheme, host, d1, d2, r2.
  repeat split; auto.
Qed.

(** X3. With [noplaylist] set the playlist extractor makes no request.
    Any URL it accepts is a vlive.tv address [.../video/V/playlist/P...]
    with [V] and [P] runs of digits, the two groups of the match; it
    prints one message and returns the anchor video: the [url_result] of
    [http://www.vlive.tv/video/V] with id [V], the first run of digits of
    that URL and no other. *)
Theorem noplaylist_makes_no_request env u h :
  InfoExtractor.suitable VLivePlaylistIE._VALID_URL u = true ->
  truthy (noplaylist env) = true ->
  exists scheme host video_id playlist_id rest,
    u = scheme ^^ "://" ^^ host ^^ "vlive.tv/video/" ^^ video_id
        ^^ "/playlist/" ^^ playlist_id ^^ rest
    /\ In scheme ["https"; "http"] /\ In host ["www."; "m."; ""]
    /\ video_id <> "" /\ all_chars Re.digit video_id = true
    /\ playlist_id <> "" /\ all_chars Re.digit playlist_id = true
    /\ Re.match_ VLivePlaylistIE._VALID_URL u = Some [video_id; playlist_id]
    /\ VLivePlaylistIE._real_extract env u h
       = (Ok (UrlResult ("http://www.vlive.tv/video/" ^^ video_id) VLiveIE.ie_key
                        (JStr video_id)),
          [Screen ("Downloading just video " ^^ video_id
                   ^^ " because of --no-playlist")]).
Proof.
  unfold InfoExtractor.suitable. intros Hs Hno.
  destruct (Re.match_ VLivePlaylistIE._VALID_URL u) as [caps|] eqn:Hm;
    [|discriminate].
  destruct (playlist_url_shape _ _ Hm)
    as (scheme & host & vid & pid & rest & -> & Hsc & Hh & Hne & Hd & Hne2 & Hd2
        & Hu).
  exists scheme, host, vid, pid, rest.
  split; [exact Hu|]. split; [exact Hsc|]. split; [exact Hh|].
  split; [exact Hne|]. split; [exact Hd|]. split; [exact Hne2|].
  split; [exact Hd2|]. split; [reflexivity|].
  unfold VLivePlaylistIE._real_extract. rewrite Hm, Hno.
  unfold VLivePlaylistIE._build_video_result, InfoExtractor.to_screen.
  rewrite bind_emit. reflexivity.
Qed.

Lemma noplaylist_makes_no_request_witness :
  VLivePlaylistIE._real_extract
    (Mock.env [] [] [] (JNull, JNull) (JBool true))
    "http://www.vlive.tv/video/22867/playlist/22912" []
  = (Ok (UrlResult "http://www.vlive.tv/video/22867" VLiveIE.ie_key
                   (JStr "22867")),
     [Screen "Downloading just video 22867 because of --no-playlist"]).
Proof.
  destruct (noplaylist_makes_no_request
              (Mock.env [] [] [] (JNull, JNull) (JBool true))
              "http://www.vlive.tv/video/22867/playlist/22912" []
              eq_refl eq_refl)
    as (scheme & host & video_id & playlist_id & rest & _ & _ & _ & _ & _ & _ & _
        & Hm & Hrun).
  vm_compute in Hm. injection Hm as <- <-. exact Hrun.
Defined.

Lemma append_assoc a b c : (a ^^ b) ^^ c = a ^^ b ^^ c.
Proof. induction a; simpl; congruence. Qed.

Lemma playlist_seqs_shape webpage caps :
  Re.search VLivePlaylistIE.PLAYLIST_SEQS_RE webpage = Some caps ->
  exists inner,
    caps = ["[" ^^ inner ^^ "]"] /\ inner <> ""
    /\ all_chars (Re.none_of ["]"%char]) inner = true.
Proof.
  intros H. destruct (search_sound _ _ _ H) as (sk & s0 & -> & Hm).
  destruct (match_sound _ _ _ Hm) as (s' & Hr).
  cbn [re_run VLivePlaylistIE.PLAYLIST_SEQS_RE] in Hr.
  destruct Hr as (s1 & -> & sp1 & s2 & -> & _ & s3 & -> & sp2 & s4 & -> & _
                  & s5 & -> & inner & s6 & -> & Hne & Hall & s7 & ->
                  & top & st & Htop & -> & ->).
  injection Htop as <- <-. exists inner. split; [|auto].
  cbn [app]. f_equal.
  transitivity (Re.consumed (("[" ^^ inner ^^ "]") ^^ s7) s7);
    [|apply consumed_append].
  f_equal. cbn [String.append]. f_equal. symmetry. apply append_assoc.
Qed.

Lemma playlist_title_shape webpage caps :
  Re.search VLivePlaylistIE.PLAYLIST_TITLE_RE webpage = Some caps ->
  exists t, caps = [t] /\ t <> "".
Proof.
  intros H. destruct (search_sound _ _ _ H) as (sk & s0 & -> & Hm).
  destruct (match_sound _ _ _ Hm) as (s' & Hr).
  cbn [re_run VLivePlaylistIE.PLAYLIST_TITLE_RE] in Hr.
  destruct Hr as (s1 & -> & p1 & s2 & -> & _ & _ & s3 & -> & q & s4 & -> & _
                  & p2 & s5 & -> & _ & s6 & -> & p3 & s7 & -> & _ & s8 & ->
                  & p4 & s9 & -> & _ & s10 & -> & p5 & s11 & -> & _ & _
                  & s12 & -> & t & s13 & -> & Hne & _
                  & top & st & Htop & -> & ->).
  injection Htop as <- <-. rewrite consumed_append. exists t. auto.
Qed.

(** X4. When the playlist page carries an id list, the extractor makes its
    one request and unwraps it: if the list parses, the result is a playlist
    under the playlist id of the URL with one entry per id, in the order of
    the list, and its title is the cleaned title of the page, or [None]
    with a warning when the page shows none; if the list does not parse,
    the extraction fails, with no fall back to the anchor video. *)
Theorem playlist_unwrapped env u video_id playlist_id webpage raw h :
  Re.match_ VLivePlaylistIE._VALID_URL u = Some [video_id; playlist_id] ->
  truthy (noplaylist env) = false ->
  http env (h ++ [playlist_screen playlist_id])
       (playlist_request video_id playlist_id) = Some webpage ->
  Re.search VLivePlaylistIE.PLAYLIST_SEQS_RE webpage = Some [raw] ->
  (forall items,
      json_loads env raw = Some (JArr items) ->
      exists title evs,
        VLivePlaylistIE._real_extract env u h
        = (Ok (PlaylistResult (map (playlist_entry env) items) playlist_id title),
           playlist_screen playlist_id
           :: Fetch (playlist_request video_id playlist_id) :: evs)
        /\ ((Re.search VLivePlaylistIE.PLAYLIST_TITLE_RE webpage = None
             /\ title = JNull
             /\ evs = [Warning "unable to extract playlist title"])
            \/ (exists t,
                   Re.search VLivePlaylistIE.PLAYLIST_TITLE_RE webpage = Some [t]
                   /\ title = JStr (clean_html env t) /\ evs = [])))
  /\ (json_loads env raw = None ->
      VLivePlaylistIE._real_extract env u h
      = (Raise (ExtractorError (playlist_id ^^ ": Failed to parse JSON ") false),
         [playlist_screen playlist_id;
          Fetch (playlist_request video_id playlist_id)])).
Proof.
  intros Hu Hno Hpage Hre.
  destruct (playlist_seqs_shape _ _ Hre) as (inner & Hraw & _).
  injection Hraw as ->.
  unfold VLivePlaylistIE._real_extract. rewrite Hu, Hno.
  unfold InfoExtractor.to_screen. rewrite bind_emit.
  fold (playlist_request video_id playlist_id). fold (playlist_screen playlist_id).
  rewrite (bind_ok _ _ _ _ _ (download_webpage_ok _ _ _ _ Hpage)).
  unfold InfoExtractor._search_regex. rewrite Hre. cbn [nth_error].
  rewrite !bind_ret. cbn [truthy negb String.eqb String.append Ascii.eqb].
  rewrite <- app_assoc. cbn [app fst snd].
  split.
  - intros items Hj.
    rewrite (bind_ok _ _ _ _ _ (parse_json_ok _ _ _ _ _ Hj)).
    cbn [py_iter]. rewrite bind_lift_ok, app_nil_r.
    unfold InfoExtractor._html_search_regex, InfoExtractor._search_regex.
    destruct (Re.search VLivePlaylistIE.PLAYLIST_TITLE_RE webpage) as [caps|] eqn:Ht.
    + destruct (playlist_title_shape _ _ Ht) as (t & -> & _).
      cbn [nth_error]. exists (JStr (clean_html env t)), [].
      split; [reflexivity|]. right. exists t. auto.
    + exists JNull, [Warning "unable to extract playlist title"].
      split; [reflexivity|]. left. auto.
  - intros Hj. rewrite (bind_raise _ _ _ _ _ (parse_json_fail _ _ _ _ Hj)).
    reflexivity.
Qed.

Lemma playlist_unwrapped_witness :
  exists title evs,
    VLivePlaylistIE._real_extract listed_env
      "https://www.vlive.tv/video/117956/playlist/117963" []
    = (Ok (PlaylistResult
             (map (playlist_entry listed_env) [JNum 117956; JNum 117957])
             "117963" title),
       playlist_screen "117963"
       :: Fetch (playlist_request "117956" "117963") :: evs)
    /\ ((Re.search VLivePlaylistIE.PLAYLIST_TITLE_RE
                   "var playlistVideoSeqs = [117956,117957];" = None
         /\ title = JNull
         /\ evs = [Warning "unable to extract playlist title"])
        \/ (exists t,
               Re.search VLivePlaylistIE.PLAYLIST_TITLE_RE
                         "var playlistVideoSeqs = [117956,117957];" = Some [t]
               /\ title = JStr (clean_html listed_env t) /\ evs = [])).
Proof.
  apply (proj1 (playlist_unwrapped listed_env
                  "https://www.vlive.tv/video/117956/playlist/117963"
                  "117956" "117963" "var playlistVideoSeqs = [117956,117957];"
                  "[117956,117957]" [] eq_refl eq_refl eq_refl eq_refl)).
  reflexivity.
Defined.

(* ===================================================================== *)
(** ** More on the single video *)
(* ===================================================================== *)

Section RaisesOnly.
Variable P : exn -> Prop.

Lemma raises_ret {A} (a : A) : raises_only P (ret a).
Proof. intros h e H. discriminate. Qed.

Lemma raises_raise {A} e : P e -> raises_only P (@raise A e).
Proof. intros He h e' H. injection H as <-. exact He. Qed.

Lemma raises_lift {A} (r : result A) :
  (forall e, r = Raise e -> P e) -> raises_only P (lift r).
Proof. intros Hr h e H. apply Hr. exact H. Qed.

Lemma raises_bind {A B} (m : M A) (f : A -> M B) :
  raises_only P m -> (forall a, raises_only P (f a)) -> raises_only P (bind m f).
Proof.
  intros Hm Hf h e. rewrite bind_fst.
  destruct (fst (m h)) as [a|e'] eqn:E.
  - apply Hf.
  - intros H. injection H as <-. apply (Hm h). exact E.
Qed.

Lemma raises_emit ev : raises_only P (emit ev).
Proof. intros h e H. discriminate. Qed.

Lemma raises_download env r :
  P (ExtractorError "Unable to download webpage" false) ->
  raises_only P (InfoExtractor._download_webpage env r).
Proof.
  intros H h e. unfold InfoExtractor._download_webpage.
  destruct (http env h r); [discriminate|]. intros E. injection E as <-. exact H.
Qed.

Lemma raises_parse_json env j video_id :
  P TypeError -> P (ExtractorError (video_id ^^ ": Failed to parse JSON ") false) ->
  raises_only P (InfoExtractor._parse_json env j video_id).
Proof.
  intros H1 H2. unfold InfoExtractor._parse_json.
  destruct j; try (apply raises_raise; exact H1).
  destruct (json_loads env s); [apply raises_ret | apply raises_raise; exact H2].
Qed.

Lemma raises_getitem j k :
  P (KeyError k) -> P TypeError -> forall e, py_getitem j k = Raise e -> P e.
Proof.
  intros H1 H2 e H. destruct (getitem_raise _ _ _ H) as [-> | ->]; assumption.
Qed.

Lemma raises_get j k d :
  P AttributeError -> forall e, py_get j k d = Raise e -> P e.
Proof.
  intros H e. destruct j; simpl; try (intros E; injection E as <-; exact H).
  destruct (lookup k l); discriminate.
Qed.

Lemma raises_path j ks :
  (forall k, P (KeyError k)) -> P TypeError ->
  forall e, py_path j ks = Raise e -> P e.
Proof.
  intros H1 H2. revert j. induction ks as [|k ks IH]; intros j e; simpl.
  - discriminate.
  - destruct (py_getitem j k) as [v|e'] eqn:E; simpl.
    + apply IH.
    + intros H. injection H as <-. exact (raises_getitem _ _ (H1 k) H2 _ E).
Qed.

Lemma raises_iter j : P TypeError -> forall e, py_iter j = Raise e -> P e.
Proof.
  intros H e. destruct j; simpl; try discriminate; intros E; injection E as <-;
    exact H.
Qed.

Lemma raises_common_fields preload_state :
  (forall k, P (KeyError k)) -> P TypeError ->
  raises_only P (VLiveIE._get_common_fields preload_state).
Proof.
  intros H1 H2. unfold VLiveIE._get_common_fields.
  apply raises_bind; [apply raises_lift, raises_path; assumption|]. intros t.
  apply raises_bind;
    [destruct t; (apply raises_ret || apply raises_raise; exact H2)|].
  intros t'. apply raises_bind; [apply raises_lift, raises_path; assumption|].
  intros c. apply raises_bind; [apply raises_lift, raises_path; assumption|].
  intros th. apply raises_ret.
Qed.
End RaisesOnly.

Lemma raises_m3u8_soft P env u video_id name :
  raises_only P (InfoExtractor._extract_m3u8_formats env u video_id name false).
Proof.
  intros h e. unfold InfoExtractor._extract_m3u8_formats.
  destruct (m3u8 env h u name); discriminate.
Qed.

Lemma raises_live_formats P env video_id vids :
  P (KeyError "serviceUrl") -> P TypeError -> P AttributeError ->
  forall formats, raises_only P (VLiveIE.live_formats env video_id vids formats).
Proof.
  intros H1 H2 H3. induction vids as [|vid rest IH]; intros formats; simpl.
  - apply raises_ret.
  - apply raises_bind; [apply raises_lift, raises_getitem; assumption|]. intros u.
    apply raises_bind; [apply raises_lift, raises_get; assumption|]. intros n.
    apply raises_bind; [apply raises_m3u8_soft|]. intros fs. apply IH.
Qed.

Lemma raises_live env video_id preload_state :
  (forall l e, sort_formats env l = Raise e -> own_exception e) ->
  raises_only own_exception (VLiveIE._live env video_id preload_state).
Proof.
  intros Hsort. unfold VLiveIE._live.
  apply raises_bind; [apply raises_download; exact I|]. intros w.
  apply raises_bind; [apply raises_parse_json; exact I|]. intros lj.
  apply raises_bind; [apply raises_lift, raises_getitem; exact I|]. intros res.
  apply raises_bind; [apply raises_lift, raises_get; exact I|]. intros sl.
  apply raises_bind; [apply raises_lift, raises_iter; exact I|]. intros vids.
  apply raises_bind; [apply raises_live_formats; exact I|]. intros fs.
  apply raises_bind; [apply raises_lift, Hsort|]. intros sorted.
  apply raises_bind; [apply raises_common_fields; intros; exact I|].
  intros info. apply raises_ret.
Qed.

Lemma raises_replay env video_id preload_state key :
  (forall h' vid lv k e,
      naver_video_info env h' vid lv k = Raise e -> own_exception e) ->
  raises_only own_exception (VLiveIE._replay env video_id preload_state key).
Proof.
  intros Hinfo. unfold VLiveIE._replay.
  apply raises_bind; [apply raises_lift, raises_path; intros; exact I|].
  intros lv. apply raises_bind; [apply raises_common_fields; intros; exact I|].
  intros c. apply raises_bind; [|intros vi; apply raises_ret].
  intros h e. apply Hinfo.
Qed.

Lemma dispatch_bound env video_id preload_state status key :
  (forall l e, sort_formats env l = Raise e -> own_exception e) ->
  (forall h' vid lv k e,
      naver_video_info env h' vid lv k = Raise e -> own_exception e) ->
  (key = None -> py_in status ["VOD_ON_AIR"; "BIG_EVENT_INTRO"; "VOD"] = false) ->
  raises_only own_exception
              (VLiveIE.dispatch env video_id preload_state status key).
Proof.
  intros Hsort Hinfo Hkey. unfold VLiveIE.dispatch.
  destruct (py_in status ["LIVE_ON_AIR"; "BIG_EVENT_ON_AIR"; "LIVE"]);
    [apply raises_live, Hsort|].
  destruct (py_in status ["VOD_ON_AIR"; "BIG_EVENT_INTRO"; "VOD"]).
  { destruct key as [k|]; [apply raises_replay, Hinfo|].
    specialize (Hkey eq_refl). discriminate. }
  repeat (match goal with |- context [if ?b then _ else _] => destruct b end;
          [apply raises_raise; exact I|]).
  apply raises_raise. exact I.
Qed.

(** X5. The key is bound whenever the Replay strategy is reached: unless a
    collaborator raises it, no extraction of a single video ends in an
    [UnboundLocalError], whatever the page state and the answers are. *)
Theorem key_is_bound_for_replay env u h :
  (forall l e, sort_formats env l = Raise e -> e <> UnboundLocalError) ->
  (forall h' vid lv k e,
      naver_video_info env h' vid lv k = Raise e -> e <> UnboundLocalError) ->
  fst (VLiveIE._real_extract env u h) <> Raise UnboundLocalError.
Proof.
  intros Hsort Hinfo Hrun.
  assert (Hs : forall l e, sort_formats env l = Raise e -> own_exception e).
  { intros l e He. specialize (Hsort l e He). destruct e; simpl; auto. }
  assert (Hi : forall h' vid lv k e,
             naver_video_info env h' vid lv k = Raise e -> own_exception e).
  { intros h' vid lv k e He. specialize (Hinfo h' vid lv k e He).
    destruct e; simpl; auto. }
  assert (Hall : raises_only own_exception (VLiveIE._real_extract env u)).
  { unfold VLiveIE._real_extract.
    apply raises_bind.
    { unfold InfoExtractor._match_id.
      destruct (Re.match_ VLiveIE._VALID_URL u) as [caps|];
        [|apply raises_raise; exact I].
      destruct (nth_error caps 0); [apply raises_ret | apply raises_raise; exact I]. }
    intros video_id. apply raises_bind; [apply raises_download; exact I|].
    intros webpage. apply raises_bind.
    { unfold VLiveIE.parse_preload_state, InfoExtractor._search_regex.
      apply raises_bind; [|intros raw; apply raises_parse_json; exact I].
      destruct (Re.search PRELOAD_STATE_RE webpage) as [caps|];
        [|apply raises_raise; exact I].
      destruct (nth_error caps 0); [apply raises_ret | apply raises_raise; exact I]. }
    intros ps. intros h0 e0. rewrite bind_fst, resolve_status_cases.
    destruct (py_path ps (officialVideo ++ ["upcomingYn"])) as [up|e1] eqn:Hup.
    2:{ cbn [fst]. intros E. injection E as <-.
        exact (raises_path own_exception _ _ (fun _ => I) I _ Hup). }
    destruct (py_path ps (officialVideo ++ ["type"])) as [ty|e1] eqn:Hty.
    2:{ cbn [fst]. intros E. injection E as <-.
        exact (raises_path own_exception _ _ (fun _ => I) I _ Hty). }
    destruct (py_eq_str ty "LIVE") eqn:Hlive.
    - apply py_eq_str_true in Hlive. subst ty. rewrite status_and_key_live.
      cbn [fst snd]. apply dispatch_bound; auto.
      intros _. destruct (truthy up); reflexivity.
    - apply py_eq_str_false in Hlive.
      rewrite (status_and_key_other _ _ _ _ _ Hlive). cbn [fst snd].
      destruct (http env h0 (key_request video_id)) as [body|];
        [|intros E; injection E as <-; exact I].
      destruct (json_loads env body) as [kj|];
        [|intros E; injection E as <-; exact I].
      destruct (py_getitem kj "inkey") as [k|e1] eqn:Hk.
      + cbn [fst snd]. apply dispatch_bound; auto. discriminate.
      + intros E. injection E as <-.
        exact (raises_getitem own_exception _ _ I I _ Hk). }
  exact (Hall h _ Hrun).
Qed.

Lemma key_is_bound_for_replay_witness :
  fst (VLiveIE._real_extract (Mock.video_env "VOD" false (JObj [("inkey", JStr "k")]))
                             "https://www.vlive.tv/video/1326" [])
  <> Raise UnboundLocalError.
Proof.
  apply (key_is_bound_for_replay
           (Mock.video_env "VOD" false (JObj [("inkey", JStr "k")]))
           "https://www.vlive.tv/video/1326" []); discriminate.
Defined.

(** X6. A video that is on air ([LIVE_ON_AIR], [BIG_EVENT_ON_AIR]) has its
    key fetched although the Live strategy takes no key: when the key
    endpoint fails the extraction fails without asking for the play info,
    and when the key step goes through the Live strategy runs after it. *)
Theorem on_air_depends_on_the_key env u video_id webpage preload_state
        upcoming vid_type h :
  InfoExtractor._match_id VLiveIE._VALID_URL 0 u h = (Ok video_id, []) ->
  http env h (page_request video_id) = Some webpage ->
  fst (VLiveIE.parse_preload_state env webpage video_id
         (h ++ [Fetch (page_request video_id)])) = Ok preload_state ->
  py_path preload_state (officialVideo ++ ["upcomingYn"]) = Ok upcoming ->
  py_path preload_state (officialVideo ++ ["type"]) = Ok vid_type ->
  py_in vid_type ["LIVE_ON_AIR"; "BIG_EVENT_ON_AIR"] = true ->
  (http env (h ++ [Fetch (page_request video_id)]) (key_request video_id) = None ->
   VLiveIE._real_extract env u h
   = (Raise (ExtractorError "Unable to download webpage" false),
      [Fetch (page_request video_id); Fetch (key_request video_id)]))
  /\ (forall body key_json key,
         http env (h ++ [Fetch (page_request video_id)]) (key_request video_id)
         = Some body ->
         json_loads env body = Some key_json ->
         py_getitem key_json "inkey" = Ok key ->
         VLiveIE._real_extract env u h
         = (fst (VLiveIE._live env video_id preload_state
                   (h ++ [Fetch (page_request video_id);
                          Fetch (key_request video_id)])),
            Fetch (page_request video_id) :: Fetch (key_request video_id)
            :: snd (VLiveIE._live env video_id preload_state
                      (h ++ [Fetch (page_request video_id);
                             Fetch (key_request video_id)])))).
Proof.
  intros Hm Hpage Hparse Hup Hty Hair.
  assert (Hne : vid_type <> JStr "LIVE").
  { intros ->. discriminate. }
  rewrite (real_extract_cases _ _ _ _ Hm), Hpage. cbv zeta.
  rewrite Hparse, Hup, Hty, (status_and_key_other _ _ _ _ _ Hne).
  cbn [fst snd]. split.
  - intros ->. reflexivity.
  - intros body key_json key -> -> ->. cbn [fst snd app].
    rewrite <- app_assoc. cbn [app]. unfold VLiveIE.dispatch.
    replace (py_in vid_type ["LIVE_ON_AIR"; "BIG_EVENT_ON_AIR"; "LIVE"]) with true;
      [reflexivity|].
    symmetry. rewrite !py_in_cons in *.
    destruct (py_eq_str vid_type "LIVE_ON_AIR"); [reflexivity|].
    destruct (py_eq_str vid_type "BIG_EVENT_ON_AIR"); [reflexivity|discriminate].
Qed.

Lemma on_air_depends_on_the_key_witness :
  VLiveIE._real_extract
    (Mock.env [("https://www.vlive.tv/video/1326", Mock.page)]
              [("{STATE}", Mock.state "LIVE_ON_AIR" false)]
              [] (JNull, JNull) JNull)
    "https://www.vlive.tv/video/1326" []
  = (Raise (ExtractorError "Unable to download webpage" false),
     [Fetch (page_request "1326"); Fetch (key_request "1326")]).
Proof.
  apply (on_air_depends_on_the_key
           (Mock.env [("https://www.vlive.tv/video/1326", Mock.page)]
                     [("{STATE}", Mock.state "LIVE_ON_AIR" false)]
                     [] (JNull, JNull) JNull)
           "https://www.vlive.tv/video/1326" "1326" Mock.page
           (Mock.state "LIVE_ON_AIR" false) (JBool false) (JStr "LIVE_ON_AIR") []);
    reflexivity.
Defined.

(** X7. The flag is read before the type: a page state whose
    [officialVideo] has no [upcomingYn] fails with that [KeyError] right
    after the page fetch, whatever its type, also for the types that never
    look at the flag. *)
Theorem flag_is_read_first env u video_id webpage preload_state fields h :
  InfoExtractor._match_id VLiveIE._VALID_URL 0 u h = (Ok video_id, []) ->
  http env h (page_request video_id) = Some webpage ->
  fst (VLiveIE.parse_preload_state env webpage video_id
         (h ++ [Fetch (page_request video_id)])) = Ok preload_state ->
  py_path preload_state officialVideo = Ok (JObj fields) ->
  lookup "upcomingYn" fields = None ->
  VLiveIE._real_extract env u h
  = (Raise (KeyError "upcomingYn"), [Fetch (page_request video_id)]).
Proof.
  intros Hm Hpage Hparse Hov Hno.
  rewrite (real_extract_cases _ _ _ _ Hm), Hpage. cbv zeta. rewrite Hparse.
  assert (Hup : py_path preload_state (officialVideo ++ ["upcomingYn"])
                = Raise (KeyError "upcomingYn")).
  { unfold officialVideo in *. cbn [app py_path] in *.
    destruct (py_getitem preload_state "postDetail") as [a|]; [|discriminate].
    cbn [rbind] in *.
    destruct (py_getitem a "post") as [b|]; [|discriminate]. cbn [rbind] in *.
    destruct (py_getitem b "officialVideo") as [c|]; [|discriminate].
    cbn [rbind] in *. injection Hov as ->. simpl. rewrite Hno. reflexivity. }
  rewrite Hup. reflexivity.
Qed.

Lemma flag_is_read_first_witness :
  VLiveIE._real_extract
    (Mock.env [("https://www.vlive.tv/video/1326", Mock.page)]
              [("{STATE}", flagless_state "VOD")] [] (JNull, JNull) JNull)
    "https://www.vlive.tv/video/1326" []
  = (Raise (KeyError "upcomingYn"), [Fetch (page_request "1326")]).
Proof.
  apply (flag_is_read_first
           (Mock.env [("https://www.vlive.tv/video/1326", Mock.page)]
                     [("{STATE}", flagless_state "VOD")] [] (JNull, JNull) JNull)
           "https://www.vlive.tv/video/1326" "1326" Mock.page
           (flagless_state "VOD") [("type", JStr "VOD")] []); reflexivity.
Defined.

(** X8. The Replay strategy reads the long-form id and the common fields
    before it calls the format collaborator: when either is missing it
    raises without a call; otherwise it makes exactly one call, with the
    short id, the long-form id of the page state and the key it was given,
    and the collaborator's error, if any, is the error of the strategy. *)
Theorem replay_calls_the_collaborator_once env video_id preload_state key h :
  (forall e,
      py_path preload_state (officialVideo ++ ["vodId"]) = Raise e ->
      VLiveIE._replay env video_id preload_state key h = (Raise e, []))
  /\ (forall long_video_id e,
         py_path preload_state (officialVideo ++ ["vodId"]) = Ok long_video_id ->
         fst (VLiveIE._get_common_fields preload_state []) = Raise e ->
         VLiveIE._replay env video_id preload_state key h = (Raise e, []))
  /\ (forall long_video_id common,
         py_path preload_state (officialVideo ++ ["vodId"]) = Ok long_video_id ->
         fst (VLiveIE._get_common_fields preload_state []) = Ok common ->
         VLiveIE._replay env video_id preload_state key h
         = (match naver_video_info env h video_id long_video_id key with
            | Ok video_info => Ok (Video (merge_dicts common video_info))
            | Raise e => Raise e
            end,
            [VideoInfo video_id long_video_id key])).
Proof.
  unfold VLiveIE._replay. repeat split.
  - intros e ->. reflexivity.
  - intros lv e -> Hc. rewrite bind_lift_ok.
    rewrite (pair_eta (bind _ _ h)), bind_fst, bind_snd, common_fields_pure, Hc.
    reflexivity.
  - intros lv common -> Hc. rewrite bind_lift_ok.
    rewrite (pair_eta (bind _ _ h)), bind_fst, bind_snd, common_fields_pure, Hc.
    cbn [fst snd app]. rewrite app_nil_r.
    unfold NaverBaseIE._extract_video_info, bind, ret.
    destruct (naver_video_info env h video_id lv key); reflexivity.
Qed.

Lemma replay_calls_the_collaborator_once_witness :
  VLiveIE._replay (Mock.video_env "VOD" false JNull) "1326"
                  (flagless_state "VOD") (JStr "k") []
  = (Raise (KeyError "vodId"), []).
Proof.
  apply (replay_calls_the_collaborator_once (Mock.video_env "VOD" false JNull)
           "1326" (flagless_state "VOD") (JStr "k") []).
  reflexivity.
Defined.

(* ===================================================================== *)
(** ** More on live streams *)
(* ===================================================================== *)

Lemma bind_ok_inv {A B} (m : M A) (f : A -> M B) h b :
  fst (bind m f h) = Ok b ->
  exists a, fst (m h) = Ok a /\ fst (f a (h ++ snd (m h))) = Ok b.
Proof.
  rewrite bind_fst. destruct (fst (m h)) as [a|e]; [|discriminate].
  intros H. exists a. auto.
Qed.

Lemma common_fields_inv preload_state h common :
  fst (VLiveIE._get_common_fields preload_state h) = Ok common ->
  exists t creator thumb,
    py_path preload_state ["postDetail"; "post"; "title"] = Ok (JStr t)
    /\ py_path preload_state ["channel"; "channel"; "channelName"] = Ok creator
    /\ py_path preload_state (officialVideo ++ ["thumb"]) = Ok thumb
    /\ common = [("title", PJ (JStr ("[V LIVE] " ^^ t)));
                 ("creator", PJ creator); ("thumbnail", PJ thumb)].
Proof.
  unfold VLiveIE._get_common_fields.
  destruct (py_path preload_state ["postDetail"; "post"; "title"]) as [t|];
    [|discriminate].
  rewrite bind_lift_ok. destruct t; try discriminate. rewrite bind_ret.
  destruct (py_path preload_state ["channel"; "channel"; "channelName"])
    as [c|]; [|discriminate].
  rewrite bind_lift_ok.
  destruct (py_path preload_state (officialVideo ++ ["thumb"])) as [th|];
    [|discriminate].
  rewrite bind_lift_ok. intros H. injection H as <-. eauto 8.
Qed.

(** X9. Whenever the Live strategy returns, its descriptor has exactly six
    fields, in this order: the title of the post behind the fixed tag, the
    channel name, the thumbnail, the id it was called with, the formats,
    and [is_live] set. *)
Theorem live_descriptor_fields env video_id preload_state h info :
  fst (VLiveIE._live env video_id preload_state h) = Ok (Video info) ->
  exists t creator thumb formats,
    py_path preload_state ["postDetail"; "post"; "title"] = Ok (JStr t)
    /\ py_path preload_state ["channel"; "channel"; "channelName"] = Ok creator
    /\ py_path preload_state (officialVideo ++ ["thumb"]) = Ok thumb
    /\ info = [("title", PJ (JStr ("[V LIVE] " ^^ t)));
               ("creator", PJ creator); ("thumbnail", PJ thumb);
               ("id", PJ (JStr video_id)); ("formats", PFormats formats);
               ("is_live", PJ (JBool true))].
Proof.
  unfold VLiveIE._live. intros H.
  apply bind_ok_inv in H as (w & _ & H).
  apply bind_ok_inv in H as (lj & _ & H).
  apply bind_ok_inv in H as (res & _ & H).
  apply bind_ok_inv in H as (sl & _ & H).
  apply bind_ok_inv in H as (vids & _ & H).
  apply bind_ok_inv in H as (fs & _ & H).
  apply bind_ok_inv in H as (sorted & _ & H).
  apply bind_ok_inv in H as (common & Hc & H).
  apply common_fields_inv in Hc as (t & c & th & Ht & Hcr & Hth & ->).
  injection H as <-. exists t, c, th, sorted. auto.
Qed.

Lemma live_descriptor_fields_witness :
  exists t creator thumb formats,
    py_path (Mock.state "LIVE" false) ["postDetail"; "post"; "title"] = Ok (JStr t)
    /\ py_path (Mock.state "LIVE" false) ["channel"; "channel"; "channelName"]
       = Ok creator
    /\ py_path (Mock.state "LIVE" false) (officialVideo ++ ["thumb"]) = Ok thumb
    /\ [("title", PJ (JStr "[V LIVE] Broadcast")); ("creator", PJ (JStr "Girls"));
        ("thumbnail", PJ (JStr "http://thumb")); ("id", PJ (JStr "1326"));
        ("formats", PFormats [mkFormat "a-360" "http://cdn/a/360" 800;
                              mkFormat "c-480" "http://cdn/c/480" 1200;
                              mkFormat "a-720" "http://cdn/a/720" 2000]);
        ("is_live", PJ (JBool true))]
       = [("title", PJ (JStr ("[V LIVE] " ^^ t)));
          ("creator", PJ creator); ("thumbnail", PJ thumb);
          ("id", PJ (JStr "1326")); ("formats", PFormats formats);
          ("is_live", PJ (JBool true))].
Proof.
  apply (live_descriptor_fields live_env "1326" (Mock.state "LIVE" false) []).
  reflexivity.
Defined.

Lemma m3u8_soft_events env u video_id name h :
  filter is_manifest_call
         (snd (InfoExtractor._extract_m3u8_formats env u video_id name false h))
  = [M3u8Formats u video_id name].
Proof.
  unfold InfoExtractor._extract_m3u8_formats.
  destruct (m3u8 env h u name); reflexivity.
Qed.

(** The loop over the stream entries asks for the manifests of the entries
    up to the first one that is not a stream entry, and stops there. *)
Lemma live_formats_calls env video_id good :
  forallb stream_entry good = true ->
  forall rest formats h,
    match rest with
    | [] => True
    | bad :: _ => stream_entry bad = false
    end ->
    filter is_manifest_call
           (snd (VLiveIE.live_formats env video_id (good ++ rest) formats h))
    = map (manifest_call video_id) good
    /\ match rest with
       | [] => exists fs,
           fst (VLiveIE.live_formats env video_id (good ++ rest) formats h) = Ok fs
       | bad :: _ =>
           exists e,
             py_getitem bad "serviceUrl" = Raise e
             /\ fst (VLiveIE.live_formats env video_id (good ++ rest) formats h)
                = Raise e
       end.
Proof.
  induction good as [|vid good IH]; intros Hgood rest formats h Hrest.
  - cbn [app map]. destruct rest as [|bad rest].
    + simpl. eauto.
    + cbn [VLiveIE.live_formats]. unfold stream_entry in Hrest.
      destruct (py_getitem bad "serviceUrl") as [v|e]; [discriminate|].
      split; [reflexivity|]. exists e. auto.
  - simpl in Hgood. apply andb_true_iff in Hgood as [Hv Hgood].
    destruct (stream_entry_fields _ Hv) as [Hu Hn].
    cbn [app VLiveIE.live_formats map]. rewrite Hu, bind_lift_ok, Hn, bind_lift_ok.
    rewrite bind_fst, bind_snd, extract_m3u8_soft, filter_app, m3u8_soft_events.
    destruct (IH Hgood rest
                (formats ++ match m3u8 env h (service_url vid) (stream_name vid) with
                            | Some fs => fs
                            | None => []
                            end)
                (h ++ snd (InfoExtractor._extract_m3u8_formats env (service_url vid)
                             video_id (stream_name vid) false h)) Hrest)
      as [Hcalls Hres].
    rewrite Hcalls. split; [reflexivity | exact Hres].
Qed.

Lemma live_cases env video_id preload_state h live_webpage live_json res vids :
  http env h (playinfo_request video_id) = Some live_webpage ->
  json_loads env live_webpage = Some live_json ->
  py_getitem live_json "result" = Ok res ->
  py_get res "streamList" (JArr []) = Ok (JArr vids) ->
  VLiveIE._live env video_id preload_state h
  = (match fst (VLiveIE.live_formats env video_id vids []
                  (h ++ [Fetch (playinfo_request video_id)])) with
     | Raise e => Raise e
     | Ok formats =>
         match sort_formats env formats with
         | Raise e => Raise e
         | Ok sorted =>
             match fst (VLiveIE._get_common_fields preload_state []) with
             | Raise e => Raise e
             | Ok common => Ok (Video (live_info common video_id sorted))
             end
         end
     end,
     Fetch (playinfo_request video_id)
     :: snd (VLiveIE.live_formats env video_id vids []
               (h ++ [Fetch (playinfo_request video_id)]))).
Proof.
  intros Hw Hj Hres Hlist. unfold VLiveIE._live.
  fold (playinfo_request video_id).
  rewrite (bind_ok _ _ _ _ _ (download_webpage_ok _ _ _ _ Hw)).
  rewrite (bind_ok _ _ _ _ _ (parse_json_ok _ _ _ _ _ Hj)).
  rewrite Hres, bind_lift_ok, Hlist, bind_lift_ok. cbn [py_iter].
  rewrite bind_lift_ok, app_nil_r, bind_fst, bind_snd. cbn [fst snd app].
  destruct (VLiveIE.live_formats env video_id vids [] _) as [[formats|e] evs];
    cbn [fst snd]; [|rewrite app_nil_r; reflexivity].
  unfold InfoExtractor._sort_formats.
  destruct (sort_formats env formats) as [sorted|e];
    [|rewrite app_nil_r; reflexivity].
  rewrite bind_lift_ok, bind_fst, bind_snd, common_fields_pure. cbn [fst snd].
  destruct (fst (VLiveIE._get_common_fields preload_state []));
    unfold ret; cbn [app fst snd]; rewrite ?app_nil_r; reflexivity.
Qed.

(** X10. The Live strategy asks first for the play info and then for one
    manifest per stream entry, in the order of the list, each under the
    entry's [streamName]; whether a manifest fails does not change what is
    asked next. Without a [streamList] no manifest is asked for. *)
Theorem live_asks_each_entry_once env video_id preload_state h live_webpage
        live_json res entries :
  http env h (playinfo_request video_id) = Some live_webpage ->
  json_loads env live_webpage = Some live_json ->
  py_getitem live_json "result" = Ok res ->
  py_get res "streamList" (JArr []) = Ok (JArr entries) ->
  forallb stream_entry entries = true ->
  exists evs,
    snd (VLiveIE._live env video_id preload_state h)
    = Fetch (playinfo_request video_id) :: evs
    /\ filter is_manifest_call evs = map (manifest_call video_id) entries
    /\ Forall (fun ev => is_fetch ev = false) evs
    /\ (entries = [] -> evs = []).
Proof.
  intros Hw Hj Hres Hlist Hentries.
  rewrite (live_cases _ _ _ _ _ _ _ _ Hw Hj Hres Hlist). cbn [snd].
  eexists. split; [reflexivity|]. split; [|split].
  - destruct (live_formats_calls env video_id entries Hentries [] []
                (h ++ [Fetch (playinfo_request video_id)]) I) as [Hc _].
    rewrite app_nil_r in Hc. exact Hc.
  - apply (emits_live_formats (fun ev => is_fetch ev = false)); reflexivity.
  - intros ->. reflexivity.
Qed.

Lemma live_asks_each_entry_once_witness :
  exists evs,
    snd (VLiveIE._live live_env "1326" (Mock.state "LIVE" false) [])
    = Fetch (playinfo_request "1326") :: evs
    /\ filter is_manifest_call evs
       = map (manifest_call "1326")
             [stream "http://cdn/a.m3u8"; stream "http://cdn/b.m3u8";
              stream "http://cdn/c.m3u8"]
    /\ Forall (fun ev => is_fetch ev = false) evs
    /\ ([stream "http://cdn/a.m3u8"; stream "http://cdn/b.m3u8";
         stream "http://cdn/c.m3u8"] = [] -> evs = []).
Proof.
  apply (live_asks_each_entry_once live_env "1326" (Mock.state "LIVE" false) []
           "PLAY"
           (JObj [("result",
                   JObj [("streamList",
                          JArr [stream "http://cdn/a.m3u8";
                                stream "http://cdn/b.m3u8";
                                stream "http://cdn/c.m3u8"])])])
           (JObj [("streamList",
                   JArr [stream "http://cdn/a.m3u8"; stream "http://cdn/b.m3u8";
                         stream "http://cdn/c.m3u8"])]));
    reflexivity.
Defined.

(** X11. Only a failing manifest is passed over. A stream entry without a
    [serviceUrl] is not: the Live strategy raises the [KeyError] of the
    lookup ([TypeError] when the entry is not an object), after the
    manifests of the entries before it, and asks for no manifest after. *)
Theorem live_entry_without_url_is_fatal env video_id preload_state h
        live_webpage live_json res good bad rest :
  http env h (playinfo_request video_id) = Some live_webpage ->
  json_loads env live_webpage = Some live_json ->
  py_getitem live_json "result" = Ok res ->
  py_get res "streamList" (JArr []) = Ok (JArr (good ++ bad :: rest)) ->
  forallb stream_entry good = true ->
  stream_entry bad = false ->
  exists e evs,
    VLiveIE._live env video_id preload_state h
    = (Raise e, Fetch (playinfo_request video_id) :: evs)
    /\ (e = KeyError "serviceUrl" \/ e = TypeError)
    /\ (is_dict bad = true -> e = KeyError "serviceUrl")
    /\ filter is_manifest_call evs = map (manifest_call video_id) good.
Proof.
  intros Hw Hj Hres Hlist Hgood Hbad.
  rewrite (live_cases _ _ _ _ _ _ _ _ Hw Hj Hres Hlist).
  destruct (live_formats_calls env video_id good Hgood (bad :: rest) []
              (h ++ [Fetch (playinfo_request video_id)]) Hbad)
    as [Hc (e & He & Hf)].
  rewrite Hf. exists e. eexists. split; [reflexivity|]. split; [|split].
  - exact (getitem_raise _ _ _ He).
  - destruct bad; try discriminate. intros _. simpl in He.
    destruct (lookup "serviceUrl" l); [discriminate|]. injection He as <-.
    reflexivity.
  - exact Hc.
Qed.

Lemma live_entry_without_url_is_fatal_witness :
  exists e evs,
    VLiveIE._live
      (streams_env [stream "http://cdn/a.m3u8";
                    JObj [("streamName", JStr "HD")];
                    stream "http://cdn/c.m3u8"])
      "1326" (Mock.state "LIVE" false) []
    = (Raise e, Fetch (playinfo_request "1326") :: evs)
    /\ (e = KeyError "serviceUrl" \/ e = TypeError)
    /\ (is_dict (JObj [("streamName", JStr "HD")]) = true
        -> e = KeyError "serviceUrl")
    /\ filter is_manifest_call evs
       = map (manifest_call "1326") [stream "http://cdn/a.m3u8"].
Proof.
  apply (live_entry_without_url_is_fatal
           (streams_env [stream "http://cdn/a.m3u8";
                         JObj [("streamName", JStr "HD")];
                         stream "http://cdn/c.m3u8"])
           "1326" (Mock.state "LIVE" false) [] "PLAY"
           (JObj [("result",
                   JObj [("streamList",
                          JArr [stream "http://cdn/a.m3u8";
                                JObj [("streamName", JStr "HD")];
                                stream "http://cdn/c.m3u8"])])])
           (JObj [("streamList",
                   JArr [stream "http://cdn/a.m3u8";
                         JObj [("streamName", JStr "HD")];
                         stream "http://cdn/c.m3u8"])])
           [stream "http://cdn/a.m3u8"] (JObj [("streamName", JStr "HD")])
           [stream "http://cdn/c.m3u8"]); reflexivity.
Defined.

(* ===================================================================== *)
(** ** Login, channel and post *)
(* ===================================================================== *)

Lemma logged_in_iff r :
  truthy (try_get r is_bool) = true <-> r = Ok (JBool true).
Proof.
  destruct r as [v|e]; simpl; [|split; discriminate].
  destruct v; simpl; try (split; discriminate).
  destruct b; split; congruence.
Qed.

(** X12. The verification after a login accepts nothing but the boolean
    [true] at [message.login]: when the three calls go through, the login
    step returns if the answer holds it, and raises the authentication
    error for every other answer - a missing field, a string, a number. *)
Theorem login_needs_the_boolean env email password h b1 b2 body info :
  login_info env = (email, password) ->
  email <> JNull -> password <> JNull ->
  http env h login_cookie_request = Some b1 ->
  http env (h ++ [Fetch login_cookie_request])
       (login_post_request env email password) = Some b2 ->
  http env (h ++ [Fetch login_cookie_request;
                  Fetch (login_post_request env email password)])
       login_info_request = Some body ->
  json_loads env body = Some info ->
  (py_path info ["message"; "login"] = Ok (JBool true) ->
   fst (VLiveIE._login env h) = Ok tt)
  /\ (py_path info ["message"; "login"] <> Ok (JBool true) ->
      fst (VLiveIE._login env h) = Raise (ExtractorError "Unable to log in" true)).
Proof.
  intros Hc He Hp H1 H2 H3 Hj.
  assert (Hn : py_in_none email password = false).
  { destruct (py_in_none email password) eqn:E; [|reflexivity].
    apply py_in_none_spec in E. tauto. }
  rewrite (login_cases _ _ _ _ Hc Hn), H1. cbv zeta. rewrite H2, H3, Hj.
  cbn [fst].
  destruct (truthy (try_get (py_path info ["message"; "login"]) is_bool)) eqn:Ht.
  - apply logged_in_iff in Ht. split; [reflexivity | congruence].
  - split; [|reflexivity]. intros Hok. apply logged_in_iff in Hok. congruence.
Qed.

Lemma login_needs_the_boolean_witness :
  fst (VLiveIE._login (login_env (JStr "me@example.org", JStr "pw") (JStr "true")) [])
  = Raise (ExtractorError "Unable to log in" true).
Proof.
  apply (login_needs_the_boolean
           (login_env (JStr "me@example.org", JStr "pw") (JStr "true"))
           (JStr "me@example.org") (JStr "pw") [] "<form>" "<form>" "INFO"
           (JObj [("message", JObj [("login", JStr "true")])]));
    try reflexivity; discriminate.
Defined.

(** X13. The calls of the login step are always a beginning of the same
    three, in this order: the request for the login cookies, the post of
    the credentials, the login info. The credentials leave only after the
    cookie request has gone through, and the login is verified only after
    the post has. *)
Theorem login_calls_in_order env email password h :
  login_info env = (email, password) ->
  exists n,
    snd (VLiveIE._login env h)
    = firstn n [Fetch login_cookie_request;
                Fetch (login_post_request env email password);
                Fetch login_info_request]
    /\ (2 <= n -> http env h login_cookie_request <> None)
    /\ (3 <= n ->
        http env (h ++ [Fetch login_cookie_request])
             (login_post_request env email password) <> None)
    /\ (0 < n -> email <> JNull /\ password <> JNull).
Proof.
  intros Hc. destruct (py_in_none email password) eqn:Hn.
  - exists 0. unfold VLiveIE._login. rewrite Hc, Hn.
    repeat split; try lia. 
  - assert (Hboth : email <> JNull /\ password <> JNull).
    { split; intros ->; [|destruct email]; discriminate. }
    rewrite (login_cases _ _ _ _ Hc Hn). cbv zeta.
    destruct (http env h login_cookie_request) as [b1|].
    2:{ exists 1. repeat split; try lia; tauto. }
    destruct (http env (h ++ [Fetch login_cookie_request]) _) as [b2|].
    2:{ exists 2. repeat split; try lia; try tauto; discriminate. }
    exists 3. repeat split; try tauto; discriminate.
Qed.

Lemma login_calls_in_order_witness :
  exists n,
    snd (VLiveIE._login (login_env (JStr "me@example.org", JStr "pw") (JBool true)) [])
    = firstn n [Fetch login_cookie_request;
                Fetch (login_post_request
                         (login_env (JStr "me@example.org", JStr "pw") (JBool true))
                         (JStr "me@example.org") (JStr "pw"));
                Fetch login_info_request]
    /\ (2 <= n ->
        http (login_env (JStr "me@example.org", JStr "pw") (JBool true)) []
             login_cookie_request <> None)
    /\ (3 <= n ->
        http (login_env (JStr "me@example.org", JStr "pw") (JBool true))
             ([] ++ [Fetch login_cookie_request])
             (login_post_request
                (login_env (JStr "me@example.org", JStr "pw") (JBool true))
                (JStr "me@example.org") (JStr "pw")) <> None)
    /\ (0 < n -> JStr "me@example.org" <> JNull /\ JStr "pw" <> JNull).
Proof.
  apply (login_calls_in_order
           (login_env (JStr "me@example.org", JStr "pw") (JBool true))
           (JStr "me@example.org") (JStr "pw") []).
  reflexivity.
Defined.

Ltac assoc_strings :=
  repeat first [rewrite append_assoc | progress cbn [String.append]].

Lemma consumed_of pre s x : x = pre ^^ s -> Re.consumed x s = pre.
Proof. intros ->. apply consumed_append. Qed.

Lemma app_js_shape webpage caps :
  Re.search VLiveChannelIE.APP_JS_RE webpage = Some caps ->
  exists quote js_url, caps = [quote; js_url] /\ js_url <> "".
Proof.
  intros H. destruct (search_sound _ _ _ H) as (sk & s0 & -> & Hm).
  destruct (match_sound _ _ _ Hm) as (s' & Hr).
  cbn [re_run VLiveChannelIE.APP_JS_RE] in Hr.
  destruct Hr as (s1 & -> & p1 & s2 & -> & _ & _ & s3 & -> & q & s4 & -> & _
                  & top & st & Htop & s5 & -> & p2 & s6 & -> & _ & _
                  & s7 & -> & p3 & s8 & -> & _
                  & top2 & st2 & Htop2 & g & s9 & Hg & -> & -> & ->).
  injection Htop as <- <-. injection Htop2 as <- <-.
  do 2 eexists. split; [reflexivity|].
  match goal with
  | |- Re.consumed ?x (g ^^ s9) <> "" =>
      rewrite (consumed_of ("http" ^^ p2 ^^ "/app.js" ^^ p3) (g ^^ s9) x)
        by (assoc_strings; reflexivity)
  end.
  discriminate.
Qed.

Lemma app_id_shape body caps :
  Re.search VLiveChannelIE.APP_ID_RE body = Some caps ->
  exists app_id, caps = [app_id] /\ app_id <> "".
Proof.
  intros H. destruct (search_sound _ _ _ H) as (sk & s0 & -> & Hm).
  destruct (match_sound _ _ _ Hm) as (s' & Hr).
  cbn [re_run VLiveChannelIE.APP_ID_RE] in Hr.
  destruct Hr as (s1 & -> & p1 & s2 & -> & _ & s3 & -> & p2 & s4 & -> & _
                  & q & s5 & -> & _ & id & s6 & -> & Hne & _
                  & top & st & Htop & q2 & s7 & -> & _ & -> & ->).
  injection Htop as <- <-. rewrite consumed_append. exists id. auto.
Qed.

Lemma truthy_str s : s <> "" -> truthy (JStr s) = true.
Proof. destruct s; [congruence | reflexivity]. Qed.

Lemma find_app_id_cases env webpage channel_code h :
  VLiveChannelIE.find_app_id env webpage channel_code h
  = match Re.search VLiveChannelIE.APP_JS_RE webpage with
    | None => (Ok (JStr VLiveChannelIE._APP_ID), [])
    | Some caps =>
        match nth_error caps 1 with
        | None => (Raise AssertionError, [])
        | Some js =>
            if truthy (JStr js) then
              match http env h (mkRequest js [] None []) with
              | None => (Ok (JStr VLiveChannelIE._APP_ID),
                         [Fetch (mkRequest js [] None []);
                          Warning "Unable to download webpage"])
              | Some body =>
                  if truthy (JStr body) then
                    match Re.search VLiveChannelIE.APP_ID_RE body with
                    | None => (Ok (JStr VLiveChannelIE._APP_ID),
                               [Fetch (mkRequest js [] None [])])
                    | Some found =>
                        match nth_error found 0 with
                        | None => (Raise AssertionError,
                                   [Fetch (mkRequest js [] None [])])
                        | Some app_id =>
                            (Ok (if truthy (JStr app_id) then JStr app_id
                                 else JStr VLiveChannelIE._APP_ID),
                             [Fetch (mkRequest js [] None [])])
                        end
                    end
                  else (Ok (JStr VLiveChannelIE._APP_ID),
                        [Fetch (mkRequest js [] None [])])
              end
            else (Ok (JStr VLiveChannelIE._APP_ID), [])
        end
    end.
Proof.
  unfold VLiveChannelIE.find_app_id, InfoExtractor._search_regex.
  destruct (Re.search VLiveChannelIE.APP_JS_RE webpage) as [caps|];
    [|reflexivity].
  destruct (nth_error caps 1) as [js|]; [|reflexivity].
  rewrite bind_ret. destruct (truthy (JStr js)); [|reflexivity].
  unfold bind, ret, raise, InfoExtractor._download_webpage_nonfatal.
  destruct (http env h (mkRequest js [] None [])) as [body|]; [|reflexivity].
  destruct (truthy (JStr body)); [|reflexivity].
  destruct (Re.search VLiveChannelIE.APP_ID_RE body) as [found|]; [|reflexivity].
  destruct (nth_error found 0) as [app_id|]; [|reflexivity].
  destruct (truthy (JStr app_id)); reflexivity.
Qed.

(** X14. Finding the app id never fails and never comes back empty-handed:
    it makes at most one request, for the script the page names, and
    whatever that request and the script give it returns a non-empty id,
    the built-in one when the page names no script, when the script cannot
    be fetched or is empty, and when the script shows no id. *)
Theorem app_id_is_always_found env webpage channel_code h :
  exists app_id evs,
    VLiveChannelIE.find_app_id env webpage channel_code h = (Ok app_id, evs)
    /\ truthy app_id = true
    /\ count is_fetch evs <= 1
    /\ (Re.search VLiveChannelIE.APP_JS_RE webpage = None ->
        app_id = JStr VLiveChannelIE._APP_ID /\ evs = [])
    /\ (forall quote js_url,
           Re.search VLiveChannelIE.APP_JS_RE webpage = Some [quote; js_url] ->
           (http env h (mkRequest js_url [] None []) = None ->
            app_id = JStr VLiveChannelIE._APP_ID)
           /\ (forall body,
                  http env h (mkRequest js_url [] None []) = Some body ->
                  (Re.search VLiveChannelIE.APP_ID_RE body = None ->
                   app_id = JStr VLiveChannelIE._APP_ID)
                  /\ (forall found,
                         body <> "" ->
                         Re.search VLiveChannelIE.APP_ID_RE body = Some [found] ->
                         app_id = JStr found))).
Proof.
  rewrite find_app_id_cases.
  destruct (Re.search VLiveChannelIE.APP_JS_RE webpage) as [caps|] eqn:Hjs.
  2:{ do 2 eexists. split; [reflexivity|]. split; [reflexivity|].
      split; [unfold count; simpl; lia|]. split; [auto|]. discriminate. }
  destruct (app_js_shape _ _ Hjs) as (q & js & -> & Hne).
  cbn [nth_error]. rewrite (truthy_str _ Hne).
  destruct (http env h (mkRequest js [] None [])) as [body|] eqn:Hb.
  2:{ do 2 eexists. split; [reflexivity|]. split; [reflexivity|].
      split; [unfold count; simpl; lia|]. split; [discriminate|].
      intros q' js' E. injection E as <- <-. rewrite Hb.
      split; [reflexivity | discriminate]. }
  destruct (truthy (JStr body)) eqn:Hbody.
  2:{ do 2 eexists. split; [reflexivity|]. split; [reflexivity|].
      split; [unfold count; simpl; lia|]. split; [discriminate|].
      intros q' js' E. injection E as <- <-. rewrite Hb.
      split; [discriminate|]. intros body' E. injection E as <-.
      split; [reflexivity|]. intros found Hnb. destruct body; [congruence|].
      discriminate. }
  destruct (Re.search VLiveChannelIE.APP_ID_RE body) as [caps|] eqn:Hid.
  - destruct (app_id_shape _ _ Hid) as (found & -> & Hf).
    cbn [nth_error]. rewrite (truthy_str _ Hf).
    do 2 eexists. split; [reflexivity|]. split; [apply truthy_str, Hf|].
    split; [unfold count; simpl; lia|]. split; [discriminate|].
    intros q' js' E. injection E as <- <-. rewrite Hb.
    split; [discriminate|]. intros body' E. injection E as <-.
    split; [rewrite Hid; discriminate|]. intros found' _ E. rewrite Hid in E.
    injection E as <-. reflexivity.
  - do 2 eexists. split; [reflexivity|]. split; [reflexivity|].
    split; [unfold count; simpl; lia|]. split; [discriminate|].
    intros q' js' E. injection E as <- <-. rewrite Hb.
    split; [discriminate|]. intros body' E. injection E as <-.
    split; [reflexivity|]. intros found' _ E. rewrite Hid in E. discriminate.
Qed.

(** The page names a script; the script is fetched and shows an id, or does
    not, or cannot be fetched. *)
Example app_id_from_the_script :
  VLiveChannelIE.find_app_id (script_env (Some "Global.VFAN_APP_ID = 'abc123';"))
    "<script type='text/javascript' src='http://s.vlive.tv/js/app.js?v=3'>"
    "FCD4B" []
  = (Ok (JStr "abc123"),
     [Fetch (mkRequest "http://s.vlive.tv/js/app.js?v=3" [] None [])])
  /\ VLiveChannelIE.find_app_id (script_env (Some "var x = 1;"))
       "<script type='text/javascript' src='http://s.vlive.tv/js/app.js?v=3'>"
       "FCD4B" []
     = (Ok (JStr VLiveChannelIE._APP_ID),
        [Fetch (mkRequest "http://s.vlive.tv/js/app.js?v=3" [] None [])])
  /\ VLiveChannelIE.find_app_id (script_env None)
       "<script type='text/javascript' src='http://s.vlive.tv/js/app.js?v=3'>"
       "FCD4B" []
     = (Ok (JStr VLiveChannelIE._APP_ID),
        [Fetch (mkRequest "http://s.vlive.tv/js/app.js?v=3" [] None []);
         Warning "Unable to download webpage"]).
Proof. repeat split. Qed.

Lemma app_id_is_always_found_witness :
  exists app_id evs,
    VLiveChannelIE.find_app_id (script_env None)
      "<script type='text/javascript' src='http://s.vlive.tv/js/app.js?v=3'>"
      "FCD4B" [] = (Ok app_id, evs)
    /\ truthy app_id = true /\ count is_fetch evs <= 1.
Proof.
  destruct (app_id_is_always_found (script_env None)
              "<script type='text/javascript' src='http://s.vlive.tv/js/app.js?v=3'>"
              "FCD4B" []) as (app_id & evs & Hrun & Ht & Hc & _).
  exists app_id, evs. auto.
Defined.

(** X15. The pagination loop only adds: the entries it returns begin with
    the entries it started from, and a channel name, once found, is kept -
    the name of a later page never replaces it. *)
Theorem pagination_only_adds env code app_id seq fuel :
  forall n name entries h name' entries',
    fst (VLiveChannelIE.channel_pages env fuel code app_id seq n name entries h)
    = Ok (Some (name', entries')) ->
    (exists added, entries' = entries ++ added)
    /\ (truthy name = true -> name' = name).
Proof.
  induction fuel as [|fuel IH]; intros n name entries h name' entries';
    [discriminate|].
  rewrite channel_pages_step. cbv zeta.
  destruct (http env h _) as [body|]; [|discriminate].
  destruct (json_loads env body) as [doc|]; [|discriminate].
  destruct (negb (truthy (video_list_of doc))).
  - intros H. injection H as <- <-. split; [exists []; symmetry; apply app_nil_r|].
    intros ->. reflexivity.
  - destruct (py_iter (video_list_of doc)) as [items|]; [|discriminate].
    cbn [rbind].
    destruct (VLiveChannelIE.page_entries env items entries) as [entries1|] eqn:Hp;
      [|discriminate].
    cbn [fst]. intros H. apply IH in H as [(added & ->) Hname]. split.
    + assert (Hpre : exists kept, entries1 = entries ++ kept).
      { clear - Hp. revert entries entries1 Hp.
        induction items as [|v items IHi]; intros entries entries1; simpl.
        - intros H. injection H as <-. exists []. symmetry. apply app_nil_r.
        - destruct (py_get v "videoSeq" JNull) as [vs|]; [|discriminate]. simpl.
          destruct (negb (truthy vs)); [apply IHi|].
          intros H. apply IHi in H as (kept & ->). rewrite <- app_assoc. eauto. }
      destruct Hpre as (kept & ->). rewrite <- app_assoc. eauto.
    + intros Ht. rewrite Ht in Hname. cbn [negb] in Hname. auto.
Qed.

Lemma pagination_only_adds_witness :
  channel_name_of (channel_page "MAMAMOO" (map channel_item (seq 101 37)))
  = JStr "MAMAMOO"
  /\ exists name' entries',
      fst (VLiveChannelIE.channel_pages channel_env 5 "FCD4B"
             (JStr VLiveChannelIE._APP_ID) (JNum 7) 2 (JStr "GIVEN")
             [VLiveChannelIE.video_entry "0"] [])
      = Ok (Some (name', entries'))
      /\ length entries' = 38
      /\ (exists added, entries' = [VLiveChannelIE.video_entry "0"] ++ added)
      /\ (truthy (JStr "GIVEN") = true -> name' = JStr "GIVEN").
Proof.
  split; [reflexivity|].
  exists (JStr "GIVEN"),
    (VLiveChannelIE.video_entry "0"
     :: map (fun i => VLiveChannelIE.video_entry (str_of_Z (Z.of_nat i)))
            (seq 101 37)).
  split; [vm_compute; reflexivity|]. split; [reflexivity|].
  apply (pagination_only_adds channel_env "FCD4B" (JStr VLiveChannelIE._APP_ID)
           (JNum 7) 5 2%Z (JStr "GIVEN") [VLiveChannelIE.video_entry "0"] []).
  vm_compute. reflexivity.
Defined.

(** X16. The pagination loop asks for nothing but pages of the video list,
    one after the other from the page it starts at, each with 100 rows; it
    makes no more requests than it has fuel. *)
Theorem pagination_asks_consecutive_pages env code app_id seq fuel :
  forall n name entries h,
    snd (VLiveChannelIE.channel_pages env fuel code app_id seq n name entries h)
    = map (fun i => Fetch (VLiveChannelIE.list_request env app_id seq
                             (n + Z.of_nat i)))
          (List.seq 0 (length (snd (VLiveChannelIE.channel_pages env fuel code
                                      app_id seq n name entries h))))
    /\ length (snd (VLiveChannelIE.channel_pages env fuel code app_id seq n
                      name entries h)) <= fuel.
Proof.
  induction fuel as [|fuel IH]; intros n name entries h; [split; auto|].
  rewrite channel_pages_step. cbv zeta.
  assert (H1 : forall r : result (option (json * list ie_result)),
             snd (r, [Fetch (VLiveChannelIE.list_request env app_id seq n)])
             = map (fun i => Fetch (VLiveChannelIE.list_request env app_id seq
                                      (n + Z.of_nat i)))
                   (List.seq 0 (length (snd (r, [Fetch (VLiveChannelIE.list_request
                                                          env app_id seq n)]))))
             /\ length (snd (r, [Fetch (VLiveChannelIE.list_request env app_id
                                          seq n)])) <= S fuel).
  { intros r. cbn [snd length List.seq map]. rewrite Z.add_0_r.
    split; [reflexivity | lia]. }
  destruct (http env h _) as [body|]; [|apply H1].
  destruct (json_loads env body) as [doc|]; [|apply H1].
  destruct (negb (truthy (video_list_of doc))); [apply H1|].
  destruct (rbind _ _) as [entries1|]; [|apply H1].
  cbn [snd length List.seq map].
  destruct (IH (n + 1)%Z
               (if negb (truthy name) then channel_name_of doc else name)
               entries1
               (h ++ [Fetch (VLiveChannelIE.list_request env app_id seq n)]))
    as [Hev Hlen].
  split; [|lia]. rewrite Z.add_0_r. f_equal.
  rewrite <- seq_shift, map_map. rewrite Hev at 1. apply map_ext.
  intros i. do 2 f_equal. lia.
Qed.

Lemma channel_url_shape u caps :
  Re.match_ VLiveChannelIE._VALID_URL u = Some caps ->
  exists code rest,
    caps = [code] /\ code <> "" /\ all_chars Re.digit_or_upper code = true
    /\ (u = "https://channels.vlive.tv/" ^^ code ^^ rest
        \/ u = "http://channels.vlive.tv/" ^^ code ^^ rest).
Proof.
  intros H. destruct (match_sound _ _ _ H) as (s' & Hr).
  cbn [re_run VLiveChannelIE._VALID_URL] in Hr.
  destruct Hr as (scheme & s1 & Hscheme & -> & s2 & -> & code & rest & -> & Hne
                  & Hall & top & st & Htop & -> & ->).
  injection Htop as <- <-. rewrite consumed_append.
  exists code, rest. repeat split; auto.
  destruct Hscheme as [<- | [<- | []]]; auto.
Qed.

(** X17. The playlist a channel extraction returns is filed under the
    channel code of the URL, a non-empty run of digits and capitals, and
    the first request of the extraction is for that channel's video page. *)
Theorem channel_playlist_is_under_its_code env fuel u h entries id title :
  fst (VLiveChannelIE._real_extract env fuel u h)
  = Ok (Some (PlaylistResult entries id title)) ->
  id <> "" /\ all_chars Re.digit_or_upper id = true
  /\ (exists rest, u = "https://channels.vlive.tv/" ^^ id ^^ rest
                   \/ u = "http://channels.vlive.tv/" ^^ id ^^ rest)
  /\ exists evs,
      snd (VLiveChannelIE._real_extract env fuel u h)
      = Fetch (channel_page_request id) :: evs.
Proof.
  unfold VLiveChannelIE._real_extract, InfoExtractor._match_id.
  destruct (Re.match_ VLiveChannelIE._VALID_URL u) as [caps|] eqn:Hm;
    [|discriminate].
  destruct (channel_url_shape _ _ Hm) as (code & rest & -> & Hne & Hall & Hu).
  cbn [nth_error]. rewrite bind_ret. fold (channel_page_request code).
  rewrite bind_snd, download_webpage_events. intros H.
  apply bind_ok_inv in H as (w & _ & H).
  apply bind_ok_inv in H as (a & _ & H).
  apply bind_ok_inv in H as (ci & _ & H).
  apply bind_ok_inv in H as (cs & _ & H).
  apply bind_ok_inv in H as (looped & _ & H).
  destruct looped as [[name' entries']|]; [|discriminate].
  injection H as <- <- <-.
  split; [exact Hne|]. split; [exact Hall|]. split; [exists rest; tauto|].
  eexists. reflexivity.
Qed.

Lemma channel_playlist_is_under_its_code_witness :
  "FCD4B" <> "" /\ all_chars Re.digit_or_upper "FCD4B" = true
  /\ (exists rest, "http://channels.vlive.tv/FCD4B"
                   = "https://channels.vlive.tv/" ^^ "FCD4B" ^^ rest
                   \/ "http://channels.vlive.tv/FCD4B"
                      = "http://channels.vlive.tv/" ^^ "FCD4B" ^^ rest)
  /\ exists evs,
      snd (VLiveChannelIE._real_extract channel_env 10
             "http://channels.vlive.tv/FCD4B" [])
      = Fetch (channel_page_request "FCD4B") :: evs.
Proof.
  apply (channel_playlist_is_under_its_code channel_env 10
           "http://channels.vlive.tv/FCD4B" []
           (map (fun i => VLiveChannelIE.video_entry (str_of_Z (Z.of_nat i)))
                (seq 1 137))
           "FCD4B" (JStr "MAMAMOO")).
  vm_compute. reflexivity.
Defined.

(** X18. A page item that is not an object stops the whole listing: the
    loop raises [AttributeError] at that page, whatever the entries of the
    pages before, and asks for no further page. *)
Theorem channel_item_must_be_an_object env fuel code app_id seq n name entries
        h body doc good bad rest :
  http env h (VLiveChannelIE.list_request env app_id seq n) = Some body ->
  json_loads env body = Some doc ->
  video_list_of doc = JArr (good ++ bad :: rest) ->
  forallb is_dict good = true ->
  is_dict bad = false ->
  VLiveChannelIE.channel_pages env (S fuel) code app_id seq n name entries h
  = (Raise AttributeError, [Fetch (VLiveChannelIE.list_request env app_id seq n)]).
Proof.
  intros Hb Hd Hv Hgood Hbad. rewrite channel_pages_step. cbv zeta.
  rewrite Hb, Hd, Hv.
  assert (Hne : negb (truthy (JArr (good ++ bad :: rest))) = false).
  { destruct good; reflexivity. }
  rewrite Hne. cbn [py_iter rbind].
  assert (Hp : forall acc,
             VLiveChannelIE.page_entries env (good ++ bad :: rest) acc
             = Raise AttributeError).
  { clear - Hgood Hbad. induction good as [|v good IH]; intros acc.
    - cbn [app VLiveChannelIE.page_entries].
      destruct bad; try reflexivity. discriminate.
    - simpl in Hgood. apply andb_true_iff in Hgood as [Hv Hgood].
      cbn [app VLiveChannelIE.page_entries]. rewrite (get_videoSeq _ Hv).
      cbn [rbind]. destruct (negb (truthy (videoSeq v))); apply IH; exact Hgood. }
  rewrite Hp. reflexivity.
Qed.

Lemma channel_item_must_be_an_object_witness :
  VLiveChannelIE.channel_pages broken_env 3 "FCD4B" (JStr VLiveChannelIE._APP_ID)
    (JNum 7) 1 JNull [] []
  = (Raise AttributeError,
     [Fetch (VLiveChannelIE.list_request broken_env (JStr VLiveChannelIE._APP_ID)
               (JNum 7) 1)]).
Proof.
  apply (channel_item_must_be_an_object broken_env 2 "FCD4B"
           (JStr VLiveChannelIE._APP_ID) (JNum 7) 1%Z JNull [] [] "P1"
           (channel_page "MAMAMOO" [channel_item 5; JNum 6; channel_item 7])
           [channel_item 5] (JNum 6) [channel_item 7]); reflexivity.
Defined.

(** X19. A post resolves to its video with one request, for the URL as it
    was given: the result points at the video page of the [videoSeq] of
    the page state and carries that value as it is; a page state without
    the field is the [KeyError] of the lookup. No key is fetched. *)
Theorem post_resolves_to_its_video env u video_id webpage preload_state h :
  InfoExtractor._match_id VLivePostIE._VALID_URL 0 u h = (Ok video_id, []) ->
  http env h (mkRequest u [] None []) = Some webpage ->
  fst (VLiveIE.parse_preload_state env webpage video_id
         (h ++ [Fetch (mkRequest u [] None [])])) = Ok preload_state ->
  (forall vid_id,
      py_path preload_state (officialVideo ++ ["videoSeq"]) = Ok vid_id ->
      VLivePostIE._real_extract env u h
      = (Ok (UrlResult ("http://www.vlive.tv/video/" ^^ py_str env vid_id)
                       VLiveIE.ie_key vid_id),
         [Fetch (mkRequest u [] None [])]))
  /\ (forall e,
         py_path preload_state (officialVideo ++ ["videoSeq"]) = Raise e ->
         VLivePostIE._real_extract env u h
         = (Raise e, [Fetch (mkRequest u [] None [])])).
Proof.
  intros Hm Hpage Hparse. unfold VLivePostIE._real_extract.
  rewrite (bind_ok _ _ _ _ _ Hm), app_nil_r. cbn [fst snd app].
  rewrite (bind_ok _ _ _ _ _ (download_webpage_ok _ _ _ _ Hpage)).
  rewrite bind_fst, bind_snd, parse_preload_state_events, Hparse, app_nil_r.
  cbn [fst snd app].
  split.
  - intros vid_id ->. rewrite bind_lift_ok. reflexivity.
  - intros e ->. reflexivity.
Qed.

Lemma post_resolves_to_its_video_witness :
  VLivePostIE._real_extract post_env "https://www.vlive.tv/post/1-19664999" []
  = (Ok (UrlResult "http://www.vlive.tv/video/1326" "VLive" (JNum 1326)),
     [Fetch (mkRequest "https://www.vlive.tv/post/1-19664999" [] None [])]).
Proof.
  apply (proj1 (post_resolves_to_its_video post_env
                  "https://www.vlive.tv/post/1-19664999" "1-19664999" Mock.page
                  (Mock.state "VOD" false) [] eq_refl eq_refl eq_refl)
               (JNum 1326)).
  reflexivity.
Defined.

(* ===================================================================== *)
(** ** Whole runs *)
(* ===================================================================== *)

(** X20. A channel whose code cannot be decoded gives an error and not an
    empty playlist: when the decode answer has no [result.channelSeq] the
    extraction raises the error of the lookup right after the decode
    request, and no page of the video list is asked for. *)
Theorem channel_needs_its_seq env fuel u channel_code webpage app_id evs body
        info e h :
  InfoExtractor._match_id VLiveChannelIE._VALID_URL 0 u h = (Ok channel_code, []) ->
  http env h (channel_page_request channel_code) = Some webpage ->
  VLiveChannelIE.find_app_id env webpage channel_code
    (h ++ [Fetch (channel_page_request channel_code)]) = (Ok app_id, evs) ->
  http env ((h ++ [Fetch (channel_page_request channel_code)]) ++ evs)
       (decode_request env app_id channel_code) = Some body ->
  json_loads env body = Some info ->
  py_path info ["result"; "channelSeq"] = Raise e ->
  VLiveChannelIE._real_extract env fuel u h
  = (Raise e,
     Fetch (channel_page_request channel_code)
     :: evs ++ [Fetch (decode_request env app_id channel_code)])
  /\ (e = TypeError \/ exists k, e = KeyError k).
Proof.
  intros Hm Hpage Hfind Hdec Hj Hseq. split.
  - unfold VLiveChannelIE._real_extract.
    rewrite (bind_ok _ _ _ _ _ Hm), app_nil_r. cbn [fst snd app].
    fold (channel_page_request channel_code).
    rewrite (bind_ok _ _ _ _ _ (download_webpage_ok _ _ _ _ Hpage)).
    rewrite (bind_ok _ _ _ _ _ Hfind). fold (decode_request env app_id channel_code).
    rewrite (pair_eta (bind _ _ _)), bind_fst, bind_snd, download_json_cases.
    rewrite Hdec, Hj. cbn [fst snd]. rewrite Hseq. reflexivity.
  - apply (raises_path (fun e => e = TypeError \/ exists k, e = KeyError k)
             info ["result"; "channelSeq"]); eauto.
Qed.

Lemma channel_needs_its_seq_witness :
  VLiveChannelIE._real_extract undecoded_env 10 "http://channels.vlive.tv/FCD4B" []
  = (Raise (KeyError "channelSeq"),
     Fetch (channel_page_request "FCD4B")
     :: [] ++ [Fetch (decode_request undecoded_env (JStr VLiveChannelIE._APP_ID)
                        "FCD4B")]).
Proof.
  apply (channel_needs_its_seq undecoded_env 10 "http://channels.vlive.tv/FCD4B"
           "FCD4B" "<html></html>" (JStr VLiveChannelIE._APP_ID) [] "DECODE"
           (JObj [("result", JObj [])]) (KeyError "channelSeq") []);
    reflexivity.
Defined.

(** X21. The common fields are all or nothing, and cost no call: they are
    returned exactly when the post has a string title and the channel name
    and the thumbnail are there, the title behind the fixed tag; a title
    that is not a string is a [TypeError]; the outcome does not depend on
    what was fetched before. *)
Theorem common_fields_all_or_nothing preload_state h :
  snd (VLiveIE._get_common_fields preload_state h) = []
  /\ fst (VLiveIE._get_common_fields preload_state h)
     = fst (VLiveIE._get_common_fields preload_state [])
  /\ (forall common,
         fst (VLiveIE._get_common_fields preload_state h) = Ok common
         <-> exists t creator thumb,
             py_path preload_state ["postDetail"; "post"; "title"] = Ok (JStr t)
             /\ py_path preload_state ["channel"; "channel"; "channelName"]
                = Ok creator
             /\ py_path preload_state (officialVideo ++ ["thumb"]) = Ok thumb
             /\ common = [("title", PJ (JStr ("[V LIVE] " ^^ t)));
                          ("creator", PJ creator); ("thumbnail", PJ thumb)])
  /\ (forall v,
         py_path preload_state ["postDetail"; "post"; "title"] = Ok v ->
         is_str v = false ->
         fst (VLiveIE._get_common_fields preload_state h) = Raise TypeError).
Proof.
  rewrite (common_fields_pure preload_state h). cbn [fst snd].
  split; [reflexivity|]. split; [reflexivity|]. split.
  - intros common. split; [apply common_fields_inv|].
    intros (t & c & th & Ht & Hc & Hth & ->). unfold VLiveIE._get_common_fields.
    rewrite Ht, bind_lift_ok, bind_ret, Hc, bind_lift_ok, Hth, bind_lift_ok.
    reflexivity.
  - intros v Hv Hs. unfold VLiveIE._get_common_fields.
    rewrite Hv, bind_lift_ok. destruct v; try reflexivity. discriminate.
Qed.

Lemma common_fields_all_or_nothing_witness :
  fst (VLiveIE._get_common_fields
         (JObj [("postDetail", JObj [("post", JObj [("title", JNum 7)])])]) [])
  = Raise TypeError.
Proof.
  apply (common_fields_all_or_nothing
           (JObj [("postDetail", JObj [("post", JObj [("title", JNum 7)])])]) [])
    with (v := JNum 7); reflexivity.
Defined.

(** X22. A replay ([VOD_ON_AIR], [BIG_EVENT_INTRO], [VOD]) is three calls:
    the page, the key, and the format collaborator, which is given the id
    of the URL, the [vodId] of the page state and the [inkey] of the key
    answer; its formats, merged under the common fields, are the result,
    and its error is the error of the extraction. *)
Theorem replay_is_three_calls env u video_id webpage preload_state upcoming
        vid_type body key_json key long_video_id common h :
  InfoExtractor._match_id VLiveIE._VALID_URL 0 u h = (Ok video_id, []) ->
  http env h (page_request video_id) = Some webpage ->
  fst (VLiveIE.parse_preload_state env webpage video_id
         (h ++ [Fetch (page_request video_id)])) = Ok preload_state ->
  py_path preload_state (officialVideo ++ ["upcomingYn"]) = Ok upcoming ->
  py_path preload_state (officialVideo ++ ["type"]) = Ok vid_type ->
  py_in vid_type ["VOD_ON_AIR"; "BIG_EVENT_INTRO"; "VOD"] = true ->
  http env (h ++ [Fetch (page_request video_id)]) (key_request video_id)
  = Some body ->
  json_loads env body = Some key_json ->
  py_getitem key_json "inkey" = Ok key ->
  py_path preload_state (officialVideo ++ ["vodId"]) = Ok long_video_id ->
  fst (VLiveIE._get_common_fields preload_state []) = Ok common ->
  VLiveIE._real_extract env u h
  = (match naver_video_info env
             (h ++ [Fetch (page_request video_id); Fetch (key_request video_id)])
             video_id long_video_id key with
     | Ok video_info => Ok (Video (merge_dicts common video_info))
     | Raise e => Raise e
     end,
     [Fetch (page_request video_id); Fetch (key_request video_id);
      VideoInfo video_id long_video_id key]).
Proof.
  intros Hm Hpage Hparse Hup Hty Hvod Hb Hj Hk Hlv Hc.
  assert (Hne : vid_type <> JStr "LIVE") by (intros ->; discriminate).
  assert (Hlive : py_in vid_type ["LIVE_ON_AIR"; "BIG_EVENT_ON_AIR"; "LIVE"] = false).
  { destruct vid_type; try reflexivity. rewrite !py_in_cons in *. simpl in *.
    destruct (String.eqb_spec s "VOD_ON_AIR") as [->|_]; [reflexivity|].
    destruct (String.eqb_spec s "BIG_EVENT_INTRO") as [->|_]; [reflexivity|].
    destruct (String.eqb_spec s "VOD") as [->|_]; [reflexivity|discriminate]. }
  rewrite (real_extract_cases _ _ _ _ Hm), Hpage. cbv zeta.
  rewrite Hparse, Hup, Hty, (status_and_key_other _ _ _ _ _ Hne), Hb, Hj, Hk.
  cbn [fst snd]. rewrite <- app_assoc. cbn [app].
  unfold VLiveIE.dispatch. rewrite Hlive, Hvod. unfold VLiveIE._replay.
  rewrite Hlv, bind_lift_ok.
  rewrite bind_fst, bind_snd, common_fields_pure, Hc. cbn [fst snd app].
  rewrite app_nil_r. unfold NaverBaseIE._extract_video_info, bind, ret.
  destruct (naver_video_info env _ video_id long_video_id key); reflexivity.
Qed.

Lemma replay_is_three_calls_witness :
  VLiveIE._real_extract (Mock.video_env "VOD" false (JObj [("inkey", JStr "k")]))
                        "http://www.vlive.tv/video/1326" []
  = (match naver_video_info
             (Mock.video_env "VOD" false (JObj [("inkey", JStr "k")]))
             ([] ++ [Fetch (page_request "1326"); Fetch (key_request "1326")])
             "1326" (JStr "LONG-ID") (JStr "k") with
     | Ok video_info =>
         Ok (Video (merge_dicts [("title", PJ (JStr "[V LIVE] Broadcast"));
                                 ("creator", PJ (JStr "Girls"));
                                 ("thumbnail", PJ (JStr "http://thumb"))]
                                video_info))
     | Raise e => Raise e
     end,
     [Fetch (page_request "1326"); Fetch (key_request "1326");
      VideoInfo "1326" (JStr "LONG-ID") (JStr "k")]).
Proof.
  apply (replay_is_three_calls
           (Mock.video_env "VOD" false (JObj [("inkey", JStr "k")]))
           "http://www.vlive.tv/video/1326" "1326" Mock.page
           (Mock.state "VOD" false) (JBool false) (JStr "VOD") "KEY"
           (JObj [("inkey", JStr "k")]) (JStr "k") (JStr "LONG-ID")); reflexivity.
Defined.

(** X23. A broadcast of type [LIVE] that is not upcoming goes to the Live
    strategy straight after the page: no key is asked for, and the result
    and the calls of the extraction are those of the strategy. *)
Theorem live_needs_no_key env u video_id webpage preload_state upcoming h :
  InfoExtractor._match_id VLiveIE._VALID_URL 0 u h = (Ok video_id, []) ->
  http env h (page_request video_id) = Some webpage ->
  fst (VLiveIE.parse_preload_state env webpage video_id
         (h ++ [Fetch (page_request video_id)])) = Ok preload_state ->
  py_path preload_state (officialVideo ++ ["upcomingYn"]) = Ok upcoming ->
  py_path preload_state (officialVideo ++ ["type"]) = Ok (JStr "LIVE") ->
  truthy upcoming = false ->
  VLiveIE._real_extract env u h
  = (fst (VLiveIE._live env video_id preload_state
            (h ++ [Fetch (page_request video_id)])),
     Fetch (page_request video_id)
     :: snd (VLiveIE._live env video_id preload_state
               (h ++ [Fetch (page_request video_id)])))
  /\ count (is_key_fetch video_id) (snd (VLiveIE._real_extract env u h)) = 0.
Proof.
  intros Hm Hpage Hparse Hup Hty Hfalse.
  rewrite (real_extract_cases _ _ _ _ Hm), Hpage. cbv zeta.
  rewrite Hparse, Hup, Hty, status_and_key_live, Hfalse. cbn [fst snd app].
  rewrite app_nil_r. unfold VLiveIE.dispatch. cbn [py_in existsb py_eq_str String.eqb Ascii.eqb orb].
  split; [reflexivity|].
  apply count_none. constructor; [reflexivity|].
  apply (emits_live (fun e => is_key_fetch video_id e = false)); reflexivity.
Qed.

Lemma live_needs_no_key_witness :
  count (is_key_fetch "1326")
        (snd (VLiveIE._real_extract
                (Mock.env [("https://www.vlive.tv/video/1326", Mock.page);
                           (VLiveIE.playinfo_url "1326", "PLAY")]
                          [("{STATE}", Mock.state "LIVE" false);
                           ("PLAY", JObj [("result", JObj [])])]
                          [] (JNull, JNull) JNull)
                "https://www.vlive.tv/video/1326" [])) = 0.
Proof.
  apply (live_needs_no_key
           (Mock.env [("https://www.vlive.tv/video/1326", Mock.page);
                      (VLiveIE.playinfo_url "1326", "PLAY")]
                     [("{STATE}", Mock.state "LIVE" false);
                      ("PLAY", JObj [("result", JObj [])])]
                     [] (JNull, JNull) JNull)
           "https://www.vlive.tv/video/1326" "1326" Mock.page
           (Mock.state "LIVE" false) (JBool false) []); reflexivity.
Defined.
